(** * HibernationBug: the hibernation-compatible Yjs relay and its client provider

    A shallow embedding of [YjsPartyServer] (the Room Actor) and of
    [YjsPartyProvider] (the Client Provider).

    Conventions of the embedding.
    - A [Uint8Array] is a [list byte]; a JavaScript string is a [string]
      that holds its UTF-8 text.  A [string] that is no UTF-8 stands for
      no JavaScript string: no decoder yields it and [JSON.parse] is never
      given it.
    - JavaScript numbers are [Z]: the numbers of the program are
      integers far below 2^53, where the floating point arithmetic of the
      source is exact.  The one exception is the number [readVarUint]
      makes of bytes that no encoder has written; see [number] for
      [Infinity] and [NaN].
    - A handler is a computation over a [World]: the actor's fields, the
      host (live connections and durable storage) and the trace of
      observable effects.  An exception keeps every mutation made before
      it was thrown, as in JavaScript.
    - [console.error] calls are all kept.  Of the [console.log] calls only
      those that are the sole action of a branch are kept; the banners that
      report timings are left out. *)

From Stdlib Require Import ZArith Lia.
From Stdlib Require Import Strings.Byte.
From stdpp Require Import gmap strings list pretty.

Local Open Scope Z_scope.

Abbreviation bytes := (list byte).

(** ** Bytes *)

Definition Z_of_byte (b : byte) : Z := Z.of_N (Byte.to_N b).

Definition byte_of_Z (z : Z) : byte :=
  match Byte.of_N (Z.to_N (z mod 256)) with
  | Some b => b
  | None => x00
  end.

(** [lo <= b <= hi] *)
Definition byteIn (lo hi : Z) (b : byte) : bool :=
  (lo <=? Z_of_byte b) && (Z_of_byte b <=? hi).

(** Well-formed UTF-8 (the Unicode standard, table 3-7): no overlong form,
    no surrogate, nothing above U+10FFFF, no sequence cut short. *)
Fixpoint utf8_valid (b : bytes) : bool :=
  match b with
  | [] => true
  | b1 :: rest =>
      if byteIn 0 127 b1 then utf8_valid rest
      else if byteIn 194 223 b1 then
        match rest with
        | b2 :: rest => byteIn 128 191 b2 && utf8_valid rest
        | _ => false
        end
      else if byteIn 224 239 b1 then
        match rest with
        | b2 :: b3 :: rest =>
            byteIn (if Z_of_byte b1 =? 224 then 160 else 128)
                   (if Z_of_byte b1 =? 237 then 159 else 191) b2
            && byteIn 128 191 b3 && utf8_valid rest
        | _ => false
        end
      else if byteIn 240 244 b1 then
        match rest with
        | b2 :: b3 :: b4 :: rest =>
            byteIn (if Z_of_byte b1 =? 240 then 144 else 128)
                   (if Z_of_byte b1 =? 244 then 143 else 191) b2
            && byteIn 128 191 b3 && byteIn 128 191 b4 && utf8_valid rest
        | _ => false
        end
      else false
  end.

(** [TextEncoder.encode] *)
Definition utf8_encode (s : string) : bytes := String.list_byte_of_string s.

(** [new TextDecoder('utf-8', { fatal: true, ignoreBOM: true }).decode(b)],
    the decoder of lib0: [None] where it throws a [TypeError], on bytes
    that are no UTF-8.  A byte order mark is kept. *)
Definition utf8_decode (b : bytes) : option string :=
  if utf8_valid b then Some (String.string_of_list_byte b) else None.

(** ** Exceptions of the JavaScript run time and of the libraries *)

Inductive Error : Type :=
| errorUnexpectedEndOfArray   (* lib0/decoding *)
| errorIntegerOutOfRange      (* lib0/decoding *)
| RangeError                  (* a typed-array view past the end of its buffer *)
| SyntaxError                 (* JSON.parse *)
| TypeError                   (* property access on null; TextDecoder on bytes that are no UTF-8 *)
| UnknownMessageType          (* y-protocols/sync: readSyncMessage *)
| UpdateDecodeError           (* Y.applyUpdate on bytes that are no update *)
| StateVectorDecodeError      (* Y.encodeStateAsUpdate on bytes that are no state vector *)
| StorageError.               (* ctx.storage rejected the operation *)

(** Result of a pure library call that may throw. *)
Inductive Thrown (A : Type) : Type :=
| Val (a : A)
| Exn (e : Error).
Arguments Val {A} a.
Arguments Exn {A} e.

(** ** lib0: binary constants, encoding and decoding *)

Module binary.
Definition BITS7 : Z := 127.
Definition BIT8 : Z := 128.
End binary.

Module number.
Definition MAX_SAFE_INTEGER : Z := 2 ^ 53 - 1.

(** The numbers of the program are integers, but for two that
    [readVarUint] can make.  A double is [Infinity] from [overflow] on.
    [NaN] is kept as a negative number: like [NaN] it is no tag and no
    sub-type and not greater than any number, and as the length of a view
    it gives the empty view. *)
Definition overflow : Z := 2 ^ 1024.
Definition NaN : Z := -1.
Definition isNaN (num : Z) : bool := num <? 0.
End number.

Module encoding.
Import binary.

(** An encoder is the sequence of bytes written so far. *)
Definition Encoder := bytes.

Definition createEncoder : Encoder := [].
Definition length (e : Encoder) : Z := Z.of_nat (List.length e).
Definition toUint8Array (e : Encoder) : bytes := e.

Definition write (e : Encoder) (num : Z) : Encoder := e ++ [byte_of_Z num].

(** [while (num > BITS7) { write(BIT8 | (BITS7 & num)); num = floor(num / 128) }
     write(BITS7 & num)].  The loop halves the bit length seven bits at a
    time; [fuel] bounds its iterations. *)
Fixpoint writeVarUint_loop (fuel : nat) (e : Encoder) (num : Z) : Encoder :=
  match fuel with
  | O => write e (Z.land BITS7 num)
  | S fuel' =>
      if BITS7 <? num
      then writeVarUint_loop fuel' (write e (Z.lor BIT8 (Z.land BITS7 num))) (num / 128)
      else write e (Z.land BITS7 num)
  end.

Definition writeVarUint (e : Encoder) (num : Z) : Encoder :=
  writeVarUint_loop (Z.to_nat (Z.log2 num)) e num.

Definition writeUint8Array (e : Encoder) (arr : bytes) : Encoder := e ++ arr.

Definition writeVarUint8Array (e : Encoder) (arr : bytes) : Encoder :=
  writeUint8Array (writeVarUint e (Z.of_nat (List.length arr))) arr.

Definition writeVarString (e : Encoder) (s : string) : Encoder :=
  writeVarUint8Array e (utf8_encode s).
End encoding.

Module decoding.
Import binary number.

(** A decoder [{arr, pos}] is represented by the unread suffix
    [arr.subarray(pos)]. *)
Definition Decoder := bytes.

Definition createDecoder (arr : bytes) : Decoder := arr.

(** [num = num + (r & BITS7) * mult; mult *= 128; if (r < BIT8) return num;
     if (num > MAX_SAFE_INTEGER) throw errorIntegerOutOfRange], and
    [errorUnexpectedEndOfArray] at the end of the array.  [num] and [mult]
    are doubles.  As long as the sum is a safe integer it is exact.  Where
    the last byte takes it beyond, lib0 returns the sum rounded to a
    double, or [Infinity]; the exact sum is kept for either, and like them
    it is no tag and greater than the length of every array.  After 147
    bytes with the continuation bit [mult] is [Infinity]: [0 * mult] is
    [NaN] then, and so is every sum with it. *)
Fixpoint readVarUint_loop (d : Decoder) (num mult : Z) : Thrown (Z * Decoder) :=
  match d with
  | [] => Exn errorUnexpectedEndOfArray
  | r :: d' =>
      let digit := Z.land (Z_of_byte r) BITS7 in
      let num' :=
        if isNaN num || ((overflow <=? mult) && (digit =? 0)) then NaN
        else num + digit * mult in
      if Z_of_byte r <? BIT8 then Val (num', d')
      else if MAX_SAFE_INTEGER <? num' then Exn errorIntegerOutOfRange
      else readVarUint_loop d' num' (mult * 128)
  end.

Definition readVarUint (d : Decoder) : Thrown (Z * Decoder) :=
  readVarUint_loop d 0 1.

(** [new Uint8Array(buffer, pos, len)] throws when the view would run past
    the end of the buffer; it is empty when [len] is [NaN]. *)
Definition readUint8Array (d : Decoder) (len : Z) : Thrown (bytes * Decoder) :=
  if Z.of_nat (List.length d) <? len then Exn RangeError
  else Val (take (Z.to_nat len) d, drop (Z.to_nat len) d).

Definition readVarUint8Array (d : Decoder) : Thrown (bytes * Decoder) :=
  match readVarUint d with
  | Val (len, d') => readUint8Array d' len
  | Exn e => Exn e
  end.

Definition readVarString (d : Decoder) : Thrown (string * Decoder) :=
  match readVarUint8Array d with
  | Val (b, d') =>
      match utf8_decode b with
      | Some s => Val (s, d')
      | None => Exn TypeError
      end
  | Exn e => Exn e
  end.
End decoding.

(** ** JavaScript values that travel as JSON *)

#[local] Set Warnings "-register-all".

Inductive json : Type :=
| JNull
| JBool (b : bool)
| JNum (n : Z)
| JStr (s : string)
| JArr (items : list json)
| JObj (fields : list (string * json)).

(** [obj[key]] on an object literal: the first field of that name, [None]
    for [undefined]. *)
Fixpoint field_lookup (key : string) (fields : list (string * json)) : option json :=
  match fields with
  | [] => None
  | (k, v) :: rest => if String.eqb k key then Some v else field_lookup key rest
  end.

(** [v.key]: a [TypeError] on [null], [undefined] on the other values that
    are no objects (their prototypes have no such property). *)
Definition property (v : json) (key : string) : Thrown (option json) :=
  match v with
  | JNull => Exn TypeError
  | JObj fields => Val (field_lookup key fields)
  | _ => Val None
  end.

(** [arr[i]] for a JavaScript number [i]: [undefined] outside the array. *)
Definition array_get {A : Type} (arr : list A) (i : Z) : option A :=
  if i <? 0 then None else arr !! Z.to_nat i.

(** ** The built-in [Map]: keyed by string, iterated in insertion order *)

Module JsMap.
Section Ops.
Context {V : Type}.

Definition t := list (string * V).

Definition empty : t := [].

Fixpoint get (k : string) (m : t) : option V :=
  match m with
  | [] => None
  | (k', v) :: m' => if String.eqb k' k then Some v else get k m'
  end.

Definition has (k : string) (m : t) : bool :=
  match get k m with Some _ => true | None => false end.

(** [set] keeps the position of a key that is present and appends a new one. *)
Fixpoint set (k : string) (v : V) (m : t) : t :=
  match m with
  | [] => [(k, v)]
  | (k', v') :: m' =>
      if String.eqb k' k then (k, v) :: m' else (k', v') :: set k v m'
  end.

Fixpoint delete (k : string) (m : t) : t :=
  match m with
  | [] => []
  | (k', v') :: m' =>
      if String.eqb k' k then delete k m' else (k', v') :: delete k m'
  end.

Definition size (m : t) : Z := Z.of_nat (List.length m).
Definition entries (m : t) : list (string * V) := m.
Definition keys (m : t) : list string := m.*1.
End Ops.
Arguments t : clear implicits.
End JsMap.

(** ** The libraries the relay is written against *)

(** The default [encodedTargetStateVector] of [Y.encodeStateAsUpdate]:
    [new Uint8Array([0])], the state vector that has seen nothing. *)
Definition emptyStateVector : bytes := [x00].

(** Yjs, used as a black box.  [Y_applyUpdate] gives [None] where
    [Y.applyUpdate] throws.  [Y.encodeStateAsUpdate] decodes the state
    vector it is given and throws on bytes that are none:
    [Y_isStateVector] tells whether it can, and [Y_encodeStateAsUpdate] is
    what it returns when it can.  It can decode what Yjs itself encodes,
    and the default vector. *)
Class YjsLibrary := {
  Doc : Type;
  Y_Doc_new : Doc;                                   (* new Y.Doc({ gc: false }) *)
  Y_encodeStateVector : Doc -> bytes;
  Y_isStateVector : bytes -> bool;
  Y_encodeStateAsUpdate : Doc -> bytes -> bytes;     (* (doc, encodedTargetStateVector) *)
  Y_applyUpdate : Doc -> bytes -> option Doc;
  Y_isStateVector_encoded : forall d, Y_isStateVector (Y_encodeStateVector d) = true;
  Y_isStateVector_empty : Y_isStateVector emptyStateVector = true
}.

Module Y.
Section Calls.
Context `{YjsLibrary}.

(** [Y.encodeStateAsUpdate(doc, encodedTargetStateVector)] as a caller
    with a vector of its own sees it. *)
Definition encodeStateAsUpdate (doc : Doc) (encodedTargetStateVector : bytes)
    : Thrown bytes :=
  if Y_isStateVector encodedTargetStateVector
  then Val (Y_encodeStateAsUpdate doc encodedTargetStateVector)
  else Exn StateVectorDecodeError.
End Calls.
End Y.

(** [JSON] and [Date] of the run time.  [JSON_parse] gives [None] where
    [JSON.parse] throws a [SyntaxError]; what it parses is a JavaScript
    string. *)
Class JsRuntime := {
  JSON_parse : string -> option json;
  JSON_stringify : json -> string;
  Date_toISOString : Z -> string;
  JSON_parse_text :
    forall text v, JSON_parse text = Some v -> utf8_valid (utf8_encode text) = true
}.

(** y-protocols/sync (version 1.0.6), the sub-protocol carried by a SYNC
    frame.  It belongs to the dependency, not to the repository; it is
    written out here because the relay's replies are what it writes. *)
Module syncProtocol.
Import encoding decoding.
Section Sync.
Context `{YjsLibrary}.

Definition messageYjsSyncStep1 : Z := 0.
Definition messageYjsSyncStep2 : Z := 1.
Definition messageYjsUpdate : Z := 2.

Definition writeSyncStep1 (e : Encoder) (doc : Doc) : Encoder :=
  writeVarUint8Array (writeVarUint e messageYjsSyncStep1) (Y_encodeStateVector doc).

(** [writeVarUint(encoder, messageYjsSyncStep2);
     writeVarUint8Array(encoder, Y.encodeStateAsUpdate(doc, encodedStateVector))] *)
Definition writeSyncStep2 (e : Encoder) (doc : Doc) (encodedStateVector : bytes)
    : Thrown Encoder :=
  match Y.encodeStateAsUpdate doc encodedStateVector with
  | Val update => Val (writeVarUint8Array (writeVarUint e messageYjsSyncStep2) update)
  | Exn err => Exn err
  end.

Definition writeUpdate (e : Encoder) (update : bytes) : Encoder :=
  writeVarUint8Array (writeVarUint e messageYjsUpdate) update.

Definition readSyncStep1 (d : Decoder) (e : Encoder) (doc : Doc) : Thrown Encoder :=
  match readVarUint8Array d with
  | Val (sv, _) => writeSyncStep2 e doc sv
  | Exn err => Exn err
  end.

(** [try { Y.applyUpdate(doc, readVarUint8Array(decoder), origin) }
     catch (error) { console.error(...) }]: the replica after the call,
    and the error the library caught and logged, if any. *)
Definition readSyncStep2 (d : Decoder) (doc : Doc) : Doc * option Error :=
  match readVarUint8Array d with
  | Val (update, _) =>
      match Y_applyUpdate doc update with
      | Some doc' => (doc', None)
      | None => (doc, Some UpdateDecodeError)
      end
  | Exn err => (doc, Some err)
  end.

Definition readUpdate := readSyncStep2.

Record SyncResult := {
  messageType : Z;
  encoder' : Encoder;
  doc' : Doc;
  caught : option Error
}.

Definition readSyncMessage (d : Decoder) (e : Encoder) (doc : Doc) : Thrown SyncResult :=
  match readVarUint d with
  | Exn err => Exn err
  | Val (messageType, d1) =>
      if messageType =? messageYjsSyncStep1 then
        match readSyncStep1 d1 e doc with
        | Val e1 => Val {| messageType := messageType; encoder' := e1; doc' := doc; caught := None |}
        | Exn err => Exn err
        end
      else if messageType =? messageYjsSyncStep2 then
        let '(doc1, c) := readSyncStep2 d1 doc in
        Val {| messageType := messageType; encoder' := e; doc' := doc1; caught := c |}
      else if messageType =? messageYjsUpdate then
        let '(doc1, c) := readUpdate d1 doc in
        Val {| messageType := messageType; encoder' := e; doc' := doc1; caught := c |}
      else Exn UnknownMessageType
  end.
End Sync.
End syncProtocol.

(** ** The Room Actor: [YjsPartyServer] *)

Abbreviation ConnectionId := string.

Definition MESSAGE_SYNC : Z := 0.
Definition MESSAGE_AWARENESS : Z := 1.
Definition MESSAGE_CUSTOM : Z := 2.

(** The closure handed to [setTimeout] in [onClose]. *)
Inductive Task : Type :=
| FinalCountAfterDisconnect.

(** What a handler does to the outside, in the order it does it. *)
Inductive Effect : Type :=
| Send (conn : ConnectionId) (msg : bytes)             (* connection.send(msg) *)
| Broadcast (msg : bytes) (without : list ConnectionId) (* this.broadcast(msg, without) *)
| StoragePut (key : string) (value : bytes)            (* ctx.storage.put, attempted *)
| SetTimeout (task : Task) (delay : Z)
| ConsoleLog (text : string)
| ConsoleError (text : string).

(** The host side of the actor: PartyServer and the Durable Object state. *)
Record Host := mkHost {
  connections : list ConnectionId;      (* what this.getConnections() enumerates *)
  storage : gmap string bytes;          (* this.ctx.storage *)
  storageAvailable : bool               (* false: storage operations reject *)
}.

Record UserData := mkUserData {
  name : option string;                 (* None: undefined *)
  color : option string;
  profile_picture_url : string
}.

(** How a handler ends: it returns, or an exception leaves it. *)
Inductive Completion (A : Type) : Type :=
| Normal (a : A)
| Abrupt (e : Error).
Arguments Normal {A} a.
Arguments Abrupt {A} e.

Section Actor.
Context {yjs : YjsLibrary} {js : JsRuntime}.
Import encoding decoding.

(** The fields of the class.  [awareness] is [null] from [onStart] on and
    is read by the HTTP status path only; it is left out. *)
Record YjsPartyServer := mkServer {
  doc : option Doc;
  instanceCreatedAt : Z;
  lastMessageAt : Z;
  lastActivityAt : Z;
  customAwareness : JsMap.t json;
  connectedUsers : JsMap.t UserData
}.

Definition persistenceKey : string := "yjs-document-state".

(** A newly constructed instance: what the host builds when it wakes the
    actor, before [onStart]. *)
Definition newInstance (now : Z) : YjsPartyServer :=
  {| doc := None; instanceCreatedAt := now; lastMessageAt := 0; lastActivityAt := 0;
     customAwareness := JsMap.empty; connectedUsers := JsMap.empty |}.

Definition with_doc (d : option Doc) (s : YjsPartyServer) : YjsPartyServer :=
  {| doc := d; instanceCreatedAt := instanceCreatedAt s; lastMessageAt := lastMessageAt s;
     lastActivityAt := lastActivityAt s; customAwareness := customAwareness s;
     connectedUsers := connectedUsers s |}.

Definition with_lastMessageAt (t : Z) (s : YjsPartyServer) : YjsPartyServer :=
  {| doc := doc s; instanceCreatedAt := instanceCreatedAt s; lastMessageAt := t;
     lastActivityAt := lastActivityAt s; customAwareness := customAwareness s;
     connectedUsers := connectedUsers s |}.

Definition with_lastActivityAt (t : Z) (s : YjsPartyServer) : YjsPartyServer :=
  {| doc := doc s; instanceCreatedAt := instanceCreatedAt s; lastMessageAt := lastMessageAt s;
     lastActivityAt := t; customAwareness := customAwareness s;
     connectedUsers := connectedUsers s |}.

Definition with_customAwareness (m : JsMap.t json) (s : YjsPartyServer) : YjsPartyServer :=
  {| doc := doc s; instanceCreatedAt := instanceCreatedAt s; lastMessageAt := lastMessageAt s;
     lastActivityAt := lastActivityAt s; customAwareness := m;
     connectedUsers := connectedUsers s |}.

Definition with_connectedUsers (m : JsMap.t UserData) (s : YjsPartyServer) : YjsPartyServer :=
  {| doc := doc s; instanceCreatedAt := instanceCreatedAt s; lastMessageAt := lastMessageAt s;
     lastActivityAt := lastActivityAt s; customAwareness := customAwareness s;
     connectedUsers := m |}.

(** *** Handlers as computations *)

Record World := mkWorld {
  self : YjsPartyServer;
  host : Host;
  trace : list Effect
}.

Definition Handler (A : Type) : Type := World -> Completion A * World.

Definition ret {A} (a : A) : Handler A := fun w => (Normal a, w).

Definition bind {A B} (m : Handler A) (k : A -> Handler B) : Handler B :=
  fun w => match m w with
           | (Normal a, w') => k a w'
           | (Abrupt e, w') => (Abrupt e, w')
           end.

Definition throw {A} (e : Error) : Handler A := fun w => (Abrupt e, w).

(** [try { m } catch (e) { h e }] *)
Definition try_catch {A} (m : Handler A) (h : Error -> Handler A) : Handler A :=
  fun w => match m w with
           | (Normal a, w') => (Normal a, w')
           | (Abrupt e, w') => h e w'
           end.

Definition lift {A} (r : Thrown A) : Handler A :=
  match r with
  | Val a => ret a
  | Exn e => throw e
  end.

Definition this : Handler YjsPartyServer := fun w => (Normal (self w), w).

Definition update (f : YjsPartyServer -> YjsPartyServer) : Handler unit :=
  fun w => (Normal tt, {| self := f (self w); host := host w; trace := trace w |}).

Definition emit (e : Effect) : Handler unit :=
  fun w => (Normal tt, {| self := self w; host := host w; trace := trace w ++ [e] |}).

Definition getConnections : Handler (list ConnectionId) :=
  fun w => (Normal (connections (host w)), w).

Definition storage_get (key : string) : Handler (option bytes) :=
  fun w => if storageAvailable (host w)
           then (Normal (storage (host w) !! key), w)
           else (Abrupt StorageError, w).

Definition storage_put (key : string) (value : bytes) : Handler unit :=
  bind (emit (StoragePut key value)) (fun _ w =>
    if storageAvailable (host w)
    then (Normal tt,
          {| self := self w;
             host := {| connections := connections (host w);
                        storage := <[key := value]> (storage (host w));
                        storageAvailable := true |};
             trace := trace w |})
    else (Abrupt StorageError, w)).
End Actor.

Declare Scope handler_scope.
Delimit Scope handler_scope with handler.
Notation "x <- m ;; k" := (bind m (fun x => k))
  (at level 100, m at next level, right associativity) : handler_scope.
Notation "m ;; k" := (bind m (fun _ => k))
  (at level 100, right associativity) : handler_scope.

(** A frame as the host delivers it to [onMessage]: [string] for a text
    frame, [ArrayBuffer] or a view of one for a binary frame. *)
Inductive RawMessage : Type :=
| TextFrame (text : string)
| BinaryFrame (message : bytes).

Section Handlers.
Context {yjs : YjsLibrary} {js : JsRuntime}.
Import encoding decoding syncProtocol.
Local Open Scope handler_scope.

Definition console_log (text : string) : Handler unit := emit (ConsoleLog text).
Definition console_error (text : string) : Handler unit := emit (ConsoleError text).
Definition send (conn : ConnectionId) (msg : bytes) : Handler unit := emit (Send conn msg).
Definition broadcast (msg : bytes) (without : list ConnectionId) : Handler unit :=
  emit (Broadcast msg without).

Definition when (b : bool) (m : Handler unit) : Handler unit :=
  if b then m else ret tt.

Fixpoint forEach {A} (f : A -> Handler unit) (l : list A) : Handler unit :=
  match l with
  | [] => ret tt
  | x :: rest => f x ;; forEach f rest
  end.

Definition parse (text : string) : Handler json :=
  match JSON_parse text with
  | Some v => ret v
  | None => throw SyntaxError
  end.

(** *** onStart *)

(** [Y.applyUpdate(this.doc, state)], outside of any [try]. *)
Definition applyToDoc (state : bytes) : Handler unit :=
  s <- this ;;
  match doc s with
  | Some d =>
      match Y_applyUpdate d state with
      | Some d' => update (with_doc (Some d'))
      | None => throw UpdateDecodeError
      end
  | None => throw TypeError
  end.

Definition onStart : Handler unit :=
  update (with_doc (Some Y_Doc_new)) ;;
  persistedState <- storage_get persistenceKey ;;
  match persistedState with
  | Some state => applyToDoc state
  | None => ret tt
  end.

(** *** persistDocument *)

Definition persistDocument : Handler unit :=
  s <- this ;;
  match doc s with
  | None => ret tt
  | Some d => storage_put persistenceKey (Y_encodeStateAsUpdate d emptyStateVector)
  end.

(** *** Identities *)

Definition colors : list string :=
  ["#FF6B6B"; "#4ECDC4"; "#45B7D1"; "#FFA07A"; "#98D8C8"; "#F7DC6F"; "#BB8FCE"; "#85C1E2"].
Definition names : list string :=
  ["Alice"; "Bob"; "Charlie"; "Diana"; "Eve"; "Frank"; "Grace"; "Henry"].

(** [{ name: names[index % names.length], color: colors[index % colors.length],
       profile_picture_url: `https://i.pravatar.cc/150?u=${id}` }];
    [%] is the remainder that keeps the sign of [index]. *)
Definition userDataAt (index : Z) (id : ConnectionId) : UserData :=
  {| name := array_get names (Z.rem index (Z.of_nat (List.length names)));
     color := array_get colors (Z.rem index (Z.of_nat (List.length colors)));
     profile_picture_url := "https://i.pravatar.cc/150?u=" +:+ id |}.

(** [existingConnections.forEach((conn, index) => { if (!has(conn.id)) set(...) })] *)
Fixpoint restoreUsers (conns : list ConnectionId) (index : Z)
    (users : JsMap.t UserData) : JsMap.t UserData :=
  match conns with
  | [] => users
  | conn :: rest =>
      restoreUsers rest (index + 1)
        (if JsMap.has conn users then users
         else JsMap.set conn (userDataAt index conn) users)
  end.

(** *** Frames the actor builds *)

Definition awarenessFrame (clientId : ConnectionId) (state : json) : bytes :=
  toUint8Array
    (writeVarString (writeVarUint createEncoder MESSAGE_AWARENESS)
       (JSON_stringify (JObj [("clientId", JStr clientId); ("state", state)]))).

Definition customFrame (msg : json) : bytes :=
  toUint8Array
    (writeVarString (writeVarUint createEncoder MESSAGE_CUSTOM) (JSON_stringify msg)).

Definition optional (key : string) (v : option string) : list (string * json) :=
  match v with
  | Some s => [(key, JStr s)]
  | None => []
  end.

(** [{ id, ...userData }]; a field that is [undefined] is not serialised. *)
Definition userJson (entry : string * UserData) : json :=
  let '(id, u) := entry in
  JObj ([("id", JStr id)] ++ optional "name" (name u) ++ optional "color" (color u)
        ++ [("profile_picture_url", JStr (profile_picture_url u))]).

Definition modeOf (connectionCount : Z) : string :=
  if connectionCount <=? 1 then "solo" else "multi".

Definition docSize (s : YjsPartyServer) : Z :=
  match doc s with
  | Some d => Z.of_nat (List.length (Y_encodeStateAsUpdate d emptyStateVector))
  | None => 0
  end.

(** The [customMsg] object of [broadcastConnectionCount]. *)
Definition connectionCountMessage (conns : list ConnectionId) (s : YjsPartyServer)
    (event : string) (now : Z) : json :=
  let connectionCount := Z.of_nat (List.length conns) in
  let mode := modeOf connectionCount in
  let users := userJson <$> JsMap.entries (connectedUsers s) in
  JObj [("type", JStr "connection-count");
        ("data", JObj [("connectionCount", JNum connectionCount);
                       ("mode", JStr mode);
                       ("event", JStr event);
                       ("connections", JNum connectionCount);
                       ("users", JArr users);
                       ("docSize", JNum (docSize s));
                       ("awarenessStates", JNum (JsMap.size (customAwareness s)));
                       ("timestamp", JStr (Date_toISOString now))])].

(** *** broadcastConnectionCount *)

Definition broadcastConnectionCount (event : string) (now : Z) : Handler unit :=
  conns <- getConnections ;;
  s <- this ;;
  broadcast (customFrame (connectionCountMessage conns s event now)) [].

(** *** onConnect *)

Definition onConnect (connection : ConnectionId) (now : Z) : Handler unit :=
  update (with_lastActivityAt now) ;;
  s <- this ;;
  match doc s with
  | None => console_error "[YJS-PARTY] ERROR: Doc not initialized!"
  | Some d =>
      existingConnections <- getConnections ;;
      when (JsMap.size (connectedUsers s) <? Z.of_nat (List.length existingConnections))
        (update (fun s => with_connectedUsers
                            (restoreUsers existingConnections 0 (connectedUsers s)) s)) ;;
      let connectionIndex := Z.of_nat (List.length existingConnections) - 1 in
      update (fun s => with_connectedUsers
                         (JsMap.set connection (userDataAt connectionIndex connection)
                            (connectedUsers s)) s) ;;
      send connection
        (toUint8Array (writeSyncStep1 (writeVarUint createEncoder MESSAGE_SYNC) d)) ;;
      s <- this ;;
      when (0 <? JsMap.size (customAwareness s))
        (forEach (fun '(clientId, state) => send connection (awarenessFrame clientId state))
           (JsMap.entries (customAwareness s))) ;;
      broadcastConnectionCount "connect" now
  end.

(** *** handleCustomMessage *)

Definition pongFrame (now : Z) : bytes :=
  customFrame (JObj [("type", JStr "pong"); ("timestamp", JStr (Date_toISOString now))]).

(** [switch (msg.type)] compares with [===]: only a string can match a case. *)
Definition handleCustomMessage (connection : ConnectionId) (msg : json) (now : Z)
    : Handler unit :=
  type <- lift (property msg "type") ;;
  match type with
  | Some (JStr t) =>
      if String.eqb t "ping" then send connection (pongFrame now)
      else if String.eqb t "config" then broadcast (customFrame msg) [connection]
      else if String.eqb t "mode" then broadcast (customFrame msg) [connection]
      else console_log "[YJS-PARTY] Unknown custom message type:"
  | _ => console_log "[YJS-PARTY] Unknown custom message type:"
  end.

(** *** onMessage *)

Definition onMessage (connection : ConnectionId) (rawMessage : RawMessage) (now : Z)
    : Handler unit :=
  update (with_lastMessageAt now) ;;
  update (with_lastActivityAt now) ;;
  s <- this ;;
  match doc s with
  | None => console_error "[YJS-PARTY] ERROR: Doc not initialized!"
  | Some d =>
      match rawMessage with
      | TextFrame _ => console_log "[YJS-PARTY] Received string message:"
      | BinaryFrame message =>
          tag <- lift (readVarUint (createDecoder message)) ;;
          let '(messageType, decoder) := tag in
          if messageType =? MESSAGE_SYNC then
            let encoder := writeVarUint createEncoder MESSAGE_SYNC in
            r <- lift (readSyncMessage decoder encoder d) ;;
            (* readSyncMessage has worked on this.doc in place, and has
               logged the error of an update it could not apply *)
            update (with_doc (Some (doc' r))) ;;
            when (bool_decide (is_Some (caught r)))
              (console_error "Caught error while handling a Yjs update") ;;
            when (1 <? encoding.length (encoder' r))
              (send connection (toUint8Array (encoder' r))) ;;
            when (syncProtocol.messageType r =? messageYjsUpdate)
              (broadcast message [connection] ;; persistDocument)
          else if messageType =? MESSAGE_AWARENESS then
            payload <- lift (readVarString decoder) ;;
            let awarenessData := payload.1 in
            try_catch
              (awarenessState <- parse awarenessData ;;
               update (fun s => with_customAwareness
                                  (JsMap.set connection awarenessState (customAwareness s)) s) ;;
               broadcast (awarenessFrame connection awarenessState) [connection])
              (fun _ => console_error "[YJS-PARTY] Failed to parse custom awareness:")
          else if messageType =? MESSAGE_CUSTOM then
            payload <- lift (readVarString decoder) ;;
            let customData := payload.1 in
            try_catch
              (customMsg <- parse customData ;;
               handleCustomMessage connection customMsg now)
              (fun _ => console_error "[YJS-PARTY] Failed to parse custom message:")
          else console_error "[YJS-PARTY] Unknown message type:"
      end
  end.

(** *** onClose, and the callback it schedules *)

Definition onClose (connection : ConnectionId) : Handler unit :=
  s <- this ;;
  when (JsMap.has connection (connectedUsers s))
    (update (fun s => with_connectedUsers (JsMap.delete connection (connectedUsers s)) s)) ;;
  s <- this ;;
  when (JsMap.has connection (customAwareness s))
    (update (fun s => with_customAwareness (JsMap.delete connection (customAwareness s)) s) ;;
     broadcast (awarenessFrame connection JNull) []) ;;
  emit (SetTimeout FinalCountAfterDisconnect 0).

Definition runTask (task : Task) (now : Z) : Handler unit :=
  match task with
  | FinalCountAfterDisconnect => broadcastConnectionCount "disconnect" now
  end.
End Handlers.

(** ** The actor inside its host *)

(** The inbound notifications of the host, and the callback of a timer. *)
Inductive Event : Type :=
| Start
| Connect (connection : ConnectionId)
| Message (connection : ConnectionId) (rawMessage : RawMessage)
| Close (connection : ConnectionId)
| Timeout (task : Task).

(** What happens around the actor: an event is delivered to it, or the host
    changes on its own. *)
Inductive Step : Type :=
| Deliver (ev : Event) (now : Z)
| Accept (connection : ConnectionId)   (* a socket is accepted: enumerated from now on *)
| Drop (connection : ConnectionId)     (* a socket is gone from the enumeration *)
| Hibernate (now : Z)                  (* the instance is discarded and built anew *)
| Storage (available : bool).          (* the durable storage goes down or comes back *)

Section System.
Context {yjs : YjsLibrary} {js : JsRuntime}.

Definition dispatch (ev : Event) (now : Z) : Handler unit :=
  match ev with
  | Start => onStart
  | Connect connection => onConnect connection now
  | Message connection rawMessage => onMessage connection rawMessage now
  | Close connection => onClose connection
  | Timeout task => runTask task now
  end.

Definition with_host (h : Host) (w : World) : World :=
  {| self := self w; host := h; trace := trace w |}.

Definition step (w : World) (st : Step) : World :=
  match st with
  | Deliver ev now => (dispatch ev now w).2
  | Accept c =>
      with_host {| connections := connections (host w) ++ [c];
                   storage := storage (host w);
                   storageAvailable := storageAvailable (host w) |} w
  | Drop c =>
      with_host {| connections := List.filter (fun c' => negb (String.eqb c' c)) (connections (host w));
                   storage := storage (host w);
                   storageAvailable := storageAvailable (host w) |} w
  | Hibernate now =>
      {| self := newInstance now; host := host w; trace := trace w |}
  | Storage available =>
      with_host {| connections := connections (host w);
                   storage := storage (host w);
                   storageAvailable := available |} w
  end.

Definition steps (w : World) (script : list Step) : World := fold_left step script w.

(** An actor that has just been constructed in an empty room. *)
Definition emptyRoom : World :=
  {| self := newInstance 0;
     host := {| connections := []; storage := ∅; storageAvailable := true |};
     trace := [] |}.

Definition identityOf (c : ConnectionId) (w : World) : option UserData :=
  JsMap.get c (connectedUsers (self w)).
End System.

(** ** Reading a trace *)

Definition sentTo (c : ConnectionId) (t : list Effect) : list bytes :=
  omap (fun e => match e with
                 | Send c' msg => if String.eqb c' c then Some msg else None
                 | _ => None
                 end) t.

Definition broadcasts (t : list Effect) : list (bytes * list ConnectionId) :=
  omap (fun e => match e with
                 | Broadcast msg without => Some (msg, without)
                 | _ => None
                 end) t.

Definition storagePuts (t : list Effect) : list (string * bytes) :=
  omap (fun e => match e with
                 | StoragePut key value => Some (key, value)
                 | _ => None
                 end) t.

(** What was done on the way from world [w] to world [w']. *)
Definition since `{YjsLibrary} (w w' : World) : list Effect :=
  drop (List.length (trace w)) (trace w').

Definition isLog (e : Effect) : bool :=
  match e with
  | ConsoleLog _ | ConsoleError _ => true
  | _ => false
  end.

(** [v.k1.k2...] through object literals. *)
Fixpoint path (v : json) (keys : list string) : option json :=
  match keys with
  | [] => Some v
  | k :: rest =>
      match v with
      | JObj fields =>
          match field_lookup k fields with
          | Some v' => path v' rest
          | None => None
          end
      | _ => None
      end
  end.

(** ** The Client Provider: [YjsPartyProvider]

    The transport life cycle of the provider: [connect], the [onclose]
    handler it installs, [destroy], and the timer [onclose] arms. *)

Module Provider.
Inductive ReadyState : Type := CONNECTING | OPEN | CLOSING | CLOSED.

(** The closure handed to [setTimeout]: [() => this.connect()]. *)
Inductive Callback : Type :=
| Reconnect.

Inductive Effect : Type :=
| NewWebSocket (url : string)            (* new WebSocket(this.url) *)
| SocketClose                            (* this.ws.close() *)
| AwarenessDestroy                       (* this.awareness.destroy() *)
| Emit (event : string) (data : json)    (* this.emit(event, data) *)
| SetTimeout (cb : Callback) (delay : Z).

Record YjsPartyProvider := mkProvider {
  ws : option ReadyState;                (* None: null *)
  url : string;
  synced : bool
}.

(** The provider in the page: its fields, the timers that are armed, and
    what it did so far. *)
Record World := mkWorld {
  self : YjsPartyProvider;
  timers : list (Callback * Z);
  trace : list Effect
}.

Definition connect (w : World) : World :=
  {| self := {| ws := Some CONNECTING; url := url (self w); synced := synced (self w) |};
     timers := timers w;
     trace := trace w ++ [NewWebSocket (url (self w))] |}.

(** [this.ws.onclose]: emit the status, clear [synced], arm the timer. *)
Definition onclose (w : World) : World :=
  {| self := {| ws := ws (self w); url := url (self w); synced := false |};
     timers := timers w ++ [(Reconnect, 1000)];
     trace := trace w ++ [Emit "status" (JObj [("status", JStr "disconnected")]);
                          SetTimeout Reconnect 1000] |}.

(** [this.ws?.close(); this.awareness.destroy()] *)
Definition destroy (w : World) : World :=
  {| self := {| ws := match ws (self w) with
                      | Some CLOSED => Some CLOSED
                      | Some _ => Some CLOSING
                      | None => None
                      end;
                url := url (self w); synced := synced (self w) |};
     timers := timers w;
     trace := trace w ++ match ws (self w) with
                         | Some _ => [SocketClose; AwarenessDestroy]
                         | None => [AwarenessDestroy]
                         end |}.

Definition run (cb : Callback) (w : World) : World :=
  match cb with
  | Reconnect => connect w
  end.

(** What the page and the browser do to the provider. *)
Inductive Step : Type :=
| CallDestroy          (* the caller invokes destroy() *)
| SocketCloses         (* the browser fires the close event of the socket *)
| TimerFires.          (* the oldest armed timer expires *)

Definition step (w : World) (st : Step) : World :=
  match st with
  | CallDestroy => destroy w
  | SocketCloses =>
      onclose {| self := {| ws := option_map (fun _ => CLOSED) (ws (self w));
                            url := url (self w); synced := synced (self w) |};
                 timers := timers w; trace := trace w |}
  | TimerFires =>
      match timers w with
      | [] => w
      | (cb, _) :: rest =>
          run cb {| self := self w; timers := rest; trace := trace w |}
      end
  end.

Definition steps (w : World) (script : list Step) : World := fold_left step script w.

Definition reconnects (t : list Effect) : nat :=
  List.length (List.filter (fun e => match e with NewWebSocket _ => true | _ => false end) t).

(** A provider whose socket is open and whose first sync is done. *)
Definition connected (u : string) : World :=
  {| self := {| ws := Some OPEN; url := u; synced := true |};
     timers := [];
     trace := [] |}.
End Provider.

(** ** Vocabulary of the statements *)

Section Vocabulary.
Context {yjs : YjsLibrary} {js : JsRuntime}.
Import encoding syncProtocol.

(** The fields of the actor after the time stamps of [onMessage]. *)
Definition stamped (now : Z) (s : YjsPartyServer) : YjsPartyServer :=
  with_lastActivityAt now (with_lastMessageAt now s).

(** A SYNC frame with sync step 1: the state vector of [d]. *)
Definition stateVectorFrame (d : Doc) : bytes :=
  toUint8Array (writeSyncStep1 (writeVarUint createEncoder MESSAGE_SYNC) d).

(** A SYNC frame with sync step 2: what [d] holds beyond [stateVector]. *)
Definition diffFrame (d : Doc) (stateVector : bytes) : bytes :=
  toUint8Array
    (writeVarUint8Array
       (writeVarUint (writeVarUint createEncoder MESSAGE_SYNC) messageYjsSyncStep2)
       (Y_encodeStateAsUpdate d stateVector)).

(** The full state of [d]: its diff against the empty state vector. *)
Definition fullStateFrame (d : Doc) : bytes := diffFrame d emptyStateVector.

(** The identities [onConnect] leaves in the roster. *)
Definition usersAfterConnect (conns : list ConnectionId) (c : ConnectionId)
    (users : JsMap.t UserData) : JsMap.t UserData :=
  JsMap.set c (userDataAt (Z.of_nat (List.length conns) - 1) c)
    (if JsMap.size users <? Z.of_nat (List.length conns)
     then restoreUsers conns 0 users else users).

Definition presenceReplay (c : ConnectionId) (presence : JsMap.t json) : list Effect :=
  (fun entry => Send c (awarenessFrame entry.1 entry.2)) <$> JsMap.entries presence.

(** The roster broadcast as computed in world [w]. *)
Definition rosterBroadcast (w : World) (event : string) (now : Z) : Effect :=
  Broadcast (customFrame (connectionCountMessage (connections (host w)) (self w) event now)) [].

(** What [handleCustomMessage] does for the value of [msg.type]. *)
Definition customReaction (c : ConnectionId) (msg : json) (now : Z)
    (type : Thrown (option json)) : Effect :=
  match type with
  | Exn _ => ConsoleError "[YJS-PARTY] Failed to parse custom message:"
  | Val (Some (JStr t)) =>
      if String.eqb t "ping" then Send c (pongFrame now)
      else if String.eqb t "config" then Broadcast (customFrame msg) [c]
      else if String.eqb t "mode" then Broadcast (customFrame msg) [c]
      else ConsoleLog "[YJS-PARTY] Unknown custom message type:"
  | Val _ => ConsoleLog "[YJS-PARTY] Unknown custom message type:"
  end.

(** What [onMessage] does with a SYNC update frame, given what
    [readUpdate] made of its payload. *)
Definition afterUpdate (c : ConnectionId) (message : bytes) (now : Z) (w : World)
    (applied : Doc * option Error) : Completion unit * World :=
  let s' := with_doc (Some applied.1) (stamped now (self w)) in
  let tr' := trace w
             ++ (match applied.2 with
                 | Some _ => [ConsoleError "Caught error while handling a Yjs update"]
                 | None => []
                 end)
             ++ [Broadcast message [c];
                 StoragePut persistenceKey (Y_encodeStateAsUpdate applied.1 emptyStateVector)] in
  if storageAvailable (host w)
  then (Normal tt,
        {| self := s';
           host := {| connections := connections (host w);
                      storage := <[persistenceKey :=
                                     Y_encodeStateAsUpdate applied.1 emptyStateVector]>
                                   (storage (host w));
                      storageAvailable := true |};
           trace := tr' |})
  else (Abrupt StorageError, {| self := s'; host := host w; trace := tr' |}).

(** Frames as a client writes them. *)
Definition updateFrame (update : bytes) : bytes :=
  toUint8Array (writeUpdate (writeVarUint createEncoder MESSAGE_SYNC) update).

Definition step2Frame (update : bytes) : bytes :=
  toUint8Array
    (writeVarUint8Array
       (writeVarUint (writeVarUint createEncoder MESSAGE_SYNC) messageYjsSyncStep2)
       update).

Definition stateVectorRequest (stateVector : bytes) : bytes :=
  toUint8Array
    (writeVarUint8Array
       (writeVarUint (writeVarUint createEncoder MESSAGE_SYNC) messageYjsSyncStep1)
       stateVector).

Definition textFrame (tag : Z) (text : string) : bytes :=
  toUint8Array (writeVarString (writeVarUint createEncoder tag) text).

(** An identity as a roster snapshot lists it: the id of the connection
    with the name, the colour and the avatar; a name or a colour that is
    [undefined] is not written. *)
Definition listedUser (entry : ConnectionId * UserData) : json :=
  JObj ([("id", JStr entry.1)]
        ++ match name entry.2 with Some n => [("name", JStr n)] | None => [] end
        ++ match color entry.2 with Some col => [("color", JStr col)] | None => [] end
        ++ [("profile_picture_url", JStr (profile_picture_url entry.2))]).

(** The roster snapshot of the connections [conns] and the identities
    [users], as an APPLICATION message. *)
Definition snapshotOf (conns : list ConnectionId) (users : JsMap.t UserData)
    (event : string) (documentSize presenceStates now : Z) : json :=
  let count := Z.of_nat (List.length conns) in
  JObj [("type", JStr "connection-count");
        ("data", JObj [("connectionCount", JNum count);
                       ("mode", JStr (if count <=? 1 then "solo" else "multi"));
                       ("event", JStr event);
                       ("connections", JNum count);
                       ("users", JArr (listedUser <$> JsMap.entries users));
                       ("docSize", JNum documentSize);
                       ("awarenessStates", JNum presenceStates);
                       ("timestamp", JStr (Date_toISOString now))])].

(** The size of the full state of the replica, 0 without one. *)
Definition fullStateSize (replica : option Doc) : Z :=
  match replica with
  | Some d => Z.of_nat (List.length (Y_encodeStateAsUpdate d emptyStateVector))
  | None => 0
  end.

(** The roster snapshot as it travels: an APPLICATION frame to everybody. *)
Definition snapshotBroadcast (snapshot : json) : Effect :=
  Broadcast (textFrame MESSAGE_CUSTOM (JSON_stringify snapshot)) [].
End Vocabulary.

(** ** A small instance of the libraries

    Enough of Yjs, [JSON] and [Date] to run the handlers on concrete rooms:
    a grow-only set of one-byte operations as the replica, and a serialiser
    for [json] with a parser that knows the texts of a few messages. *)

Module Example.
Definition mem (op : byte) (ops : bytes) : bool := existsb (Byte.eqb op) ops.

(** A replica is the list of operations it has seen.  Its state vector is
    their count followed by the operations; an update is a list of
    operations, and the byte [xff] is no operation. *)
#[export] Instance yjs : YjsLibrary :=
  {| Doc := bytes;
     Y_Doc_new := [];
     Y_encodeStateVector := fun d => byte_of_Z (Z.of_nat (List.length d)) :: d;
     Y_isStateVector := fun sv =>
       match sv with
       | [] => false
       | count :: ops => Byte.eqb count (byte_of_Z (Z.of_nat (List.length ops)))
       end;
     Y_encodeStateAsUpdate := fun d sv => List.filter (fun op => negb (mem op (tail sv))) d;
     Y_applyUpdate := fun d u =>
       if mem xff u then None
       else Some (d ++ List.filter (fun op => negb (mem op d)) u);
     Y_isStateVector_encoded := fun d => Byte.byte_dec_lb eq_refl;
     Y_isStateVector_empty := eq_refl |}.

Definition quote : string := String (Ascii.ascii_of_nat 34) EmptyString.

Fixpoint stringify (v : json) : string :=
  match v with
  | JNull => "null"
  | JBool b => if b then "true" else "false"
  | JNum n => pretty n
  | JStr s => quote +:+ s +:+ quote
  | JArr items => "[" +:+ String.concat "," (map stringify items) +:+ "]"
  | JObj fields =>
      "{" +:+ String.concat ","
                (map (fun kv => quote +:+ kv.1 +:+ quote +:+ ":" +:+ stringify kv.2) fields)
      +:+ "}"
  end.

Definition ping : json := JObj [("type", JStr "ping")].
Definition config : json := JObj [("type", JStr "config"); ("data", JNum 7)].
Definition cursorMoved : json := JObj [("type", JStr "cursor-moved"); ("data", JNum 3)].
Definition cursor : json := JObj [("cursor", JObj [("line", JNum 1); ("col", JNum 2)])].

(** The texts [parse] accepts; every other text is malformed. *)
Definition known : list json := [ping; config; cursorMoved; cursor; JNull; JNum 5].

(** The value of [table] that is written [text]. *)
Definition parseIn (table : list json) (text : string) : option json :=
  find (fun v => String.eqb (stringify v) text) table.

Definition parse (text : string) : option json := parseIn known text.

(** A table of values whose texts are UTF-8 parses UTF-8 only. *)
Definition parseIn_text (table : list json)
    (texts : forallb (fun v => utf8_valid (utf8_encode (stringify v))) table = true)
    (text : string) (v : json) (found : parseIn table text = Some v)
    : utf8_valid (utf8_encode text) = true :=
  match find_some _ _ found with
  | conj listed same =>
      eq_ind (stringify v) (fun t => utf8_valid (utf8_encode t) = true)
        (proj1 (forallb_forall _ _) texts v listed) text
        (proj1 (String.eqb_eq _ _) same)
  end.

#[export] Instance runtime : JsRuntime :=
  {| JSON_parse := parse; JSON_stringify := stringify; Date_toISOString := pretty;
     JSON_parse_text := parseIn_text known eq_refl |}.

Definition op1 : byte := x07.

(** A started actor with the given live connections. *)
Definition room (conns : list ConnectionId) : World :=
  steps emptyRoom (map Accept conns ++ [Deliver Start 0]).

(** A and B join a new room, one after the other. *)
Definition twoJoined : World :=
  steps emptyRoom
    [Deliver Start 0; Accept "A"; Deliver (Connect "A") 1;
     Accept "B"; Deliver (Connect "B") 2].


(** A is alone in the room and has sent the update [U1]; B is accepted by
    the host and about to be announced. *)
Definition afterU1 : World :=
  steps (room ["A"])
    [Deliver (Connect "A") 1;
     Deliver (Message "A" (BinaryFrame (updateFrame [op1]))) 2;
     Accept "B"].


(** A joins, B joins, B leaves: the host drops B and the timer of the close
    fires. *)
Definition comeAndGo : list Step :=
  [Deliver Start 0; Accept "A"; Deliver (Connect "A") 1;
   Accept "B"; Deliver (Connect "B") 2;
   Deliver (Close "B") 3; Drop "B"; Deliver (Timeout FinalCountAfterDisconnect) 4].

(** A and B are in the room and the storage has just gone down. *)
Definition storageDown : World := steps twoJoined [Storage false].
End Example.


(** ** The HTTP side of the actor: [onRequest] *)

(** y-protocols/awareness as a black box: the actor constructs one and asks
    for the number of its states, nothing else. *)
Class AwarenessLibrary `{YjsLibrary} := {
  Awareness : Type;
  Awareness_new : Doc -> Awareness;             (* new awarenessProtocol.Awareness(doc) *)
  Awareness_statesSize : Awareness -> Z         (* awareness.getStates().size *)
}.

Inductive Response : Type :=
| JsonResponse (body : json)                    (* Response.json(body) *)
| TextResponse (body : string) (status : Z).    (* new Response(body, { status }) *)

(** [s.includes(sub)] *)
Fixpoint includes (s sub : string) : bool :=
  String.prefix sub s
  || match s with
     | EmptyString => false
     | String _ s' => includes s' sub
     end.

Definition newline : string := String (Ascii.ascii_of_nat 10) EmptyString.

Section Request.
Context {yjs : YjsLibrary} {js : JsRuntime} {aw : AwarenessLibrary}.

(** The actor together with the field the handlers of the sockets never
    read: [awareness], [null] from the construction on. *)
Record Instance := mkInstance {
  actor : World;
  awareness : option Awareness
}.

Definition storage_delete (key : string) : Handler unit :=
  fun w => if storageAvailable (host w)
           then (Normal tt,
                 {| self := self w;
                    host := {| connections := connections (host w);
                               storage := delete key (storage (host w));
                               storageAvailable := true |};
                    trace := trace w |})
           else (Abrupt StorageError, w).

Definition statusBody (i : Instance) (now : Z) : json :=
  JObj [("connections", JNum (Z.of_nat (List.length (connections (host (actor i))))));
        ("docSize", JNum (docSize (self (actor i))));
        ("awarenessStates",
         JNum (match awareness i with
               | Some a => Awareness_statesSize a
               | None => 0
               end));
        ("timestamp", JStr (Date_toISOString now))].

Definition usage : string :=
  "Yjs PartyServer" +:+ newline +:+ newline +:+ "Endpoints:" +:+ newline
  +:+ "/status - Connection info" +:+ newline +:+ "/clear - Reset document".

Definition onRequest (pathname : string) (now : Z) (i : Instance)
    : Completion Response * Instance :=
  if includes pathname "/status" then
    (Normal (JsonResponse (statusBody i now)), i)
  else if includes pathname "/clear" then
    match doc (self (actor i)) with
    | Some _ =>
        (* this.doc = new Y.Doc; this.awareness = new Awareness(this.doc);
           await this.ctx.storage.delete(this.persistenceKey) *)
        let fresh := (update (with_doc (Some Y_Doc_new)) (actor i)).2 in
        let deleted := storage_delete persistenceKey fresh in
        let i' := {| actor := deleted.2; awareness := Some (Awareness_new Y_Doc_new) |} in
        match deleted.1 with
        | Normal _ => (Normal (JsonResponse (JObj [("cleared", JBool true)])), i')
        | Abrupt e => (Abrupt e, i')
        end
    | None => (Normal (JsonResponse (JObj [("cleared", JBool true)])), i)
    end
  else (Normal (TextResponse usage 200), i).

(** The socket handlers on an instance; [onStart] sets [awareness] to [null]. *)
Definition deliver (ev : Event) (now : Z) (i : Instance) : Instance :=
  {| actor := (dispatch ev now (actor i)).2;
     awareness := match ev with
                  | Start => None
                  | _ => awareness i
                  end |}.

(** The host discards the instance and constructs a new one. *)
Definition reinstantiate (now : Z) (i : Instance) : Instance :=
  {| actor := step (actor i) (Hibernate now); awareness := None |}.

(** A run of socket events, each with the time it is handled at. *)
Definition delivers (i : Instance) (script : list (Event * Z)) : Instance :=
  fold_left (fun i e => deliver e.1 e.2 i) script i.

(** The storage comes back or goes away under an instance. *)
Definition withStorage (available : bool) (i : Instance) : Instance :=
  {| actor := step (actor i) (Storage available); awareness := awareness i |}.
End Request.

(** ** The Client Provider with its messages

    [YjsPartyProvider] as the test client carries it: the transport life
    cycle of [Provider] with the [destroyed] flag, the replica, the
    listeners, and the handlers of [onopen] and [onmessage].  One socket is
    modelled: the one [this.ws] refers to. *)

Module Client.
Import encoding decoding syncProtocol.

(** The origin Yjs reports to an update listener: the provider itself (the
    update came in through [onmessage]) or anything else. *)
Inductive Origin : Type := ThisProvider | Elsewhere.

Inductive Callback : Type :=
| Reconnect.

(** A function registered with [on]; functions are told apart by identity. *)
Abbreviation Listener := nat.

Inductive Effect : Type :=
| NewWebSocket (url : string)               (* new WebSocket(this.url) *)
| SocketSend (msg : bytes)                  (* this.ws.send(msg) *)
| SocketClose                               (* this.ws.close() *)
| AwarenessSetLocalState (state : json)     (* this.awareness.setLocalState(state) *)
| AwarenessDestroy                          (* this.awareness.destroy() *)
| Call (listener : Listener) (data : json)  (* cb(data), from emit *)
| SetTimeout (cb : Callback) (delay : Z)
| ConsoleWarn (text : string)
| ConsoleError (text : string).

Section Provider.
Context {yjs : YjsLibrary} {js : JsRuntime}.

Record YjsPartyProvider := mkProvider {
  ws : option Provider.ReadyState;          (* None: null *)
  doc : Doc;
  url : string;
  synced : bool;
  listeners : JsMap.t (list Listener);      (* Map<string, Set<Function>> *)
  destroyed : bool
}.

Record World := mkWorld {
  self : YjsPartyProvider;
  timers : list (Callback * Z);
  trace : list Effect
}.

Definition with_self (p : YjsPartyProvider) (w : World) : World :=
  {| self := p; timers := timers w; trace := trace w |}.

Definition with_ws (r : option Provider.ReadyState) (p : YjsPartyProvider) : YjsPartyProvider :=
  {| ws := r; doc := doc p; url := url p; synced := synced p;
     listeners := listeners p; destroyed := destroyed p |}.

Definition with_doc (d : Doc) (p : YjsPartyProvider) : YjsPartyProvider :=
  {| ws := ws p; doc := d; url := url p; synced := synced p;
     listeners := listeners p; destroyed := destroyed p |}.

Definition with_synced (b : bool) (p : YjsPartyProvider) : YjsPartyProvider :=
  {| ws := ws p; doc := doc p; url := url p; synced := b;
     listeners := listeners p; destroyed := destroyed p |}.

Definition with_listeners (l : JsMap.t (list Listener)) (p : YjsPartyProvider)
    : YjsPartyProvider :=
  {| ws := ws p; doc := doc p; url := url p; synced := synced p;
     listeners := l; destroyed := destroyed p |}.

Definition with_destroyed (b : bool) (p : YjsPartyProvider) : YjsPartyProvider :=
  {| ws := ws p; doc := doc p; url := url p; synced := synced p;
     listeners := listeners p; destroyed := b |}.

Definition say (e : Effect) (w : World) : World :=
  {| self := self w; timers := timers w; trace := trace w ++ [e] |}.

(** [this.ws?.readyState === WebSocket.OPEN] *)
Definition isOpen (w : World) : bool :=
  match ws (self w) with
  | Some Provider.OPEN => true
  | _ => false
  end.

(** *** on, off, emit *)

(** [Set.prototype.add]: a member is not added again. *)
Definition set_add (cb : Listener) (s : list Listener) : list Listener :=
  if existsb (Nat.eqb cb) s then s else s ++ [cb].

(** [Set.prototype.delete] *)
Definition set_delete (cb : Listener) (s : list Listener) : list Listener :=
  List.filter (fun cb' => negb (Nat.eqb cb cb')) s.

Definition on (event : string) (cb : Listener) (w : World) : World :=
  let registered :=
    if JsMap.has event (listeners (self w)) then listeners (self w)
    else JsMap.set event [] (listeners (self w)) in
  let callbacks := default [] (JsMap.get event registered) in
  with_self (with_listeners (JsMap.set event (set_add cb callbacks) registered) (self w)) w.

Definition off (event : string) (cb : Listener) (w : World) : World :=
  match JsMap.get event (listeners (self w)) with
  | Some callbacks =>
      with_self (with_listeners
                   (JsMap.set event (set_delete cb callbacks) (listeners (self w)))
                   (self w)) w
  | None => w
  end.

Definition emit (event : string) (data : json) (w : World) : World :=
  match JsMap.get event (listeners (self w)) with
  | Some callbacks => fold_left (fun w' cb => say (Call cb data) w') callbacks w
  | None => w
  end.

(** *** The listener the constructor puts on the replica *)

(** [(update, origin) => { if (origin !== this && open) ws.send(frame(update)) }] *)
Definition onDocUpdate (update : bytes) (origin : Origin) (w : World) : World :=
  match origin with
  | ThisProvider => w
  | Elsewhere => if isOpen w then say (SocketSend (updateFrame update)) w else w
  end.

(** *** connect and the handlers it installs *)

Definition connect (w : World) : World :=
  say (NewWebSocket (url (self w))) (with_self (with_ws (Some Provider.CONNECTING) (self w)) w).

Definition onopen (w : World) : World :=
  say (SocketSend (stateVectorFrame (doc (self w))))
    (emit "status" (JObj [("status", JStr "connected")]) w).

(** [const { clientId, state } = v; emit('awareness', { clientId, state })];
    a field that is [undefined] is left out of the object. *)
Definition awarenessEvent (v : json) : Thrown json :=
  match property v "clientId", property v "state" with
  | Val clientId, Val state =>
      Val (JObj (match clientId with Some x => [("clientId", x)] | None => [] end
                 ++ match state with Some x => [("state", x)] | None => [] end))
  | Exn e, _ => Exn e
  | _, Exn e => Exn e
  end.

Definition onmessage (data : bytes) (w : World) : Completion unit * World :=
  match readVarUint (createDecoder data) with
  | Exn e => (Abrupt e, w)
  | Val (messageType, decoder) =>
      if messageType =? MESSAGE_SYNC then
        let encoder := writeVarUint createEncoder MESSAGE_SYNC in
        match readSyncMessage decoder encoder (doc (self w)) with
        | Exn e => (Abrupt e, w)
        | Val r =>
            (* Yjs has applied the update with origin [this] and has told
               the listeners of the replica so *)
            let applied := with_self (with_doc (doc' r) (self w)) w in
            let logged :=
              match caught r with
              | Some _ => say (ConsoleError "Caught error while handling a Yjs update") applied
              | None => applied
              end in
            let heard :=
              if (syncProtocol.messageType r =? messageYjsSyncStep1)
                 || bool_decide (is_Some (caught r))
              then logged
              else onDocUpdate
                     (Y_encodeStateAsUpdate (doc' r) (Y_encodeStateVector (doc (self w))))
                     ThisProvider logged in
            let marked :=
              if negb (synced (self heard))
                 && (syncProtocol.messageType r =? messageYjsSyncStep2)
              then emit "sync" (JBool true) (with_self (with_synced true (self heard)) heard)
              else heard in
            (Normal tt,
             if 1 <? encoding.length (encoder' r)
             then say (SocketSend (toUint8Array (encoder' r))) marked
             else marked)
        end
      else if messageType =? MESSAGE_AWARENESS then
        match readVarString decoder with
        | Exn e => (Abrupt e, w)
        | Val (awarenessData, _) =>
            match JSON_parse awarenessData with
            | Some v =>
                match awarenessEvent v with
                | Val data => (Normal tt, emit "awareness" data w)
                | Exn _ =>
                    (Normal tt, say (ConsoleError "[YjsPartyProvider] Failed to parse awareness:") w)
                end
            | None =>
                (Normal tt, say (ConsoleError "[YjsPartyProvider] Failed to parse awareness:") w)
            end
        end
      else if messageType =? MESSAGE_CUSTOM then
        match readVarString decoder with
        | Exn e => (Abrupt e, w)
        | Val (customData, _) =>
            match JSON_parse customData with
            | Some msg => (Normal tt, emit "custom" msg w)
            | None =>
                (Normal tt,
                 say (ConsoleError "[YjsPartyProvider] Failed to parse custom message:") w)
            end
        end
      else (Normal tt, w)
  end.

(** [this.ws.onclose]: the timer is armed only if the provider was not
    destroyed. *)
Definition onclose (w : World) : World :=
  let told := emit "status" (JObj [("status", JStr "disconnected")]) w in
  let unsynced := with_self (with_synced false (self told)) told in
  if destroyed (self unsynced) then unsynced
  else {| self := self unsynced;
          timers := timers unsynced ++ [(Reconnect, 1000)];
          trace := trace unsynced ++ [SetTimeout Reconnect 1000] |}.

Definition onerror (w : World) : World :=
  say (ConsoleError "[YjsPartyProvider] Error:") w.

(** *** What the caller may invoke *)

Definition sendCustomMessage (msg : json) (w : World) : World :=
  if isOpen w then say (SocketSend (customFrame msg)) w else w.

Definition closeSocket (w : World) : World :=
  match ws (self w) with
  | Some r =>
      say SocketClose
        (with_self (with_ws (Some match r with
                                  | Provider.CLOSED => Provider.CLOSED
                                  | _ => Provider.CLOSING
                                  end) (self w)) w)
  | None => w
  end.

Definition destroy (w : World) : World :=
  say AwarenessDestroy (closeSocket (with_self (with_destroyed true (self w)) w)).

Definition sendAwarenessUpdate (state : json) (w : World) : World :=
  let set := say (AwarenessSetLocalState state) w in
  if isOpen set
  then say (SocketSend (textFrame MESSAGE_AWARENESS (JSON_stringify state))) set
  else say (ConsoleWarn "[YjsPartyProvider] Cannot send awareness - not connected") set.

Definition clearAwareness (w : World) : World :=
  let set := say (AwarenessSetLocalState JNull) w in
  if isOpen set
  then say (SocketSend (textFrame MESSAGE_AWARENESS (JSON_stringify JNull))) set
  else set.

(** [new YjsPartyProvider(url, roomName, doc)] *)
Definition construct (base roomName : string) (d : Doc) : World :=
  connect {| self := {| ws := None; doc := d;
                        url := base +:+ "/parties/yjs-party/" +:+ roomName;
                        synced := false; listeners := JsMap.empty; destroyed := false |};
             timers := []; trace := [] |}.

(** *** The provider in the page *)

Definition run (cb : Callback) (w : World) : World :=
  match cb with
  | Reconnect => connect w
  end.

(** What the caller, the replica and the browser do to the provider. *)
Inductive Step : Type :=
| CallDestroy
| CallOn (event : string) (cb : Listener)
| CallOff (event : string) (cb : Listener)
| CallSendCustomMessage (msg : json)
| CallSendAwarenessUpdate (state : json)
| CallClearAwareness
| LocalUpdate (update : bytes)     (* the page changes the replica *)
| SocketOpens                      (* the browser fires the open event *)
| SocketReceives (data : bytes)    (* the browser fires the message event *)
| SocketFails                      (* the browser fires the error event *)
| SocketCloses                     (* the browser fires the close event *)
| TimerFires.                      (* the oldest armed timer expires *)

Definition step (w : World) (st : Step) : World :=
  match st with
  | CallDestroy => destroy w
  | CallOn event cb => on event cb w
  | CallOff event cb => off event cb w
  | CallSendCustomMessage msg => sendCustomMessage msg w
  | CallSendAwarenessUpdate state => sendAwarenessUpdate state w
  | CallClearAwareness => clearAwareness w
  | LocalUpdate update =>
      (* the listener of the replica hears of a change that took place *)
      match Y_applyUpdate (doc (self w)) update with
      | Some d' => onDocUpdate update Elsewhere (with_self (with_doc d' (self w)) w)
      | None => w
      end
  | SocketOpens => onopen (with_self (with_ws (Some Provider.OPEN) (self w)) w)
  | SocketReceives data => (onmessage data w).2
  | SocketFails => onerror w
  | SocketCloses =>
      onclose (with_self (with_ws (option_map (fun _ => Provider.CLOSED) (ws (self w)))
                            (self w)) w)
  | TimerFires =>
      match timers w with
      | [] => w
      | (cb, _) :: rest => run cb {| self := self w; timers := rest; trace := trace w |}
      end
  end.

Definition steps (w : World) (script : list Step) : World := fold_left step script w.

Definition reconnects (t : list Effect) : nat :=
  List.length (List.filter (fun e => match e with NewWebSocket _ => true | _ => false end) t).

Definition sent (t : list Effect) : list bytes :=
  omap (fun e => match e with SocketSend msg => Some msg | _ => None end) t.

Definition calls (t : list Effect) : list (Listener * json) :=
  omap (fun e => match e with Call cb data => Some (cb, data) | _ => None end) t.

Definition since (w w' : World) : list Effect :=
  drop (List.length (trace w)) (trace w').
End Provider.
End Client.

(** ** What a handler of the provider may touch *)

Section Quiet.
Context {yjs : YjsLibrary} {js : JsRuntime}.

(** Effects that neither open nor close a socket, arm no timer and leave
    the awareness object alone. *)
Definition quietEffect (e : Client.Effect) : bool :=
  match e with
  | Client.Call _ _ | Client.ConsoleError _ | Client.SocketSend _ => true
  | _ => false
  end.

(** [w'] differs from [w] in the replica, in the synced flag and in quiet
    effects at most. *)
Definition Undisturbed (w w' : Client.World) : Prop :=
  Client.ws (Client.self w') = Client.ws (Client.self w)
  ∧ Client.url (Client.self w') = Client.url (Client.self w)
  ∧ Client.listeners (Client.self w') = Client.listeners (Client.self w)
  ∧ Client.destroyed (Client.self w') = Client.destroyed (Client.self w)
  ∧ Client.timers w' = Client.timers w
  ∧ ∃ new, Client.trace w' = Client.trace w ++ new
           ∧ Forall (fun e => quietEffect e = true) new.

(** The frames a message event makes the provider send: the answer to a
    sync step 1 whose state vector Yjs can decode, and nothing else. *)
Definition answerTo (data : bytes) (d : Doc) : list bytes :=
  match decoding.readVarUint data with
  | Val (messageType, r1) =>
      if messageType =? MESSAGE_SYNC then
        match decoding.readVarUint r1 with
        | Val (syncType, r2) =>
            if syncType =? syncProtocol.messageYjsSyncStep1 then
              match decoding.readVarUint8Array r2 with
              | Val (stateVector, _) =>
                  if Y_isStateVector stateVector then [diffFrame d stateVector] else []
              | Exn _ => []
              end
            else []
        | Exn _ => []
        end
      else []
  | Exn _ => []
  end.

(** On the way from [w] to [w'] the provider has sent [frames], in this
    order. *)
Definition Sends (w w' : Client.World) (frames : list bytes) : Prop :=
  ∃ new, Client.trace w' = Client.trace w ++ new ∧ Client.sent new = frames.
End Quiet.

(** ** The discipline of the host, and what a handler may touch *)

Section Discipline.
Context {yjs : YjsLibrary} {js : JsRuntime}.

(** An effect that stays with connection [c]: a direct send goes to [c], a
    relay leaves out exactly [c], a write goes to the key of the document,
    and no timer is armed. *)
Definition keepsTo (c : ConnectionId) (e : Effect) : bool :=
  match e with
  | Send c' _ => String.eqb c' c
  | Broadcast _ without => bool_decide (without = [c])
  | StoragePut key _ => String.eqb key persistenceKey
  | SetTimeout _ _ => false
  | ConsoleLog _ | ConsoleError _ => true
  end.

(** The worlds the host can bring about.  It starts the actor before the
    first event and after every hibernation; it announces a socket right
    after accepting it, under an id no live socket has; it delivers
    messages of live sockets only; it forgets a socket when it reports its
    close. *)
Inductive Reachable : World -> Prop :=
| reach_start now :
    Reachable (step emptyRoom (Deliver Start now))
| reach_join w c now :
    Reachable w -> c ∉ connections (host w) ->
    Reachable (steps w [Accept c; Deliver (Connect c) now])
| reach_message w c raw now :
    Reachable w -> c ∈ connections (host w) ->
    Reachable (step w (Deliver (Message c raw) now))
| reach_leave w c now :
    Reachable w ->
    Reachable (steps w [Deliver (Close c) now; Drop c])
| reach_timer w task now :
    Reachable w ->
    Reachable (step w (Deliver (Timeout task) now))
| reach_storage w available :
    Reachable w ->
    Reachable (step w (Storage available))
| reach_wake w now :
    Reachable w ->
    Reachable (steps w [Hibernate now; Deliver Start now]).

(** What the discipline of the host keeps true of the actor. *)
Definition Accurate (w : World) : Prop :=
  is_Some (doc (self w))
  ∧ NoDup (connections (host w))
  ∧ (JsMap.keys (connectedUsers (self w)) = []
     ∨ JsMap.keys (connectedUsers (self w)) = connections (host w))
  ∧ ∀ c, JsMap.has c (customAwareness (self w)) = true → c ∈ connections (host w).
End Discipline.

(** ** The raw Durable Object: [RawTestDO] *)

(** [new TextDecoder().decode(data)], the decoder of the run time in its
    default mode: it never throws, it puts U+FFFD where the bytes are no
    UTF-8 and drops a leading byte order mark. *)
Class TextDecoder := {
  TextDecoder_decode : bytes -> string
}.

Module Raw.

Inductive Effect : Type :=
| SocketSend (socket : string) (text : string).   (* socket.send(text) *)

(** [new Response(JSON.stringify(value, null, indent), ...)] is kept as the
    value and the indentation; the other two are the upgrade and a text. *)
Inductive Response : Type :=
| JsonText (value : json) (indent : Z)
| SwitchingProtocols                      (* status 101, with the client socket *)
| PlainText (body : string).

Record Request := mkRequest {
  pathname : string;
  upgradeHeader : option string           (* request.headers.get('Upgrade') *)
}.

Section Object.
Context {js : JsRuntime} {decoder : TextDecoder}.

Record RawTestDO := mkRawTestDO {
  acceptedCount : Z
}.

(** The instance, the sockets the state of the object enumerates
    ([state.getWebSockets()], each with the id of its attachment), and what
    was sent. *)
Record World := mkWorld {
  self : RawTestDO;
  sockets : list string;
  trace : list Effect
}.

(** The constructor reads the sockets and logs them. *)
Definition construct (live : list string) (t : list Effect) : World :=
  {| self := {| acceptedCount := 0 |}; sockets := live; trace := t |}.

Definition statusValue (w : World) (now : Z) : json :=
  let count := Z.of_nat (List.length (sockets w)) in
  JObj [("acceptedCount", JNum (acceptedCount (self w)));
        ("getWebSocketsCount", JNum count);
        ("mismatch", JBool (negb (acceptedCount (self w) =? count)));
        ("timestamp", JStr (Date_toISOString now));
        ("verdict", JStr (if acceptedCount (self w) =? count
                          then "✅ Counts match - working correctly"
                          else "❌ Counts mismatch - BUG DETECTED"))].

Definition usage : string :=
  "Raw Cloudflare DO Test" +:+ newline +:+ "Endpoints:" +:+ newline
  +:+ "- WebSocket: ws://" +:+ newline +:+ "- Status: /status".

(** [connectionId] is what [crypto.randomUUID()] returns in this call. *)
Definition fetch (request : Request) (connectionId : string) (now : Z) (w : World)
    : Response * World :=
  if String.eqb (pathname request) "/status" then (JsonText (statusValue w now) 2, w)
  else
    match upgradeHeader request with
    | Some header =>
        if String.eqb header "websocket" then
          (* this.state.acceptWebSocket(server, tags); this.acceptedCount++ *)
          (SwitchingProtocols,
           {| self := {| acceptedCount := acceptedCount (self w) + 1 |};
              sockets := sockets w ++ [connectionId];
              trace := trace w |})
        else (PlainText usage, w)
    | None => (PlainText usage, w)
    end.

Definition broadcastValue (w : World) (senderId msg : string) (now : Z) : json :=
  JObj [("type", JStr "broadcast");
        ("originalMessage", JStr msg);
        ("from", JStr (String.substring 0 8 senderId +:+ "..."));
        ("serverTime", JStr (Date_toISOString now));
        ("trackedConnections", JNum (Z.of_nat (List.length (sockets w))));
        ("acceptedConnections", JNum (acceptedCount (self w)))].

(** The message goes to all sockets, the sender among them. *)
Definition webSocketMessage (ws : string) (message : RawMessage) (now : Z) (w : World)
    : World :=
  let msg := match message with
             | TextFrame text => text
             | BinaryFrame data => TextDecoder_decode data
             end in
  let broadcastMsg := JSON_stringify (broadcastValue w ws msg now) in
  {| self := self w; sockets := sockets w;
     trace := trace w ++ ((fun socket => SocketSend socket broadcastMsg) <$> sockets w) |}.

(** [webSocketClose] and [webSocketError] log, and do nothing else. *)
Definition webSocketClose (ws : string) (w : World) : World := w.
Definition webSocketError (ws : string) (w : World) : World := w.

Inductive Step : Type :=
| Fetch (request : Request) (connectionId : string) (now : Z)
| Message (ws : string) (message : RawMessage) (now : Z)
| Close (ws : string)       (* the close event; then the state forgets the socket *)
| Error (ws : string)
| Hibernate.                (* the instance is discarded and constructed anew *)

Definition step (w : World) (st : Step) : World :=
  match st with
  | Fetch request connectionId now => (fetch request connectionId now w).2
  | Message ws message now => webSocketMessage ws message now w
  | Close ws =>
      let closed := webSocketClose ws w in
      {| self := self closed;
         sockets := List.filter (fun socket => negb (String.eqb socket ws)) (sockets closed);
         trace := trace closed |}
  | Error ws => webSocketError ws w
  | Hibernate => construct (sockets w) (trace w)
  end.

Definition steps (w : World) (script : list Step) : World := fold_left step script w.

(** No step of the script discards the instance. *)
Definition awake (script : list Step) : bool :=
  forallb (fun st => match st with Hibernate => false | _ => true end) script.

(** Nor does a socket close. *)
Definition steady (script : list Step) : bool :=
  forallb (fun st => match st with Hibernate | Close _ => false | _ => true end) script.

(** What [/status] says at time [now]. *)
Definition status (w : World) (now : Z) : Response :=
  (fetch {| pathname := "/status"; upgradeHeader := None |} "" now w).1.

Definition reportsMismatch (r : Response) : option json :=
  match r with
  | JsonText value _ => path value ["mismatch"]
  | _ => None
  end.
End Object.
End Raw.

(** ** More rooms *)

Module Scenario.
Import Example.

Definition pongAt (now : Z) : json :=
  JObj [("type", JStr "pong"); ("timestamp", JStr (pretty now))].

Definition cursorOf (c : ConnectionId) : json :=
  JObj [("clientId", JStr c); ("state", cursor)].

(** The texts of [Example.known], the pong of time 3 and the cursor of A as
    the actor relays it. *)
Definition answers : list json := pongAt 3 :: cursorOf "A" :: known.

Definition parseAnswer (text : string) : option json := parseIn answers text.

#[export] Instance browser : JsRuntime :=
  {| JSON_parse := parseAnswer; JSON_stringify := stringify; Date_toISOString := pretty;
     JSON_parse_text := parseIn_text answers eq_refl |}.

(** A new room whose actor has started. *)
Definition started : World := step emptyRoom (Deliver Start 0).

(** A has joined a new room, under the discipline of the host. *)
Definition alone : World :=
  steps (step emptyRoom (Deliver Start 0)) [Accept "A"; Deliver (Connect "A") 1].

(** Then the actor hibernates and is woken. *)
Definition aloneThenWoken : World := steps alone [Hibernate 5; Deliver Start 5].

(** A and B have joined a new room. *)
Definition pair : World := steps alone [Accept "B"; Deliver (Connect "B") 2].

(** C joins them, A leaves, D joins. *)
Definition fourVisitors : World :=
  steps (steps (steps pair [Accept "C"; Deliver (Connect "C") 3])
           [Deliver (Close "A") 4; Drop "A"])
    [Accept "D"; Deliver (Connect "D") 5].

(** An [Awareness] object holds its own local state from the construction on. *)
#[export] Instance presence : AwarenessLibrary :=
  {| Awareness := unit; Awareness_new := fun _ => tt; Awareness_statesSize := fun _ => 1 |}.

(** The instance of [pair] after the cursor of A has arrived. *)
Definition pairWithCursor : Instance :=
  {| actor := step pair (Deliver (Message "A" (BinaryFrame
                                    (textFrame MESSAGE_AWARENESS (stringify cursor)))) 3);
     awareness := None |}.

(** The instance of [pair] after A has sent the update [op1]. *)
Definition pairWithUpdate : Instance :=
  {| actor := step pair (Deliver (Message "A" (BinaryFrame (updateFrame [op1]))) 3);
     awareness := None |}.

(** The provider of a page with an empty replica: constructed, and its
    socket has opened. *)
Definition page : Client.World :=
  Client.step (Client.construct "wss://host" "room" []) Client.SocketOpens.

(** The same provider before its socket opens, and with one listener, the
    function 7, registered for [event]. *)
Definition listening (event : string) : Client.World :=
  Client.on event 7 (Client.construct "wss://host" "room" []).

(** The host has accepted C in the room of A and B; the provider of C has
    the update [op1] in its replica, made while it was disconnected, and its
    socket has opened. *)
Definition pairAndC : World := step pair (Accept "C").

Definition returning : Client.World :=
  Client.step (Client.construct "wss://host" "room" [op1]) Client.SocketOpens.

(** A decoder that is right on ASCII. *)
#[export] Instance ascii : TextDecoder :=
  {| TextDecoder_decode := String.string_of_list_byte |}.

(** Two sockets are accepted by a raw object. *)
Definition upgrade : Raw.Request :=
  {| Raw.pathname := "/"; Raw.upgradeHeader := Some "websocket" |}.

Definition twoSockets : list Raw.Step := [Raw.Fetch upgrade "s1" 1; Raw.Fetch upgrade "s2" 2].

(** ... and after its socket has opened. *)
Definition attentive (event : string) : Client.World :=
  Client.step (listening event) Client.SocketOpens.
End Scenario.

(** * Properties *)

(** ** Bytes *)

Lemma Z_of_byte_range b : 0 <= Z_of_byte b < 256.
Proof.
  unfold Z_of_byte. pose proof (Byte.to_N_bounded b) as H. lia.
Qed.

Lemma Z_of_byte_of_Z z : 0 <= z < 256 -> Z_of_byte (byte_of_Z z) = z.
Proof.
  intros Hz. unfold byte_of_Z, Z_of_byte.
  rewrite Z.mod_small by lia.
  destruct (Byte.of_N (Z.to_N z)) as [b|] eqn:E.
  - apply Byte.to_of_N in E. rewrite E. lia.
  - apply Byte.of_N_None_iff in E. lia.
Qed.

Lemma byte_of_Z_of_byte b : byte_of_Z (Z_of_byte b) = b.
Proof.
  unfold byte_of_Z. pose proof (Z_of_byte_range b).
  rewrite Z.mod_small by lia. unfold Z_of_byte.
  rewrite N2Z.id, Byte.of_to_N. reflexivity.
Qed.

(** ** The codec round trip: what [writeVarUint] writes, [readVarUint] reads *)

Section Codec.
Import binary number encoding decoding.

Lemma land_BITS7 num : 0 <= num -> Z.land BITS7 num = num mod 128.
Proof.
  intros _. rewrite Z.land_comm. change BITS7 with (Z.ones 7).
  rewrite Z.land_ones by lia. reflexivity.
Qed.

Lemma lor_BIT8 x : 0 <= x < 128 -> Z.lor BIT8 x = 128 + x.
Proof.
  intros Hx. unfold BIT8.
  assert (Z.land 128 x = 0) as Hland.
  { apply Z.bits_inj'. intros n Hn. rewrite Z.land_spec, Z.bits_0.
    change 128 with (2 ^ 7). rewrite Z.pow2_bits_eqb by lia.
    destruct (Z.eqb_spec 7 n) as [<-|]; [|reflexivity].
    rewrite andb_true_l. apply Z.testbit_false; [lia|]. rewrite Z.div_small by lia. reflexivity. }
  pose proof (Z.add_lor_land 128 x) as H. lia.
Qed.

Lemma writeVarUint_loop_app fuel e num :
  writeVarUint_loop fuel e num = e ++ writeVarUint_loop fuel [] num.
Proof.
  revert e num. induction fuel as [|fuel IH]; intros e num; simpl.
  - reflexivity.
  - destruct (BITS7 <? num); [|reflexivity].
    rewrite IH. rewrite (IH (write [] _)). unfold write. simpl.
    rewrite <- app_assoc. reflexivity.
Qed.

Lemma writeVarUint_app e num : writeVarUint e num = e ++ writeVarUint [] num.
Proof. apply writeVarUint_loop_app. Qed.

Lemma safe_is_finite : MAX_SAFE_INTEGER < overflow.
Proof. reflexivity. Qed.

(** The sum of a step of [readVarUint] while the numbers are finite. *)
Lemma finite_sum acc mult digit :
  0 <= acc -> mult < overflow ->
  (if isNaN acc || ((overflow <=? mult) && (digit =? 0)) then NaN else acc + digit * mult)
  = acc + digit * mult.
Proof.
  intros Hacc Hmult. unfold isNaN.
  destruct (Z.ltb_spec acc 0); [lia|]. destruct (Z.leb_spec overflow mult); [lia|].
  reflexivity.
Qed.

Lemma read_write_loop fuel : forall num acc mult rest,
  0 <= num -> Z.log2 num <= Z.of_nat fuel ->
  0 <= acc -> 0 < mult < overflow -> acc + num * mult <= MAX_SAFE_INTEGER ->
  readVarUint_loop (writeVarUint_loop fuel [] num ++ rest) acc mult
  = Val (acc + num * mult, rest).
Proof.
  pose proof safe_is_finite as Hfinite.
  induction fuel as [|fuel IH]; intros num acc mult rest Hnum Hlog Hacc [Hmult Hbound] Hmax.
  - assert (num < 128) as Hsmall.
    { destruct (Z.eq_dec num 0) as [->|]; [lia|].
      assert (num < 2 ^ 1); [|lia]. apply Z.log2_lt_pow2; lia. }
    simpl. unfold write. simpl. rewrite land_BITS7 by lia.
    rewrite Z.mod_small by lia. rewrite Z_of_byte_of_Z by lia.
    rewrite Z.land_comm, land_BITS7, Z.mod_small by lia.
    rewrite finite_sum by lia.
    unfold BIT8. destruct (Z.ltb_spec num 128); [reflexivity|lia].
  - simpl. unfold BITS7 at 1. destruct (Z.ltb_spec 127 num) as [Hbig|Hsmall].
    + rewrite writeVarUint_loop_app. unfold write. simpl.
      rewrite land_BITS7 by lia.
      pose proof (Z.mod_pos_bound num 128 ltac:(lia)) as Hmod.
      rewrite lor_BIT8 by lia. rewrite Z_of_byte_of_Z by lia.
      rewrite Z.land_comm, land_BITS7 by lia.
      replace ((128 + num mod 128) mod 128) with (num mod 128)
        by (apply (Z.mod_unique_pos _ 128 1); lia).
      rewrite finite_sum by lia.
      unfold BIT8. destruct (Z.ltb_spec (128 + num mod 128) 128); [lia|].
      pose proof (Z.div_mod num 128 ltac:(lia)) as Hdm.
      assert (1 <= num / 128) by (apply Z.div_le_lower_bound; lia).
      assert (mult * 128 <= num / 128 * (mult * 128)) by nia.
      assert (acc + num mod 128 * mult + num / 128 * (mult * 128) = acc + num * mult) as Heq by nia.
      destruct (Z.ltb_spec MAX_SAFE_INTEGER (acc + num mod 128 * mult)); [nia|].
      rewrite IH; try lia; try nia.
      * rewrite Heq. reflexivity.
      * change 128 with (2 ^ 7). rewrite <- Z.shiftr_div_pow2 by lia.
        rewrite Z.log2_shiftr by lia. lia.
    + unfold write. simpl. rewrite land_BITS7 by lia.
      rewrite Z.mod_small by lia. rewrite Z_of_byte_of_Z by lia.
      rewrite Z.land_comm, land_BITS7, Z.mod_small by lia.
      rewrite finite_sum by lia.
      unfold BIT8. destruct (Z.ltb_spec num 128); [reflexivity|lia].
Qed.

Lemma readVarUint_writeVarUint num rest :
  0 <= num <= MAX_SAFE_INTEGER ->
  readVarUint (writeVarUint [] num ++ rest) = Val (num, rest).
Proof.
  intros [H0 Hmax]. unfold readVarUint, writeVarUint.
  pose proof (Z.log2_nonneg num). assert (1 < overflow) by reflexivity.
  rewrite read_write_loop by lia.
  f_equal. f_equal. lia.
Qed.

Lemma readVarUint8Array_writeVarUint8Array arr rest :
  Z.of_nat (List.length arr) <= MAX_SAFE_INTEGER ->
  readVarUint8Array (writeVarUint8Array [] arr ++ rest) = Val (arr, rest).
Proof.
  intros Hlen. unfold readVarUint8Array, writeVarUint8Array, writeUint8Array.
  rewrite <- app_assoc. rewrite readVarUint_writeVarUint by lia.
  unfold readUint8Array. rewrite length_app.
  destruct (Z.ltb_spec (Z.of_nat (List.length arr + List.length rest))
              (Z.of_nat (List.length arr))); [lia|].
  rewrite Nat2Z.id. rewrite take_app_length, drop_app_length. reflexivity.
Qed.

Lemma readVarString_writeVarString s rest :
  Z.of_nat (List.length (utf8_encode s)) <= MAX_SAFE_INTEGER ->
  utf8_valid (utf8_encode s) = true ->
  readVarString (writeVarString [] s ++ rest) = Val (s, rest).
Proof.
  intros Hlen Htext. unfold readVarString, writeVarString.
  rewrite readVarUint8Array_writeVarUint8Array by exact Hlen.
  unfold utf8_decode. rewrite Htext. unfold utf8_encode.
  rewrite String.string_of_list_byte_of_string. reflexivity.
Qed.
End Codec.


(** ** The built-in [Map] *)

Section JsMapFacts.
Context {V : Type}.
Implicit Types (m : JsMap.t V) (k : string) (v : V).

Lemma get_set_eq k v m : JsMap.get k (JsMap.set k v m) = Some v.
Proof.
  induction m as [|[k' v'] m IH]; simpl.
  - rewrite String.eqb_refl. reflexivity.
  - destruct (String.eqb_spec k' k) as [->|Hne]; simpl.
    + rewrite String.eqb_refl. reflexivity.
    + destruct (String.eqb_spec k' k); [contradiction|]. exact IH.
Qed.

Lemma get_set_ne k k' v m : k ≠ k' → JsMap.get k' (JsMap.set k v m) = JsMap.get k' m.
Proof.
  intros Hne. induction m as [|[k0 v0] m IH]; simpl.
  - destruct (String.eqb_spec k k'); [contradiction|reflexivity].
  - destruct (String.eqb_spec k0 k) as [->|]; simpl.
    + destruct (String.eqb_spec k k'); [contradiction|reflexivity].
    + destruct (String.eqb_spec k0 k'); [reflexivity|exact IH].
Qed.

Lemma get_delete_eq k m : JsMap.get k (JsMap.delete k m) = None.
Proof.
  induction m as [|[k0 v0] m IH]; simpl; [reflexivity|].
  destruct (String.eqb_spec k0 k) as [->|Hne]; simpl; [exact IH|].
  destruct (String.eqb_spec k0 k); [contradiction|exact IH].
Qed.

Lemma get_delete_ne k k' m : k ≠ k' → JsMap.get k' (JsMap.delete k m) = JsMap.get k' m.
Proof.
  intros Hne. induction m as [|[k0 v0] m IH]; simpl; [reflexivity|].
  destruct (String.eqb_spec k0 k) as [->|]; simpl.
  - destruct (String.eqb_spec k k'); [contradiction|exact IH].
  - destruct (String.eqb_spec k0 k'); [reflexivity|exact IH].
Qed.

Lemma delete_absent k m : JsMap.has k m = false → JsMap.delete k m = m.
Proof.
  unfold JsMap.has. induction m as [|[k0 v0] m IH]; simpl; [reflexivity|].
  destruct (String.eqb_spec k0 k); [discriminate|].
  intros Hm. rewrite IH by exact Hm. reflexivity.
Qed.

Lemma has_true_iff k m : JsMap.has k m = true ↔ k ∈ JsMap.keys m.
Proof.
  unfold JsMap.has, JsMap.keys. induction m as [|[k0 v0] m IH]; simpl.
  - split; [discriminate|]. intros Hin. inversion Hin.
  - destruct (String.eqb_spec k0 k) as [->|Hne].
    + split; [intros _; apply list_elem_of_here|reflexivity].
    + rewrite IH. split.
      * intros Hin. apply list_elem_of_further. exact Hin.
      * intros Hin. inversion Hin; subst; [contradiction|assumption].
Qed.

Lemma has_set k k' v m :
  JsMap.has k' (JsMap.set k v m) = if String.eqb k k' then true else JsMap.has k' m.
Proof.
  unfold JsMap.has. destruct (String.eqb_spec k k') as [->|Hne].
  - rewrite get_set_eq. reflexivity.
  - rewrite get_set_ne by exact Hne. reflexivity.
Qed.

(** A key that is present keeps its place; a new key goes last. *)
Lemma keys_set k v m :
  JsMap.keys (JsMap.set k v m)
  = if JsMap.has k m then JsMap.keys m else JsMap.keys m ++ [k].
Proof.
  unfold JsMap.has, JsMap.keys.
  induction m as [|[k0 v0] m IH]; cbn [JsMap.set JsMap.get]; [reflexivity|].
  destruct (String.eqb_spec k0 k) as [->|Hne]; [reflexivity|].
  rewrite !fmap_cons, IH. destruct (JsMap.get k m); reflexivity.
Qed.


Lemma size_keys m : JsMap.size m = Z.of_nat (List.length (JsMap.keys m)).
Proof. unfold JsMap.size, JsMap.keys. rewrite length_fmap. reflexivity. Qed.

Lemma size_set_absent k v m :
  JsMap.has k m = false → JsMap.size (JsMap.set k v m) = JsMap.size m + 1.
Proof.
  intros Hhas. rewrite !size_keys, keys_set, Hhas, length_app. simpl. lia.
Qed.
End JsMapFacts.

(** ** Running the handlers *)

Ltac run :=
  cbv [bind ret throw try_catch lift this update emit getConnections when parse
       send broadcast console_log console_error storage_put storage_get
       with_doc with_lastMessageAt with_lastActivityAt with_customAwareness
       with_connectedUsers stamped decoding.createDecoder
       self host trace doc instanceCreatedAt lastMessageAt lastActivityAt
       customAwareness connectedUsers connections storage storageAvailable].

Section ActorFacts.
Context {yjs : YjsLibrary} {js : JsRuntime}.
Import encoding decoding syncProtocol.

Lemma broadcastConnectionCount_run event now w :
  broadcastConnectionCount event now w
  = (Normal tt,
     {| self := self w; host := host w; trace := trace w ++ [rosterBroadcast w event now] |}).
Proof. reflexivity. Qed.

Lemma onClose_run c w :
  onClose c w
  = (Normal tt,
     {| self := with_customAwareness (JsMap.delete c (customAwareness (self w)))
                  (with_connectedUsers (JsMap.delete c (connectedUsers (self w))) (self w));
        host := host w;
        trace := trace w
                 ++ (if JsMap.has c (customAwareness (self w))
                     then [Broadcast (awarenessFrame c JNull) []] else [])
                 ++ [SetTimeout FinalCountAfterDisconnect 0] |}).
Proof.
  destruct w as [[d t0 t1 t2 aw us] h tr].
  unfold onClose. run.
  destruct (JsMap.has c us) eqn:Hus; destruct (JsMap.has c aw) eqn:Haw; run.
  all: rewrite ?(delete_absent c us) by exact Hus.
  all: rewrite ?(delete_absent c aw) by exact Haw.
  all: rewrite <- ?app_assoc; reflexivity.
Qed.

Lemma forEach_send c (l : list (string * json)) w :
  forEach (fun '(clientId, state) => send c (awarenessFrame clientId state)) l w
  = (Normal tt,
     {| self := self w; host := host w;
        trace := trace w ++ ((fun entry => Send c (awarenessFrame entry.1 entry.2)) <$> l) |}).
Proof.
  revert w. induction l as [|[k v] l IH]; intros w.
  - simpl. rewrite app_nil_r. destruct w; reflexivity.
  - cbn [forEach]. unfold bind at 1. unfold send at 1, emit at 1.
    rewrite IH. cbn [self host trace]. rewrite fmap_cons, <- app_assoc. reflexivity.
Qed.

Lemma onConnect_run c now w d :
  doc (self w) = Some d →
  onConnect c now w
  = (Normal tt,
     let s' := with_connectedUsers
                 (usersAfterConnect (connections (host w)) c (connectedUsers (self w)))
                 (with_lastActivityAt now (self w)) in
     {| self := s'; host := host w;
        trace := trace w ++ [Send c (stateVectorFrame d)]
                 ++ presenceReplay c (customAwareness (self w))
                 ++ [Broadcast (customFrame
                       (connectionCountMessage (connections (host w)) s' "connect" now)) []] |}).
Proof.
  destruct w as [[d0 t0 t1 t2 aw us] [conns sto ok] tr]. cbn [self doc]. intros ->.
  unfold onConnect, broadcastConnectionCount, usersAfterConnect, presenceReplay,
    stateVectorFrame, JsMap.entries. run.
  destruct (JsMap.size us <? Z.of_nat (List.length conns)); run.
  all: destruct aw as [|entry aw];
    [ change (0 <? JsMap.size (@nil (string * json))) with false; cbv iota;
      run; rewrite <- !app_assoc; reflexivity | ].
  all: change (0 <? JsMap.size (entry :: aw)) with true; cbv iota.
  all: match goal with
       | |- context [forEach ?f ?l ?W] =>
           change (forEach f l W)
             with (forEach (fun '(clientId, state) => send c (awarenessFrame clientId state)) l W);
           rewrite forEach_send
       end.
  all: run; rewrite <- !app_assoc; reflexivity.
Qed.

Lemma onMessage_uninitialised c raw now w :
  doc (self w) = None →
  onMessage c raw now w
  = (Normal tt,
     {| self := stamped now (self w); host := host w;
        trace := trace w ++ [ConsoleError "[YJS-PARTY] ERROR: Doc not initialized!"] |}).
Proof.
  destruct w as [[d0 t0 t1 t2 aw us] h tr]. cbn [self doc]. intros ->. reflexivity.
Qed.

Lemma onMessage_text_run c text now w d :
  doc (self w) = Some d →
  onMessage c (TextFrame text) now w
  = (Normal tt,
     {| self := stamped now (self w); host := host w;
        trace := trace w ++ [ConsoleLog "[YJS-PARTY] Received string message:"] |}).
Proof.
  destruct w as [[d0 t0 t1 t2 aw us] h tr]. cbn [self doc]. intros ->. reflexivity.
Qed.



Lemma onMessage_awareness_run c message now w d rest text rest' state :
  doc (self w) = Some d →
  readVarUint message = Val (MESSAGE_AWARENESS, rest) →
  readVarString rest = Val (text, rest') →
  JSON_parse text = Some state →
  onMessage c (BinaryFrame message) now w
  = (Normal tt,
     {| self := with_customAwareness (JsMap.set c state (customAwareness (self w)))
                  (stamped now (self w));
        host := host w;
        trace := trace w ++ [Broadcast (awarenessFrame c state) [c]] |}).
Proof.
  destruct w as [[d0 t0 t1 t2 aw us] h tr]. cbn [self doc]. intros -> Htag Hstr Hparse.
  unfold onMessage. run. rewrite Htag.
  change (MESSAGE_AWARENESS =? MESSAGE_SYNC) with false.
  change (MESSAGE_AWARENESS =? MESSAGE_AWARENESS) with true. cbv iota.
  rewrite Hstr. cbn [fst]. rewrite Hparse. reflexivity.
Qed.


Lemma onMessage_custom_run c message now w d rest text rest' msg :
  doc (self w) = Some d →
  readVarUint message = Val (MESSAGE_CUSTOM, rest) →
  readVarString rest = Val (text, rest') →
  JSON_parse text = Some msg →
  onMessage c (BinaryFrame message) now w
  = (Normal tt,
     {| self := stamped now (self w); host := host w;
        trace := trace w ++ [customReaction c msg now (property msg "type")] |}).
Proof.
  destruct w as [[d0 t0 t1 t2 aw us] h tr]. cbn [self doc]. intros -> Htag Hstr Hparse.
  unfold onMessage. run. rewrite Htag.
  change (MESSAGE_CUSTOM =? MESSAGE_SYNC) with false.
  change (MESSAGE_CUSTOM =? MESSAGE_AWARENESS) with false.
  change (MESSAGE_CUSTOM =? MESSAGE_CUSTOM) with true. cbv iota.
  rewrite Hstr. cbn [fst]. rewrite Hparse. cbv iota beta.
  unfold handleCustomMessage, customReaction. run.
  destruct (property msg "type") as [[[| | |t| |]|]|e]; try reflexivity.
  destruct (String.eqb t "ping"); [reflexivity|].
  destruct (String.eqb t "config"); [reflexivity|].
  destruct (String.eqb t "mode"); reflexivity.
Qed.

Lemma sync_header_length :
  encoding.length (writeVarUint createEncoder MESSAGE_SYNC) = 1.
Proof. reflexivity. Qed.

Lemma length_writeVarUint_loop fuel e num :
  (List.length e < List.length (writeVarUint_loop fuel e num))%nat.
Proof.
  revert e num. induction fuel as [|fuel IH]; intros e num; simpl.
  - unfold write. rewrite length_app. simpl. lia.
  - destruct (binary.BITS7 <? num).
    + eapply Nat.lt_trans; [|apply IH]. unfold write. rewrite length_app. simpl. lia.
    + unfold write. rewrite length_app. simpl. lia.
Qed.

Lemma diff_reply_length d sv :
  (1 <? encoding.length (diffFrame d sv)) = true.
Proof.
  apply Z.ltb_lt.
  unfold diffFrame, toUint8Array, writeVarUint8Array, writeUint8Array, encoding.length.
  rewrite length_app.
  pose proof (length_writeVarUint_loop (Z.to_nat (Z.log2 messageYjsSyncStep2))
                (writeVarUint createEncoder MESSAGE_SYNC) messageYjsSyncStep2) as H1.
  pose proof (length_writeVarUint_loop
                (Z.to_nat (Z.log2 (Z.of_nat (List.length (Y_encodeStateAsUpdate d sv)))))
                (writeVarUint (writeVarUint createEncoder MESSAGE_SYNC) messageYjsSyncStep2)
                (Z.of_nat (List.length (Y_encodeStateAsUpdate d sv)))) as H2.
  change (List.length (writeVarUint createEncoder MESSAGE_SYNC)) with 1%nat in H1.
  unfold writeVarUint at 1. unfold writeVarUint at 1 in H2. lia.
Qed.

(** What [readSyncMessage] makes of a sync step 1. *)
Lemma readSyncMessage_step1 r1 r2 e d :
  readVarUint r1 = Val (messageYjsSyncStep1, r2) →
  readSyncMessage r1 e d
  = match readVarUint8Array r2 with
    | Val (sv, _) =>
        if Y_isStateVector sv
        then Val {| messageType := messageYjsSyncStep1;
                    encoder' := writeVarUint8Array (writeVarUint e messageYjsSyncStep2)
                                  (Y_encodeStateAsUpdate d sv);
                    doc' := d; caught := None |}
        else Exn StateVectorDecodeError
    | Exn err => Exn err
    end.
Proof.
  intros Hsub. unfold readSyncMessage. rewrite Hsub.
  change (messageYjsSyncStep1 =? messageYjsSyncStep1) with true. cbv iota.
  unfold readSyncStep1, writeSyncStep2, Y.encodeStateAsUpdate.
  destruct (readVarUint8Array r2) as [[sv r3]|err]; [|reflexivity].
  destruct (Y_isStateVector sv); reflexivity.
Qed.

Lemma onMessage_step1_run c message now w d r1 r2 sv r3 :
  doc (self w) = Some d →
  readVarUint message = Val (MESSAGE_SYNC, r1) →
  readVarUint r1 = Val (messageYjsSyncStep1, r2) →
  readVarUint8Array r2 = Val (sv, r3) →
  Y_isStateVector sv = true →
  onMessage c (BinaryFrame message) now w
  = (Normal tt,
     {| self := stamped now (self w); host := host w;
        trace := trace w ++ [Send c (diffFrame d sv)] |}).
Proof.
  destruct w as [[d0 t0 t1 t2 aw us] h tr]. cbn [self doc]. intros -> Htag Hsub Hsv Hvector.
  unfold onMessage. run. rewrite Htag.
  change (MESSAGE_SYNC =? MESSAGE_SYNC) with true. cbv iota.
  rewrite (readSyncMessage_step1 _ _ _ _ Hsub), Hsv, Hvector. cbv iota beta.
  cbn [syncProtocol.caught syncProtocol.encoder' syncProtocol.doc' syncProtocol.messageType].
  change (bool_decide (is_Some (@None Error))) with false.
  pose proof (diff_reply_length d sv) as Hlong. unfold diffFrame, toUint8Array in Hlong.
  rewrite Hlong.
  change (messageYjsSyncStep1 =? messageYjsUpdate) with false.
  reflexivity.
Qed.

(** A SYNC frame the sync reader throws on: the handler has set the time
    stamps and does nothing more. *)
Lemma onMessage_sync_throws c message now w d r1 e :
  doc (self w) = Some d →
  readVarUint message = Val (MESSAGE_SYNC, r1) →
  readSyncMessage r1 (writeVarUint createEncoder MESSAGE_SYNC) d = Exn e →
  onMessage c (BinaryFrame message) now w
  = (Abrupt e, {| self := stamped now (self w); host := host w; trace := trace w |}).
Proof.
  destruct w as [[d0 t0 t1 t2 aw us] h tr]. cbn [self doc]. intros -> Htag Hthrown.
  unfold onMessage. run. rewrite Htag.
  change (MESSAGE_SYNC =? MESSAGE_SYNC) with true. cbv iota.
  rewrite Hthrown. reflexivity.
Qed.


Lemma onMessage_update_run c message now w d r1 r2 :
  doc (self w) = Some d →
  readVarUint message = Val (MESSAGE_SYNC, r1) →
  readVarUint r1 = Val (messageYjsUpdate, r2) →
  onMessage c (BinaryFrame message) now w = afterUpdate c message now w (readUpdate r2 d).
Proof.
  destruct w as [[d0 t0 t1 t2 aw us] [conns sto ok] tr]. cbn [self doc]. intros -> Htag Hsub.
  unfold onMessage, afterUpdate. run. rewrite Htag.
  change (MESSAGE_SYNC =? MESSAGE_SYNC) with true. cbv iota.
  unfold readSyncMessage. rewrite Hsub.
  change (messageYjsUpdate =? messageYjsSyncStep1) with false.
  change (messageYjsUpdate =? messageYjsSyncStep2) with false.
  change (messageYjsUpdate =? messageYjsUpdate) with true. cbv iota.
  destruct (readUpdate r2 d) as [d1 [err|]]; cbv iota beta;
    cbn [syncProtocol.caught syncProtocol.encoder' syncProtocol.doc' syncProtocol.messageType fst snd].
  - change (bool_decide (is_Some (Some err))) with true. cbv iota.
    rewrite sync_header_length. change (1 <? 1) with false.
    change (messageYjsUpdate =? messageYjsUpdate) with true. cbv iota.
    unfold persistDocument. run.
    destruct ok; rewrite <- ?app_assoc; reflexivity.
  - change (bool_decide (is_Some (@None Error))) with false. cbv iota.
    rewrite sync_header_length. change (1 <? 1) with false.
    change (messageYjsUpdate =? messageYjsUpdate) with true. cbv iota.
    unfold persistDocument. run.
    destruct ok; rewrite <- ?app_assoc; reflexivity.
Qed.

Lemma onMessage_step2_run c message now w d r1 r2 :
  doc (self w) = Some d →
  readVarUint message = Val (MESSAGE_SYNC, r1) →
  readVarUint r1 = Val (messageYjsSyncStep2, r2) →
  onMessage c (BinaryFrame message) now w
  = (Normal tt,
     {| self := with_doc (Some (readSyncStep2 r2 d).1) (stamped now (self w));
        host := host w;
        trace := trace w
                 ++ match (readSyncStep2 r2 d).2 with
                    | Some _ => [ConsoleError "Caught error while handling a Yjs update"]
                    | None => []
                    end |}).
Proof.
  destruct w as [[d0 t0 t1 t2 aw us] [conns sto ok] tr]. cbn [self doc]. intros -> Htag Hsub.
  unfold onMessage. run. rewrite Htag.
  change (MESSAGE_SYNC =? MESSAGE_SYNC) with true. cbv iota.
  unfold readSyncMessage. rewrite Hsub.
  change (messageYjsSyncStep2 =? messageYjsSyncStep1) with false.
  change (messageYjsSyncStep2 =? messageYjsSyncStep2) with true. cbv iota.
  destruct (readSyncStep2 r2 d) as [d1 [err|]]; cbv iota beta;
    cbn [syncProtocol.caught syncProtocol.encoder' syncProtocol.doc' syncProtocol.messageType
         fst snd].
  - change (bool_decide (is_Some (Some err))) with true. cbv iota.
    rewrite sync_header_length. change (1 <? 1) with false.
    change (messageYjsSyncStep2 =? messageYjsUpdate) with false. reflexivity.
  - change (bool_decide (is_Some (@None Error))) with false. cbv iota.
    rewrite sync_header_length. change (1 <? 1) with false.
    change (messageYjsSyncStep2 =? messageYjsUpdate) with false.
    cbv iota. rewrite app_nil_r. reflexivity.
Qed.
End ActorFacts.

(** ** The roster: identities and their backfill *)

Section RosterFacts.
Context {yjs : YjsLibrary} {js : JsRuntime}.
Implicit Types (users : JsMap.t UserData) (conns : list ConnectionId).

(** The backfill never touches an identity that is already known. *)
Lemma restoreUsers_keeps conns : ∀ index users c u,
  JsMap.get c users = Some u → JsMap.get c (restoreUsers conns index users) = Some u.
Proof.
  induction conns as [|conn rest IH]; intros index users c u Hget; simpl; [exact Hget|].
  apply IH. destruct (JsMap.has conn users) eqn:Hhas; [exact Hget|].
  destruct (String.eqb_spec conn c) as [->|Hne].
  - unfold JsMap.has in Hhas. rewrite Hget in Hhas. discriminate.
  - rewrite get_set_ne by exact Hne. exact Hget.
Qed.




(** On connections that are all new the backfill appends them in order. *)
Lemma restoreUsers_keys_fresh conns : ∀ index users,
  NoDup conns → (∀ c, c ∈ conns → JsMap.has c users = false) →
  JsMap.keys (restoreUsers conns index users) = JsMap.keys users ++ conns.
Proof.
  induction conns as [|conn rest IH]; intros index users Hnd Hnew; simpl.
  - rewrite app_nil_r. reflexivity.
  - apply NoDup_cons in Hnd as [Hnotin Hnd].
    rewrite (Hnew conn) by apply list_elem_of_here.
    rewrite IH; [|exact Hnd|].
    + rewrite keys_set, (Hnew conn) by apply list_elem_of_here.
      rewrite <- app_assoc. reflexivity.
    + intros c Hc. rewrite has_set.
      destruct (String.eqb_spec conn c) as [->|]; [contradiction|].
      apply Hnew. apply list_elem_of_further. exact Hc.
Qed.


(** A connect leaves the identity of every other connection as it was. *)
Lemma usersAfterConnect_keeps conns c users c' u :
  c' ≠ c → JsMap.get c' users = Some u →
  JsMap.get c' (usersAfterConnect conns c users) = Some u.
Proof.
  intros Hne Hget. unfold usersAfterConnect. rewrite get_set_ne by congruence.
  destruct (_ <? _); [apply restoreUsers_keeps|]; exact Hget.
Qed.
End RosterFacts.

(** ** Frames and what the decoder makes of them *)

Section FrameFacts.
Context {yjs : YjsLibrary} {js : JsRuntime}.
Import binary number encoding decoding syncProtocol.

Lemma header2_split a b (p : bytes) :
  writeVarUint8Array (writeVarUint (writeVarUint createEncoder a) b) p
  = writeVarUint [] a ++ writeVarUint [] b ++ writeVarUint8Array [] p.
Proof.
  unfold writeVarUint8Array, writeUint8Array, createEncoder.
  rewrite (writeVarUint_app (writeVarUint (writeVarUint [] a) b)).
  rewrite (writeVarUint_app (writeVarUint [] a) b).
  rewrite <- !app_assoc. reflexivity.
Qed.

Lemma textFrame_split tag text :
  textFrame tag text = writeVarUint [] tag ++ writeVarString [] text.
Proof.
  unfold textFrame, toUint8Array, writeVarString, writeVarUint8Array, writeUint8Array,
    createEncoder.
  rewrite (writeVarUint_app (writeVarUint [] tag)). rewrite <- !app_assoc. reflexivity.
Qed.

Lemma small_is_safe n : 0 <= n <= 2 → 0 <= n <= MAX_SAFE_INTEGER.
Proof. unfold MAX_SAFE_INTEGER. lia. Qed.

Lemma awarenessFrame_is_text c state :
  awarenessFrame c state
  = textFrame MESSAGE_AWARENESS (JSON_stringify (JObj [("clientId", JStr c); ("state", state)])).
Proof. reflexivity. Qed.

Lemma customFrame_is_text msg : customFrame msg = textFrame MESSAGE_CUSTOM (JSON_stringify msg).
Proof. reflexivity. Qed.

(** The roster message of the actor is the roster snapshot. *)
Lemma userJson_is_listedUser entry : userJson entry = listedUser entry.
Proof. destruct entry as [id [[n|] [col|] picture]]; reflexivity. Qed.

Lemma connectionCountMessage_is_snapshot conns s event now :
  connectionCountMessage conns s event now
  = snapshotOf conns (connectedUsers s) event (fullStateSize (doc s))
      (JsMap.size (customAwareness s)) now.
Proof.
  unfold connectionCountMessage, snapshotOf, modeOf, docSize, fullStateSize. cbv zeta.
  rewrite (list_fmap_ext userJson listedUser (JsMap.entries (connectedUsers s)))
    by (intros; apply userJson_is_listedUser).
  reflexivity.
Qed.

Lemma rosterBroadcast_is_snapshot w event now :
  rosterBroadcast w event now
  = snapshotBroadcast
      (snapshotOf (connections (host w)) (connectedUsers (self w)) event
         (fullStateSize (doc (self w))) (JsMap.size (customAwareness (self w))) now).
Proof.
  unfold rosterBroadcast, snapshotBroadcast.
  rewrite customFrame_is_text, connectionCountMessage_is_snapshot. reflexivity.
Qed.

Lemma presenceReplay_is_text c presence :
  presenceReplay c presence
  = (fun entry : string * json =>
       Send c (textFrame MESSAGE_AWARENESS
                 (JSON_stringify (JObj [("clientId", JStr entry.1); ("state", entry.2)]))))
    <$> JsMap.entries presence.
Proof. reflexivity. Qed.

(** A PRESENCE frame is never an APPLICATION frame: the tags differ. *)
Lemma awarenessFrame_not_custom c state msg : awarenessFrame c state ≠ customFrame msg.
Proof.
  rewrite awarenessFrame_is_text, customFrame_is_text, !textFrame_split.
  change (writeVarUint [] MESSAGE_AWARENESS) with [x01].
  change (writeVarUint [] MESSAGE_CUSTOM) with [x02].
  simpl. discriminate.
Qed.


Lemma updateFrame_tag payload extra :
  readVarUint (updateFrame payload ++ extra)
  = Val (MESSAGE_SYNC,
         writeVarUint [] messageYjsUpdate ++ writeVarUint8Array [] payload ++ extra).
Proof.
  unfold updateFrame, writeUpdate, toUint8Array. rewrite header2_split, <- !app_assoc.
  apply readVarUint_writeVarUint. apply small_is_safe. unfold MESSAGE_SYNC. lia.
Qed.

Lemma updateFrame_subtag payload extra :
  readVarUint (writeVarUint [] messageYjsUpdate ++ writeVarUint8Array [] payload ++ extra)
  = Val (messageYjsUpdate, writeVarUint8Array [] payload ++ extra).
Proof. apply readVarUint_writeVarUint. apply small_is_safe. unfold messageYjsUpdate. lia. Qed.

Lemma step2Frame_tag payload extra :
  readVarUint (step2Frame payload ++ extra)
  = Val (MESSAGE_SYNC,
         writeVarUint [] messageYjsSyncStep2 ++ writeVarUint8Array [] payload ++ extra).
Proof.
  unfold step2Frame, toUint8Array. rewrite header2_split, <- !app_assoc.
  apply readVarUint_writeVarUint. apply small_is_safe. unfold MESSAGE_SYNC. lia.
Qed.

Lemma step2Frame_subtag payload extra :
  readVarUint (writeVarUint [] messageYjsSyncStep2 ++ writeVarUint8Array [] payload ++ extra)
  = Val (messageYjsSyncStep2, writeVarUint8Array [] payload ++ extra).
Proof. apply readVarUint_writeVarUint. apply small_is_safe. unfold messageYjsSyncStep2. lia. Qed.

Lemma stateVectorRequest_tag sv extra :
  readVarUint (stateVectorRequest sv ++ extra)
  = Val (MESSAGE_SYNC,
         writeVarUint [] messageYjsSyncStep1 ++ writeVarUint8Array [] sv ++ extra).
Proof.
  unfold stateVectorRequest, toUint8Array. rewrite header2_split, <- !app_assoc.
  apply readVarUint_writeVarUint. apply small_is_safe. unfold MESSAGE_SYNC. lia.
Qed.

Lemma stateVectorRequest_subtag sv extra :
  readVarUint (writeVarUint [] messageYjsSyncStep1 ++ writeVarUint8Array [] sv ++ extra)
  = Val (messageYjsSyncStep1, writeVarUint8Array [] sv ++ extra).
Proof. apply readVarUint_writeVarUint. apply small_is_safe. unfold messageYjsSyncStep1. lia. Qed.

Lemma readUpdate_payload payload extra d :
  Z.of_nat (List.length payload) <= MAX_SAFE_INTEGER →
  readUpdate (writeVarUint8Array [] payload ++ extra) d
  = match Y_applyUpdate d payload with
    | Some d' => (d', None)
    | None => (d, Some UpdateDecodeError)
    end.
Proof.
  intros Hlen. unfold readUpdate, readSyncStep2.
  rewrite readVarUint8Array_writeVarUint8Array by exact Hlen. reflexivity.
Qed.
End FrameFacts.

(** ** What the handlers leave alone *)

Section FrameConditions.
Context {yjs : YjsLibrary} {js : JsRuntime}.
Import encoding decoding syncProtocol.

Ltac cases :=
  repeat first
    [ reflexivity
    | progress run
    | progress cbn [fst snd syncProtocol.caught syncProtocol.encoder' syncProtocol.doc'
                    syncProtocol.messageType]
    | match goal with
      | |- context [match ?x with _ => _ end] =>
          lazymatch x with
          | context [match _ with _ => _ end] => fail
          | _ => destruct x
          end
      end ].

Lemma onMessage_keeps_roster c raw now w :
  connectedUsers (self (onMessage c raw now w).2) = connectedUsers (self w).
Proof.
  destruct w as [[d0 t0 t1 t2 aw us] [conns sto ok] tr].
  unfold onMessage, persistDocument, handleCustomMessage. cases.
Qed.



End FrameConditions.

(** * The claims about the Room Actor *)

Section RoomActor.
Context {yjs : YjsLibrary} {js : JsRuntime}.
Import number encoding decoding syncProtocol.

(** C10. A text frame is never decoded: [onMessage] returns after logging
    it.  Nothing is sent, broadcast, stored or scheduled; the replica, the
    presence store, the roster and the durable storage are as before; the
    two activity time stamps are the only fields that change. *)
Theorem text_frame_is_ignored (w : World) (c : ConnectionId) (text : string) (now : Z) :
  let result := onMessage c (TextFrame text) now w in
  result.1 = Normal tt
  ∧ (∃ line, trace result.2 = trace w ++ [line] ∧ isLog line = true)
  ∧ self result.2 = stamped now (self w)
  ∧ doc (self result.2) = doc (self w)
  ∧ customAwareness (self result.2) = customAwareness (self w)
  ∧ connectedUsers (self result.2) = connectedUsers (self w)
  ∧ host result.2 = host w.
Proof.
  intros result. subst result. destruct (doc (self w)) as [d|] eqn:Hdoc.
  - rewrite (onMessage_text_run c text now w d Hdoc). cbn [fst snd self host trace].
    repeat split; [|exact Hdoc]. eexists. split; reflexivity.
  - rewrite (onMessage_uninitialised c (TextFrame text) now w Hdoc).
    cbn [fst snd self host trace]. repeat split; [|exact Hdoc]. eexists. split; reflexivity.
Qed.

(** C5, as the code has it.  [onClose] removes the connection from the
    roster and from the presence store and leaves every other entry; it
    broadcasts the PRESENCE removal (state null, to everybody) exactly
    when the connection had a presence entry; and it does not compute the
    roster snapshot itself: its last act is to arm a zero-delay timer.
    The snapshot is computed from the enumeration of the host at the
    moment that timer fires and goes to everybody enumerated then: once
    the host has dropped the connection, these are the remaining
    connections, and the snapshot counts them; a timer that fires before
    the host dropped the connection still counts it. *)
Theorem close_clears_then_defers_roster (w : World) (c : ConnectionId) (t1 t2 : Z) :
  let result := onClose c w in
  let removal :=
    Broadcast (textFrame MESSAGE_AWARENESS
                 (JSON_stringify (JObj [("clientId", JStr c); ("state", JNull)]))) [] in
  let remaining := List.filter (fun c' => negb (String.eqb c' c)) (connections (host w)) in
  let dropped := steps w [Deliver (Close c) t1; Drop c] in
  let snapshot (conns : list ConnectionId) :=
    snapshotOf conns (connectedUsers (self result.2)) "disconnect"
      (fullStateSize (doc (self w))) (JsMap.size (customAwareness (self result.2))) t2 in
  result.1 = Normal tt
  ∧ identityOf c result.2 = None
  ∧ JsMap.get c (customAwareness (self result.2)) = None
  ∧ (∀ c', c' ≠ c →
       identityOf c' result.2 = identityOf c' w
       ∧ JsMap.get c' (customAwareness (self result.2)) = JsMap.get c' (customAwareness (self w)))
  ∧ trace result.2
    = trace w
      ++ (if JsMap.has c (customAwareness (self w)) then [removal] else [])
      ++ [SetTimeout FinalCountAfterDisconnect 0]
  ∧ host result.2 = host w
  ∧ self dropped = self result.2
  ∧ trace dropped = trace result.2
  ∧ connections (host dropped) = remaining
  ∧ step dropped (Deliver (Timeout FinalCountAfterDisconnect) t2)
    = {| self := self dropped; host := host dropped;
         trace := trace dropped ++ [snapshotBroadcast (snapshot remaining)] |}
  ∧ step result.2 (Deliver (Timeout FinalCountAfterDisconnect) t2)
    = {| self := self result.2; host := host w;
         trace := trace result.2 ++ [snapshotBroadcast (snapshot (connections (host w)))] |}.
Proof.
  intros result removal remaining dropped snapshot.
  subst result removal remaining dropped snapshot.
  cbn [steps fold_left step dispatch runTask].
  rewrite !broadcastConnectionCount_run, !rosterBroadcast_is_snapshot.
  rewrite onClose_run. unfold identityOf, with_host.
  cbn [fst snd self host trace connectedUsers customAwareness with_customAwareness
       with_connectedUsers connections doc].
  repeat split.
  - apply get_delete_eq.
  - apply get_delete_eq.
  - apply get_delete_ne. congruence.
  - apply get_delete_ne. congruence.
Qed.


(** C3, as the code has it.  On connect the actor greets the new
    connection with sync step 1, the state vector of its replica, and not
    with the document; the PRESENCE frames of the presence store follow,
    one per entry in insertion order, and the roster broadcast ends the
    handler.  The document travels in the reply to the client's own sync
    step 1, when the state vector in it can be decoded: the diff of the
    replica against that vector, which is the full state when the vector
    is the empty one.  A request whose state vector cannot be decoded is
    not answered: the exception of Yjs leaves [onMessage]. *)
Theorem connect_greets_with_state_vector
    (w : World) (c : ConnectionId) (now : Z) (d : Doc) (stateVector extra : bytes) :
  doc (self w) = Some d →
  Z.of_nat (List.length stateVector) <= MAX_SAFE_INTEGER →
  let connected := onConnect c now w in
  let answered := onMessage c (BinaryFrame (stateVectorRequest stateVector ++ extra)) now w in
  let replay :=
    (fun entry : string * json =>
       Send c (textFrame MESSAGE_AWARENESS
                 (JSON_stringify (JObj [("clientId", JStr entry.1); ("state", entry.2)]))))
    <$> JsMap.entries (customAwareness (self w)) in
  let roster :=
    snapshotBroadcast
      (snapshotOf (connections (host w)) (connectedUsers (self connected.2)) "connect"
         (fullStateSize (Some d)) (JsMap.size (customAwareness (self w))) now) in
  connected.1 = Normal tt
  ∧ trace connected.2 = trace w ++ [Send c (stateVectorFrame d)] ++ replay ++ [roster]
  ∧ stateVectorFrame d
    = writeVarUint [] MESSAGE_SYNC ++ writeVarUint [] messageYjsSyncStep1
      ++ writeVarUint8Array [] (Y_encodeStateVector d)
  ∧ (Y_isStateVector stateVector = true →
     answered
     = (Normal tt,
        {| self := stamped now (self w); host := host w;
           trace := trace w ++ [Send c (diffFrame d stateVector)] |}))
  ∧ (Y_isStateVector stateVector = false →
     answered
     = (Abrupt StateVectorDecodeError,
        {| self := stamped now (self w); host := host w; trace := trace w |}))
  ∧ diffFrame d stateVector
    = writeVarUint [] MESSAGE_SYNC ++ writeVarUint [] messageYjsSyncStep2
      ++ writeVarUint8Array [] (Y_encodeStateAsUpdate d stateVector)
  ∧ (stateVector = emptyStateVector →
     answered
     = (Normal tt,
        {| self := stamped now (self w); host := host w;
           trace := trace w ++ [Send c (fullStateFrame d)] |}))
  ∧ fullStateFrame d
    = writeVarUint [] MESSAGE_SYNC ++ writeVarUint [] messageYjsSyncStep2
      ++ writeVarUint8Array [] (Y_encodeStateAsUpdate d emptyStateVector).
Proof.
  intros Hdoc Hlen connected answered replay roster. subst connected answered replay roster.
  rewrite (onConnect_run c now w d Hdoc). cbv zeta. cbn [fst snd self host trace].
  pose proof (stateVectorRequest_tag stateVector extra) as Htag.
  pose proof (stateVectorRequest_subtag stateVector extra) as Hsub.
  pose proof (readVarUint8Array_writeVarUint8Array stateVector extra Hlen) as Hsv.
  assert (Y_isStateVector stateVector = true →
          onMessage c (BinaryFrame (stateVectorRequest stateVector ++ extra)) now w
          = (Normal tt,
             {| self := stamped now (self w); host := host w;
                trace := trace w ++ [Send c (diffFrame d stateVector)] |})) as Hanswer.
  { intros Hvector.
    exact (onMessage_step1_run c _ now w d _ _ stateVector extra Hdoc Htag Hsub Hsv Hvector). }
  split; [reflexivity|]. split.
  { rewrite connectionCountMessage_is_snapshot, presenceReplay_is_text.
    cbn [doc connectedUsers customAwareness with_connectedUsers with_lastActivityAt].
    rewrite Hdoc. reflexivity. }
  split; [unfold stateVectorFrame, writeSyncStep1, toUint8Array; apply header2_split|].
  split; [exact Hanswer|]. split.
  { intros Hvector.
    apply (onMessage_sync_throws c _ now w d _ _ Hdoc Htag).
    rewrite (readSyncMessage_step1 _ _ _ _ Hsub), Hsv, Hvector. reflexivity. }
  split; [unfold diffFrame, toUint8Array; apply header2_split|].
  split; [intros ->; apply Hanswer, Y_isStateVector_empty|].
  unfold fullStateFrame, diffFrame, toUint8Array. apply header2_split.
Qed.


(** C8, as the code has it.  A SYNC update frame whose update applies
    makes the actor attempt one write of the full state of the replica to
    the storage, after the rebroadcast.  With the storage up the write
    lands and the handler returns.  With the storage down the rebroadcast
    already made stands and the replica keeps the update, but nothing
    catches or logs the error: it leaves [onMessage] as an exception. *)
Theorem update_is_persisted_storage_error_propagates
    (w : World) (c : ConnectionId) (now : Z) (d d' : Doc) (payload extra : bytes) :
  doc (self w) = Some d →
  Z.of_nat (List.length payload) <= MAX_SAFE_INTEGER →
  Y_applyUpdate d payload = Some d' →
  let message := updateFrame payload ++ extra in
  let snapshot := Y_encodeStateAsUpdate d' emptyStateVector in
  let result := onMessage c (BinaryFrame message) now w in
  trace result.2 = trace w ++ [Broadcast message [c]; StoragePut persistenceKey snapshot]
  ∧ doc (self result.2) = Some d'
  ∧ (storageAvailable (host w) = true →
       result.1 = Normal tt ∧ storage (host result.2) !! persistenceKey = Some snapshot)
  ∧ (storageAvailable (host w) = false →
       result.1 = Abrupt StorageError ∧ host result.2 = host w).
Proof.
  intros Hdoc Hlen Happly message snapshot result. subst message snapshot result.
  rewrite (onMessage_update_run c _ now w d _ _ Hdoc
             (updateFrame_tag payload extra) (updateFrame_subtag payload extra)).
  rewrite (readUpdate_payload payload extra d Hlen), Happly.
  unfold afterUpdate. cbn [fst snd].
  destruct (storageAvailable (host w)); cbn [fst snd self host trace storage doc with_doc].
  - split; [reflexivity|]. split; [reflexivity|]. split.
    + intros _. split; [reflexivity|]. apply lookup_insert_eq.
    + intros Hdown. discriminate Hdown.
  - split; [reflexivity|]. split; [reflexivity|]. split.
    + intros Hup. discriminate Hup.
    + intros _. split; reflexivity.
Qed.



(** X1. A SYNC frame with sync step 2 is applied to the replica and that is
    all: it is not rebroadcast, nothing is written to the storage and
    nothing is sent back. *)
Theorem sync_step2_is_applied_and_not_relayed
    (w : World) (c : ConnectionId) (now : Z) (d : Doc) (payload extra : bytes) :
  doc (self w) = Some d →
  Z.of_nat (List.length payload) <= MAX_SAFE_INTEGER →
  let result := onMessage c (BinaryFrame (step2Frame payload ++ extra)) now w in
  result.1 = Normal tt
  ∧ doc (self result.2) = Some (default d (Y_applyUpdate d payload))
  ∧ host result.2 = host w
  ∧ broadcasts (since w result.2) = []
  ∧ storagePuts (since w result.2) = []
  ∧ (∀ c', sentTo c' (since w result.2) = []).
Proof.
  intros Hdoc Hlen result. subst result.
  rewrite (onMessage_step2_run c _ now w d _ _ Hdoc
             (step2Frame_tag payload extra) (step2Frame_subtag payload extra)).
  change readSyncStep2 with readUpdate. rewrite (readUpdate_payload payload extra d Hlen).
  unfold since.
  destruct (Y_applyUpdate d payload) as [d'|];
    cbn [fst snd self host trace doc with_doc default]; rewrite drop_app_length;
    repeat split.
Qed.

(** X2. A PRESENCE frame whose text is JSON is stored under the id of the
    sender and broadcast to every connection but the sender, tagged with
    that id and carrying the state as parsed. *)
Theorem presence_is_stored_and_relayed
    (w : World) (c : ConnectionId) (now : Z) (d : Doc)
    (message rest rest' : bytes) (text : string) (state : json) :
  doc (self w) = Some d →
  readVarUint message = Val (MESSAGE_AWARENESS, rest) →
  readVarString rest = Val (text, rest') →
  JSON_parse text = Some state →
  let result := onMessage c (BinaryFrame message) now w in
  result.1 = Normal tt
  ∧ JsMap.get c (customAwareness (self result.2)) = Some state
  ∧ trace result.2 = trace w ++ [Broadcast (awarenessFrame c state) [c]]
  ∧ awarenessFrame c state
    = textFrame MESSAGE_AWARENESS
        (JSON_stringify (JObj [("clientId", JStr c); ("state", state)])).
Proof.
  intros Hdoc Htag Hstr Hparse result. subst result.
  rewrite (onMessage_awareness_run c message now w d rest text rest' state
             Hdoc Htag Hstr Hparse).
  cbn [fst snd self trace customAwareness with_customAwareness].
  split; [reflexivity|]. split; [apply get_set_eq|]. split; reflexivity.
Qed.
End RoomActor.

(** * The claims about the Client Provider *)

Section ClientProvider.
Import Provider.

(** C9, as the code has it.  When the socket closes, for whatever reason,
    the provider emits the disconnected status, clears [synced] and arms
    exactly one timer of 1000 ms whose callback is [connect].  [destroy]
    closes the socket and destroys the awareness; it sets no flag, cancels
    no timer and opens no socket.  So the timer armed by a close fires into
    a reconnect whether or not the provider was destroyed, before the
    close or after it. *)
Theorem close_arms_one_reconnect_destroy_cancels_none (w : Provider.World) (u : string) :
  let closed := onclose w in
  let destroyed := destroy w in
  synced (self closed) = false
  ∧ trace closed
    = trace w ++ [Emit "status" (JObj [("status", JStr "disconnected")]);
                  SetTimeout Reconnect 1000]
  ∧ timers closed = timers w ++ [(Reconnect, 1000)]
  ∧ timers destroyed = timers w
  ∧ synced (self destroyed) = synced (self w)
  ∧ (trace destroyed = trace w ++ [SocketClose; AwarenessDestroy]
     ∨ trace destroyed = trace w ++ [AwarenessDestroy])
  ∧ (∀ delay rest,
       trace (step {| self := self w; timers := (Reconnect, delay) :: rest; trace := trace w |}
                TimerFires)
       = trace w ++ [NewWebSocket (url (self w))])
  ∧ reconnects (trace (steps (connected u) [SocketCloses; TimerFires])) = 1%nat
  ∧ reconnects (trace (steps (connected u) [CallDestroy; SocketCloses; TimerFires])) = 1%nat
  ∧ reconnects (trace (steps (connected u) [SocketCloses; CallDestroy; TimerFires])) = 1%nat.
Proof.
  cbv zeta. repeat split.
  unfold destroy. cbn [trace]. destruct (ws (self w)); [left|right]; reflexivity.
Qed.
End ClientProvider.

(** * More of the Room Actor *)

Section Activation.
Context {yjs : YjsLibrary} {js : JsRuntime}.
Import number encoding decoding syncProtocol.

Lemma onStart_run w :
  onStart w
  = let fresh := {| self := with_doc (Some Y_Doc_new) (self w); host := host w;
                    trace := trace w |} in
    if storageAvailable (host w) then
      match storage (host w) !! persistenceKey with
      | Some state =>
          match Y_applyUpdate Y_Doc_new state with
          | Some d => (Normal tt, {| self := with_doc (Some d) (self w); host := host w;
                                     trace := trace w |})
          | None => (Abrupt UpdateDecodeError, fresh)
          end
      | None => (Normal tt, fresh)
      end
    else (Abrupt StorageError, fresh).
Proof.
  destruct w as [[d0 t0 t1 t2 aw us] [conns sto ok] tr].
  unfold onStart, applyToDoc. run. destruct ok; [|reflexivity].
  destruct (sto !! persistenceKey) as [state|]; [|reflexivity].
  run. destruct (Y_applyUpdate Y_Doc_new state); reflexivity.
Qed.

(** X4. [onStart] always leaves a replica in place: the stored snapshot
    applied to a new document when the storage answers and the snapshot
    applies, a new empty document otherwise.  It returns normally exactly
    when the storage answers and the snapshot, if there is one, applies.
    It sends, broadcasts, stores and schedules nothing, and it leaves the
    roster, the presence store and the host as they are. *)
Theorem start_always_leaves_a_replica (w : World) :
  let result := onStart w in
  let snapshot := if storageAvailable (host w) then storage (host w) !! persistenceKey
                  else None in
  doc (self result.2)
    = Some (default Y_Doc_new (snapshot ≫= Y_applyUpdate Y_Doc_new))
  ∧ (result.1 = Normal tt
     ↔ storageAvailable (host w) = true
       ∧ ∀ state, storage (host w) !! persistenceKey = Some state →
                  is_Some (Y_applyUpdate Y_Doc_new state))
  ∧ trace result.2 = trace w
  ∧ host result.2 = host w
  ∧ connectedUsers (self result.2) = connectedUsers (self w)
  ∧ customAwareness (self result.2) = customAwareness (self w).
Proof.
  intros result snapshot. subst result snapshot. rewrite onStart_run. cbv zeta.
  destruct (storageAvailable (host w)).
  - destruct (storage (host w) !! persistenceKey) as [state|] eqn:Hstate.
    + cbn [mbind option_bind]. destruct (Y_applyUpdate Y_Doc_new state) as [d|] eqn:Happly.
      * cbn [fst snd self host trace doc with_doc connectedUsers customAwareness default].
        repeat split; try reflexivity.
        intros state' Hstate'. injection Hstate' as <-. rewrite Happly. eexists. reflexivity.
      * cbn [fst snd self host trace doc with_doc connectedUsers customAwareness default].
        split; [reflexivity|]. split; [|repeat split].
        split; [discriminate|]. intros [_ Hall]. destruct (Hall state eq_refl) as [d Hd].
        rewrite Happly in Hd. discriminate Hd.
    + cbn [fst snd self host trace doc with_doc connectedUsers customAwareness default mbind
           option_bind].
      repeat split; try reflexivity. intros state Hstate'. discriminate Hstate'.
  - cbn [fst snd self host trace doc with_doc connectedUsers customAwareness default mbind
         option_bind].
    split; [reflexivity|]. split; [|repeat split].
    split; [discriminate|]. intros [Hup _]. discriminate Hup.
Qed.
End Activation.

Section Persistence.
Context {yjs : YjsLibrary} {js : JsRuntime}.
Import number encoding decoding syncProtocol.

Lemma update_message_run c now w d d' payload extra :
  doc (self w) = Some d →
  Z.of_nat (List.length payload) <= MAX_SAFE_INTEGER →
  Y_applyUpdate d payload = Some d' →
  onMessage c (BinaryFrame (updateFrame payload ++ extra)) now w
  = afterUpdate c (updateFrame payload ++ extra) now w (d', None).
Proof.
  intros Hdoc Hlen Happly.
  rewrite (onMessage_update_run c _ now w d _ _ Hdoc
             (updateFrame_tag payload extra) (updateFrame_subtag payload extra)).
  rewrite (readUpdate_payload payload extra d Hlen), Happly. reflexivity.
Qed.

(** X5. The document survives hibernation.  Once an update has been applied
    and written, the host may discard the instance: the next [onStart]
    rebuilds the replica from the stored snapshot, provided Yjs reads back
    the full state it wrote.  The roster and the presence store do not
    survive: the new instance starts with both empty, while the host still
    enumerates the same connections. *)
Theorem document_survives_hibernation
    (w : World) (c : ConnectionId) (now wake : Z) (d d' : Doc) (payload extra : bytes) :
  doc (self w) = Some d →
  Z.of_nat (List.length payload) <= MAX_SAFE_INTEGER →
  Y_applyUpdate d payload = Some d' →
  storageAvailable (host w) = true →
  Y_applyUpdate Y_Doc_new (Y_encodeStateAsUpdate d' emptyStateVector) = Some d' →
  let woken :=
    steps w [Deliver (Message c (BinaryFrame (updateFrame payload ++ extra))) now;
             Hibernate wake; Deliver Start wake] in
  doc (self woken) = Some d'
  ∧ connectedUsers (self woken) = JsMap.empty
  ∧ customAwareness (self woken) = JsMap.empty
  ∧ connections (host woken) = connections (host w).
Proof.
  intros Hdoc Hlen Happly Hup Hback woken. subst woken.
  cbn [steps fold_left step dispatch].
  rewrite (update_message_run c now w d d' payload extra Hdoc Hlen Happly).
  unfold afterUpdate. rewrite Hup. cbn [fst snd self host trace].
  rewrite onStart_run. cbn [host storageAvailable storage self].
  rewrite lookup_insert_eq, Hback. repeat split.
Qed.

(** X6. A write that failed is made up for by the next one.  The update that
    arrived while the storage was down stays in the replica, so the write
    made for a later update, with the storage back, stores a state that
    holds both. *)
Theorem failed_write_is_made_up_by_the_next
    (w : World) (c c' : ConnectionId) (now now' : Z) (d d1 d2 : Doc) (u1 u2 : bytes) :
  doc (self w) = Some d →
  Z.of_nat (List.length u1) <= MAX_SAFE_INTEGER →
  Z.of_nat (List.length u2) <= MAX_SAFE_INTEGER →
  Y_applyUpdate d u1 = Some d1 →
  Y_applyUpdate d1 u2 = Some d2 →
  storageAvailable (host w) = false →
  let failed := step w (Deliver (Message c (BinaryFrame (updateFrame u1))) now) in
  let retried :=
    steps failed [Storage true; Deliver (Message c' (BinaryFrame (updateFrame u2))) now'] in
  storage (host failed) = storage (host w)
  ∧ doc (self failed) = Some d1
  ∧ doc (self retried) = Some d2
  ∧ storage (host retried) !! persistenceKey = Some (Y_encodeStateAsUpdate d2 emptyStateVector).
Proof.
  intros Hdoc Hlen1 Hlen2 Happly1 Happly2 Hdown failed retried. subst failed retried.
  cbn [steps fold_left step dispatch].
  pose proof (update_message_run c now w d d1 u1 [] Hdoc Hlen1 Happly1) as H1.
  rewrite app_nil_r in H1. rewrite H1. clear H1.
  assert (afterUpdate c (updateFrame u1) now w (d1, None)
          = (Abrupt StorageError,
             {| self := with_doc (Some d1) (stamped now (self w)); host := host w;
                trace := trace w ++ [] ++ [Broadcast (updateFrame u1) [c];
                           StoragePut persistenceKey (Y_encodeStateAsUpdate d1 emptyStateVector)] |}))
    as ->.
  { unfold afterUpdate. rewrite Hdown. reflexivity. }
  cbn [fst snd self host trace doc with_doc storage]. split; [reflexivity|]. split; [reflexivity|].
  unfold with_host. cbn [self host trace connections storage].
  match goal with
  | |- context [onMessage c' ?m now' ?w1] =>
      pose proof (update_message_run c' now' w1 d1 d2 u2 [] eq_refl Hlen2 Happly2) as H2
  end.
  rewrite app_nil_r in H2. rewrite H2. unfold afterUpdate.
  cbn [fst snd self host trace doc with_doc storage storageAvailable].
  split; [reflexivity|]. apply lookup_insert_eq.
Qed.
End Persistence.

Section MessageDiscipline.
Context {yjs : YjsLibrary} {js : JsRuntime}.
Import encoding decoding syncProtocol.

Ltac branches :=
  repeat first
    [ progress run
    | progress cbn [fst snd syncProtocol.caught syncProtocol.encoder' syncProtocol.doc'
                    syncProtocol.messageType]
    | match goal with
      | |- context [match ?x with _ => _ end] =>
          lazymatch x with
          | context [match _ with _ => _ end] => fail
          | _ => destruct x
          end
      end ].

Ltac grown :=
  eexists; split;
  [ rewrite <- ?app_assoc; first [reflexivity | symmetry; apply app_nil_r]
  | repeat constructor; cbn [keepsTo]; rewrite ?String.eqb_refl; try reflexivity;
    apply bool_decide_eq_true; reflexivity ].

Lemma onMessage_trace c raw now w :
  ∃ new, trace (onMessage c raw now w).2 = trace w ++ new
         ∧ Forall (fun e => keepsTo c e = true) new.
Proof.
  destruct w as [[d0 t0 t1 t2 aw us] [conns sto ok] tr].
  unfold onMessage, persistDocument, handleCustomMessage. branches; grown.
Qed.

Lemma onMessage_keeps_connections c raw now w :
  connections (host (onMessage c raw now w).2) = connections (host w).
Proof.
  destruct w as [[d0 t0 t1 t2 aw us] [conns sto ok] tr].
  unfold onMessage, persistDocument, handleCustomMessage. branches; reflexivity.
Qed.

Lemma onMessage_keeps_replica c raw now w :
  is_Some (doc (self w)) → is_Some (doc (self (onMessage c raw now w).2)).
Proof.
  destruct w as [[d0 t0 t1 t2 aw us] [conns sto ok] tr]. intros [d Hd]. cbn in Hd. subst d0.
  unfold onMessage, persistDocument, handleCustomMessage. branches; eexists; reflexivity.
Qed.

Lemma onMessage_presence c raw now w :
  customAwareness (self (onMessage c raw now w).2) = customAwareness (self w)
  ∨ ∃ state, customAwareness (self (onMessage c raw now w).2)
             = JsMap.set c state (customAwareness (self w)).
Proof.
  destruct w as [[d0 t0 t1 t2 aw us] [conns sto ok] tr].
  unfold onMessage, persistDocument, handleCustomMessage.
  branches; first [left; reflexivity | right; eexists; reflexivity].
Qed.

(** X7. A message concerns its sender only.  Whatever the frame, and
    whatever the state of the actor, [onMessage] sends directly to the
    sender alone, relays with exactly the sender left out, writes to the
    document key only, arms no timer, leaves the roster and the host's
    connections as they are, and changes the stored presence of no other
    connection. *)
Theorem message_concerns_its_sender_only
    (c : ConnectionId) (raw : RawMessage) (now : Z) (w : World) :
  let w' := (onMessage c raw now w).2 in
  (∃ new, trace w' = trace w ++ new ∧ Forall (fun e => keepsTo c e = true) new)
  ∧ connectedUsers (self w') = connectedUsers (self w)
  ∧ connections (host w') = connections (host w)
  ∧ ∀ c', c' ≠ c →
      JsMap.get c' (customAwareness (self w')) = JsMap.get c' (customAwareness (self w)).
Proof.
  intros w'. subst w'. split; [apply onMessage_trace|].
  split; [apply onMessage_keeps_roster|]. split; [apply onMessage_keeps_connections|].
  intros c' Hne. destruct (onMessage_presence c raw now w) as [->|[state ->]]; [reflexivity|].
  apply get_set_ne. congruence.
Qed.
End MessageDiscipline.

Section RosterAccuracy.
Context {yjs : YjsLibrary} {js : JsRuntime}.

Lemma keys_delete {V} k (m : JsMap.t V) :
  JsMap.keys (JsMap.delete k m)
  = List.filter (fun k' => negb (String.eqb k' k)) (JsMap.keys m).
Proof.
  unfold JsMap.keys. induction m as [|[k' v'] m IH]; [reflexivity|].
  cbn [JsMap.delete fmap list_fmap List.filter fst]. simpl.
  destruct (String.eqb k' k); simpl; [exact IH | f_equal; exact IH].
Qed.

Lemma has_delete {V} k k' (m : JsMap.t V) :
  JsMap.has k' (JsMap.delete k m) = true → k' ≠ k ∧ JsMap.has k' m = true.
Proof.
  intros H. destruct (String.eqb_spec k k') as [->|Hne].
  - unfold JsMap.has in H. rewrite get_delete_eq in H. discriminate.
  - unfold JsMap.has in *. rewrite get_delete_ne in H by exact Hne. split; [congruence|exact H].
Qed.

Lemma restoreUsers_present conns : ∀ index (users : JsMap.t UserData),
  (∀ c, c ∈ conns → JsMap.has c users = true) → restoreUsers conns index users = users.
Proof.
  induction conns as [|conn rest IH]; intros index users Hall; [reflexivity|].
  cbn [restoreUsers]. rewrite (Hall conn) by left. apply IH. intros c Hc. apply Hall. now right.
Qed.

Lemma restoreUsers_app pre : ∀ post index users,
  restoreUsers (pre ++ post) index users
  = restoreUsers post (index + Z.of_nat (List.length pre)) (restoreUsers pre index users).
Proof.
  induction pre as [|conn rest IH]; intros post index users.
  - cbn [app restoreUsers List.length]. f_equal. cbn. lia.
  - cbn [app restoreUsers]. rewrite IH. f_equal. cbn [List.length]. lia.
Qed.

Lemma keys_nil {V} (m : JsMap.t V) : JsMap.keys m = [] → m = [].
Proof. destruct m; [reflexivity|discriminate]. Qed.

(** The roster a connect leaves, when the roster before it was empty or
    exact. *)
Lemma usersAfterConnect_exact conns c users :
  NoDup conns → c ∉ conns →
  JsMap.keys users = [] ∨ JsMap.keys users = conns →
  JsMap.keys (usersAfterConnect (conns ++ [c]) c users) = conns ++ [c].
Proof.
  intros Hnodup Hfresh Hkeys. unfold usersAfterConnect.
  assert (NoDup (conns ++ [c])) as Hnodup'.
  { apply NoDup_app. split; [exact Hnodup|]. split; [|apply NoDup_singleton].
    intros x Hx Hx'. apply list_elem_of_singleton in Hx'. subst x. contradiction. }
  assert ((JsMap.size users <? Z.of_nat (List.length (conns ++ [c]))) = true) as ->.
  { apply Z.ltb_lt. rewrite size_keys, length_app. cbn [List.length].
    destruct Hkeys as [->| ->]; cbn [List.length]; lia. }
  assert (JsMap.keys (restoreUsers (conns ++ [c]) 0 users) = conns ++ [c]) as Hrestored.
  { destruct Hkeys as [Hnil|Hexact].
    - apply keys_nil in Hnil. subst users.
      rewrite restoreUsers_keys_fresh; [reflexivity|exact Hnodup'|reflexivity]. 
    - rewrite restoreUsers_app.
      rewrite (restoreUsers_present conns 0 users)
        by (intros x Hx; apply (proj2 (has_true_iff x users)); rewrite Hexact; exact Hx).
      cbn [restoreUsers].
      assert (JsMap.has c users = false) as ->.
      { destruct (JsMap.has c users) eqn:Hhas; [|reflexivity].
        apply has_true_iff in Hhas. rewrite Hexact in Hhas. contradiction. }
      rewrite keys_set.
      assert (JsMap.has c users = false) as ->.
      { destruct (JsMap.has c users) eqn:Hhas; [|reflexivity].
        apply has_true_iff in Hhas. rewrite Hexact in Hhas. contradiction. }
      rewrite Hexact. reflexivity. }
  rewrite keys_set.
  assert (JsMap.has c (restoreUsers (conns ++ [c]) 0 users) = true) as ->.
  { apply has_true_iff. rewrite Hrestored. apply elem_of_app. right. apply list_elem_of_singleton.
    reflexivity. }
  exact Hrestored.
Qed.

Lemma onStart_frame w :
  is_Some (doc (self (onStart w).2)) ∧ host (onStart w).2 = host w
  ∧ connectedUsers (self (onStart w).2) = connectedUsers (self w)
  ∧ customAwareness (self (onStart w).2) = customAwareness (self w).
Proof.
  rewrite onStart_run. cbv zeta.
  destruct (storageAvailable (host w)); [|repeat split; eexists; reflexivity].
  destruct (storage (host w) !! persistenceKey) as [state|]; [|repeat split; eexists; reflexivity].
  destruct (Y_applyUpdate Y_Doc_new state); repeat split; eexists; reflexivity.
Qed.

Lemma Reachable_Accurate w : Reachable w → Accurate w.
Proof.
  induction 1 as [now|w c now _ IH Hfresh|w c raw now _ IH Hlive|w c now _ IH
                 |w task now _ IH|w available _ IH|w now _ IH];
    cbn [steps fold_left step dispatch]; unfold Accurate in *.
  - destruct (onStart_frame emptyRoom) as (Hdoc & -> & -> & ->).
    split; [exact Hdoc|]. split; [constructor|]. split; [left; reflexivity|]. intros c H. discriminate.
  - destruct IH as ([d Hdoc] & Hnodup & Hkeys & Hpresence).
    match goal with
    | |- context [onConnect c now ?w0] => rewrite (onConnect_run c now w0 d Hdoc)
    end. unfold with_host.
    cbn [snd self host trace connections doc connectedUsers customAwareness
         with_connectedUsers with_lastActivityAt].
    split; [rewrite Hdoc; eexists; reflexivity|].
    split.
    { apply NoDup_app. split; [exact Hnodup|]. split; [|apply NoDup_singleton].
      intros x Hx Hx'. apply list_elem_of_singleton in Hx'. subst x. contradiction. }
    split; [right; apply usersAfterConnect_exact; assumption|].
    intros c' Hc'. apply elem_of_app. left. apply Hpresence. exact Hc'.
  - destruct IH as (Hdoc & Hnodup & Hkeys & Hpresence).
    split; [apply onMessage_keeps_replica; exact Hdoc|].
    rewrite onMessage_keeps_connections, onMessage_keeps_roster.
    split; [exact Hnodup|]. split; [exact Hkeys|].
    intros c'. destruct (onMessage_presence c raw now w) as [->|[state ->]]; [apply Hpresence|].
    rewrite has_set. destruct (String.eqb_spec c c') as [<-|_]; [intros _; exact Hlive|apply Hpresence].
  - destruct IH as (Hdoc & Hnodup & Hkeys & Hpresence).
    rewrite onClose_run. unfold with_host.
    cbn [snd self host trace connections doc connectedUsers customAwareness
         with_connectedUsers with_customAwareness].
    split; [exact Hdoc|]. split; [apply NoDup_ListNoDup, List.NoDup_filter, NoDup_ListNoDup; exact Hnodup|].
    split.
    { rewrite keys_delete. destruct Hkeys as [->| ->]; [left|right]; reflexivity. }
    intros c' Hc'. apply has_delete in Hc' as [Hne Hc'].
    apply list_elem_of_In, filter_In. split; [apply list_elem_of_In, Hpresence, Hc'|].
    apply negb_true_iff, String.eqb_neq. exact Hne.
  - destruct task. cbn [runTask]. rewrite broadcastConnectionCount_run. exact IH.
  - exact IH.
  - destruct IH as (Hdoc & Hnodup & Hkeys & Hpresence).
    match goal with |- context [onStart ?w0] => destruct (onStart_frame w0) as (Hdoc' & -> & -> & ->) end.
    split; [exact Hdoc'|]. split; [exact Hnodup|]. split; [left; reflexivity|].
    intros c H. discriminate.
Qed.

(** X8. The roster never outlives the connections.  In every world the
    host can bring about, the replica is in place, and the roster is either
    empty (from a wake-up until the next connect) or lists exactly the live
    connections, each once and in the order the host enumerates them; a
    stored presence belongs to a live connection. *)
Theorem roster_lists_the_live_connections_or_nothing (w : World) :
  Reachable w →
  is_Some (doc (self w))
  ∧ NoDup (JsMap.keys (connectedUsers (self w)))
  ∧ (JsMap.keys (connectedUsers (self w)) = []
     ∨ JsMap.keys (connectedUsers (self w)) = connections (host w))
  ∧ ∀ c, JsMap.has c (customAwareness (self w)) = true → c ∈ connections (host w).
Proof.
  intros Hreach. destruct (Reachable_Accurate w Hreach) as (Hdoc & Hnodup & Hkeys & Hpresence).
  split; [exact Hdoc|]. split; [|split; assumption].
  destruct Hkeys as [->| ->]; [constructor|exact Hnodup].
Qed.

(** X9. Every connect makes the roster exact, also the first one after a
    wake-up: once the host has accepted [c] and the actor has run
    [onConnect], the roster lists exactly the live connections, the
    newcomer last, and the one roster broadcast of the connect carries that
    roster to everybody. *)
Theorem connect_makes_the_roster_exact (w : World) (c : ConnectionId) (now : Z) :
  Reachable w → c ∉ connections (host w) →
  let w' := steps w [Accept c; Deliver (Connect c) now] in
  connections (host w') = connections (host w) ++ [c]
  ∧ JsMap.keys (connectedUsers (self w')) = connections (host w')
  ∧ broadcasts (since w w') = [(customFrame (connectionCountMessage
                                   (connections (host w')) (self w') "connect" now), [])].
Proof.
  intros Hreach Hfresh w'. subst w'.
  destruct (Reachable_Accurate w Hreach) as ([d Hdoc] & Hnodup & Hkeys & _).
  cbn [steps fold_left step dispatch].
  match goal with
    | |- context [onConnect c now ?w0] => rewrite (onConnect_run c now w0 d Hdoc)
    end. unfold with_host, since.
  cbn [snd self host trace connections doc connectedUsers customAwareness
       with_connectedUsers with_lastActivityAt].
  split; [reflexivity|]. split; [apply usersAfterConnect_exact; assumption|].
  rewrite drop_app_length. unfold broadcasts, presenceReplay.
  rewrite !omap_app. cbn [omap].
  match goal with |- context [omap ?f (?g <$> ?l)] =>
    assert (omap f (g <$> l) = []) as -> by (induction l as [|? ? IHl]; [reflexivity|exact IHl])
  end.
  reflexivity.
Qed.
End RosterAccuracy.

Section Identities.
Context {yjs : YjsLibrary} {js : JsRuntime}.

Lemma join_identity w c now :
  is_Some (doc (self w)) →
  let w' := steps w [Accept c; Deliver (Connect c) now] in
  identityOf c w' = Some (userDataAt (Z.of_nat (List.length (connections (host w)))) c)
  ∧ ∀ c0 u, c0 ≠ c → identityOf c0 w = Some u → identityOf c0 w' = Some u.
Proof.
  intros [d Hdoc] w'. subst w'. cbn [steps fold_left step dispatch].
  match goal with
  | |- context [onConnect c now ?w0] => rewrite (onConnect_run c now w0 d Hdoc)
  end.
  unfold with_host, identityOf.
  cbn [snd self host trace connections doc connectedUsers with_connectedUsers with_lastActivityAt].
  split.
  - unfold usersAfterConnect. rewrite get_set_eq, length_app. cbn [List.length].
    do 2 f_equal. lia.
  - intros c0 u Hne Hid. apply usersAfterConnect_keeps; assumption.
Qed.

Lemma leave_identity w c x now u :
  x ≠ c → identityOf c w = Some u →
  identityOf c (steps w [Deliver (Close x) now; Drop x]) = Some u.
Proof.
  intros Hne Hid. cbn [steps fold_left step dispatch]. rewrite onClose_run.
  unfold with_host, identityOf in *.
  cbn [snd self host trace connectedUsers with_connectedUsers with_customAwareness].
  rewrite get_delete_ne by exact Hne. exact Hid.
Qed.

Lemma leave_connections w x now :
  connections (host (steps w [Deliver (Close x) now; Drop x]))
  = List.filter (fun c' => negb (String.eqb c' x)) (connections (host w)).
Proof. cbn [steps fold_left step dispatch]. rewrite onClose_run. reflexivity. Qed.

Lemma length_filter_out (x : string) (l : list string) :
  NoDup l → x ∈ l →
  S (List.length (List.filter (fun c' => negb (String.eqb c' x)) l)) = List.length l.
Proof.
  induction 1 as [|y l Hy Hnodup IH]; intros Hx; [inversion Hx|].
  cbn [List.filter List.length].
  destruct (String.eqb_spec y x) as [->|Hne]; cbn [negb List.length].
  - f_equal. clear IH Hx Hnodup. induction l as [|z l IH]; [reflexivity|].
    cbn [List.filter List.length]. apply not_elem_of_cons in Hy as [Hz Hy].
    destruct (String.eqb_spec z x) as [->|_]; [congruence|].
    cbn [negb List.length]. f_equal. apply IH. exact Hy.
  - f_equal. apply IH. apply elem_of_cons in Hx as [->|Hx]; [congruence|exact Hx].
Qed.

Lemma palette_defined index c :
  0 <= index → is_Some (name (userDataAt index c)) ∧ is_Some (color (userDataAt index c)).
Proof.
  intros Hindex. unfold userDataAt. cbn [name color].
  change (Z.of_nat (List.length names)) with 8. change (Z.of_nat (List.length colors)) with 8.
  pose proof (Z.rem_bound_pos index 8 Hindex ltac:(lia)) as Hrem.
  unfold array_get. destruct (Z.ltb_spec (Z.rem index 8) 0); [lia|].
  split; apply lookup_lt_is_Some; cbn [List.length names colors]; lia.
Qed.

(** X10. Names and colours are given by head count, so they repeat.  When
    [c] has joined, somebody who was there before [c] leaves, and [c'] joins,
    then [c'] gets the name and the colour [c] has and keeps: both are taken
    from the palette at the number of connections that were live before
    the connect, and that number is the same twice. *)
Theorem newcomer_repeats_the_name_of_the_newest
    (w : World) (c x c' : ConnectionId) (t1 t2 t3 : Z) :
  Reachable w →
  c ∉ connections (host w) → x ∈ connections (host w) →
  c' ∉ connections (host w) → c' ≠ c →
  let w' := steps (steps (steps w [Accept c; Deliver (Connect c) t1])
                     [Deliver (Close x) t2; Drop x])
              [Accept c'; Deliver (Connect c') t3] in
  ∃ u u', identityOf c w' = Some u ∧ identityOf c' w' = Some u'
          ∧ name u' = name u ∧ color u' = color u
          ∧ is_Some (name u) ∧ is_Some (color u).
Proof.
  intros Hreach Hc Hx Hc' Hne w'. subst w'.
  set (w1 := steps w [Accept c; Deliver (Connect c) t1]).
  set (w2 := steps w1 [Deliver (Close x) t2; Drop x]).
  assert (x ≠ c) as Hxc by (intros ->; contradiction).
  pose proof (reach_join w c t1 Hreach Hc) as Hreach1. fold w1 in Hreach1.
  pose proof (reach_leave w1 x t2 Hreach1) as Hreach2. fold w2 in Hreach2.
  destruct (Reachable_Accurate w Hreach) as (Hdoc & Hnodup & _).
  destruct (Reachable_Accurate w1 Hreach1) as (_ & Hnodup1 & _).
  destruct (Reachable_Accurate w2 Hreach2) as (Hdoc2 & _).
  destruct (join_identity w c t1 Hdoc) as [Hid1 _]. fold w1 in Hid1.
  pose proof (leave_identity w1 c x t2 _ Hxc Hid1) as Hid2. fold w2 in Hid2.
  destruct (join_identity w2 c' t3 Hdoc2) as [Hid3' Hkeep].
  pose proof (Hkeep c _ (not_eq_sym Hne) Hid2) as Hid3.
  assert (connections (host w1) = connections (host w) ++ [c]) as Hconns1.
  { subst w1. cbn [steps fold_left step dispatch]. destruct Hdoc as [d Hdoc].
    match goal with
    | |- context [onConnect c t1 ?w0] => rewrite (onConnect_run c t1 w0 d Hdoc)
    end. reflexivity. }
  assert (List.length (connections (host w2)) = List.length (connections (host w))) as Hcount.
  { subst w2. rewrite leave_connections.
    assert (x ∈ connections (host w1)) as Hx1 by (rewrite Hconns1; apply elem_of_app; now left).
    pose proof (length_filter_out x _ Hnodup1 Hx1) as Hlen.
    pose proof (f_equal (@List.length _) Hconns1) as Hlen1.
    rewrite length_app in Hlen1. cbn [List.length] in Hlen1. lia. }
  rewrite Hcount in Hid3'.
  eexists _, _. split; [exact Hid3|]. split; [exact Hid3'|].
  split; [reflexivity|]. split; [reflexivity|].
  apply palette_defined. lia.
Qed.
End Identities.

(** * The HTTP side *)

Section Requests.
Context {yjs : YjsLibrary} {js : JsRuntime} {aw : AwarenessLibrary}.

Lemma delivers_keeps_awareness script : ∀ i,
  awareness i = None → awareness (delivers i script) = None.
Proof.
  induction script as [|[ev now] script IH]; intros i Hi; [exact Hi|].
  apply IH. cbn [deliver awareness fst snd]. destruct ev; first [reflexivity | exact Hi].
Qed.

(** X11. The status endpoint never reports the presence store.  From
    [onStart] on, whatever socket events the instance handles, a request
    whose path contains [/status] answers with the number of connections
    the host enumerates and with zero awareness states, however many
    presence states are stored; the request changes nothing. *)
Theorem status_never_reports_the_presence_store
    (i : Instance) (start now : Z) (script : list (Event * Z)) (pathname : string) :
  includes pathname "/status" = true →
  let served := delivers (deliver Start start i) script in
  let result := onRequest pathname now served in
  result.2 = served
  ∧ ∃ body, result.1 = Normal (JsonResponse body)
            ∧ path body ["awarenessStates"] = Some (JNum 0)
            ∧ path body ["connections"]
              = Some (JNum (Z.of_nat (List.length (connections (host (actor served))))))
            ∧ path body ["docSize"] = Some (JNum (docSize (self (actor served)))).
Proof.
  intros Hstatus served result. subst result. unfold onRequest. rewrite Hstatus.
  split; [reflexivity|]. eexists. split; [reflexivity|].
  unfold statusBody. subst served.
  rewrite (delivers_keeps_awareness script (deliver Start start i) eq_refl).
  repeat split.
Qed.

Lemma clear_run pathname now i d :
  includes pathname "/status" = false → includes pathname "/clear" = true →
  doc (self (actor i)) = Some d →
  onRequest pathname now i
  = let cleared := with_doc (Some Y_Doc_new) (self (actor i)) in
    if storageAvailable (host (actor i)) then
      (Normal (JsonResponse (JObj [("cleared", JBool true)])),
       {| actor := {| self := cleared;
                      host := {| connections := connections (host (actor i));
                                 storage := delete persistenceKey (storage (host (actor i)));
                                 storageAvailable := true |};
                      trace := trace (actor i) |};
          awareness := Some (Awareness_new Y_Doc_new) |})
    else
      (Abrupt StorageError,
       {| actor := {| self := cleared; host := host (actor i); trace := trace (actor i) |};
          awareness := Some (Awareness_new Y_Doc_new) |}).
Proof.
  intros Hstatus Hclear Hdoc. unfold onRequest. rewrite Hstatus, Hclear, Hdoc.
  unfold storage_delete, update. cbn [fst snd self host trace].
  destruct (storageAvailable (host (actor i))); reflexivity.
Qed.

(** X12. Clearing resets the document and its snapshot, and tells nobody.
    With the storage available, a request for [/clear] replaces the replica
    by an empty one and deletes the snapshot, so that the next wake-up
    starts from an empty document as well; the roster, the presence store
    and the connections stay, and no frame goes to any client. *)
Theorem clear_resets_document_and_snapshot
    (i : Instance) (pathname : string) (now wake : Z) (d : Doc) :
  includes pathname "/status" = false → includes pathname "/clear" = true →
  doc (self (actor i)) = Some d →
  storageAvailable (host (actor i)) = true →
  let result := onRequest pathname now i in
  let woken := deliver Start wake (reinstantiate wake result.2) in
  result.1 = Normal (JsonResponse (JObj [("cleared", JBool true)]))
  ∧ doc (self (actor result.2)) = Some Y_Doc_new
  ∧ storage (host (actor result.2)) !! persistenceKey = None
  ∧ trace (actor result.2) = trace (actor i)
  ∧ connectedUsers (self (actor result.2)) = connectedUsers (self (actor i))
  ∧ customAwareness (self (actor result.2)) = customAwareness (self (actor i))
  ∧ connections (host (actor result.2)) = connections (host (actor i))
  ∧ doc (self (actor woken)) = Some Y_Doc_new.
Proof.
  intros Hstatus Hclear Hdoc Hup result woken. subst woken result.
  rewrite (clear_run pathname now i d Hstatus Hclear Hdoc). cbv zeta. rewrite Hup.
  cbn [fst snd actor self host trace doc with_doc connectedUsers customAwareness
       connections storage].
  split; [reflexivity|]. split; [reflexivity|]. split; [apply lookup_delete_eq|].
  do 4 (split; [reflexivity|]).
  unfold deliver, reinstantiate. cbn [actor step dispatch]. rewrite onStart_run.
  cbn [host storageAvailable storage self]. rewrite lookup_delete_eq. reflexivity.
Qed.

(** X13. A clear that cannot reach the storage is undone by the next
    wake-up.  With the storage down, the request fails with the error of
    the storage after the replica has been replaced by an empty one; the
    snapshot stays, and the instance built after the next hibernation, with
    the storage back, has the old document again. *)
Theorem failed_clear_is_undone_by_the_wake_up
    (i : Instance) (pathname : string) (now wake : Z) (d d0 : Doc) (snapshot : bytes) :
  includes pathname "/status" = false → includes pathname "/clear" = true →
  doc (self (actor i)) = Some d →
  storageAvailable (host (actor i)) = false →
  storage (host (actor i)) !! persistenceKey = Some snapshot →
  Y_applyUpdate Y_Doc_new snapshot = Some d0 →
  let result := onRequest pathname now i in
  let woken := deliver Start wake (reinstantiate wake (withStorage true result.2)) in
  result.1 = Abrupt StorageError
  ∧ doc (self (actor result.2)) = Some Y_Doc_new
  ∧ storage (host (actor result.2)) = storage (host (actor i))
  ∧ trace (actor result.2) = trace (actor i)
  ∧ doc (self (actor woken)) = Some d0.
Proof.
  intros Hstatus Hclear Hdoc Hdown Hsnapshot Hread result woken. subst woken result.
  rewrite (clear_run pathname now i d Hstatus Hclear Hdoc). cbv zeta. rewrite Hdown.
  cbn [fst snd actor self host trace doc with_doc storage].
  do 4 (split; [reflexivity|]).
  unfold deliver, reinstantiate, withStorage, with_host.
  cbn [actor step dispatch self host trace connections storage storageAvailable].
  rewrite onStart_run. cbn [host storageAvailable storage self].
  unfold with_host. cbn [host storageAvailable storage self]. rewrite Hsnapshot, Hread. reflexivity.
Qed.
End Requests.

(** * The provider in the page *)

Section ProviderFacts.
Context {yjs : YjsLibrary} {js : JsRuntime}.
Import encoding decoding syncProtocol.

Lemma fold_say data callbacks : ∀ w : Client.World,
  fold_left (fun w' cb => Client.say (Client.Call cb data) w') callbacks w
  = {| Client.self := Client.self w; Client.timers := Client.timers w;
       Client.trace := Client.trace w ++ ((fun cb => Client.Call cb data) <$> callbacks) |}.
Proof.
  induction callbacks as [|cb callbacks IH]; intros w; cbn [fold_left fmap list_fmap].
  - destruct w. cbn [Client.self Client.timers Client.trace]. rewrite app_nil_r. reflexivity.
  - rewrite IH. unfold Client.say. cbn [Client.self Client.timers Client.trace].
    rewrite <- app_assoc. reflexivity.
Qed.

Lemma emit_run event data (w : Client.World) :
  Client.emit event data w
  = {| Client.self := Client.self w; Client.timers := Client.timers w;
       Client.trace := Client.trace w
                       ++ ((fun cb => Client.Call cb data)
                             <$> default [] (JsMap.get event (Client.listeners (Client.self w)))) |}.
Proof.
  unfold Client.emit.
  destruct (JsMap.get event (Client.listeners (Client.self w))) as [callbacks|]; cbn [default].
  - apply fold_say.
  - destruct w. cbn [fmap list_fmap Client.self Client.timers Client.trace].
    rewrite app_nil_r. reflexivity.
Qed.

Lemma Undisturbed_refl w : Undisturbed w w.
Proof.
  repeat split. exists []. split; [symmetry; apply app_nil_r|constructor].
Qed.

Lemma Undisturbed_trans w1 w2 w3 : Undisturbed w1 w2 → Undisturbed w2 w3 → Undisturbed w1 w3.
Proof.
  intros (Hws & Hurl & Hl & Hd & Ht & new & Htr & Hq) (Hws' & Hurl' & Hl' & Hd' & Ht' & new' & Htr' & Hq').
  unfold Undisturbed. rewrite Hws', Hurl', Hl', Hd', Ht', Htr', Htr.
  repeat split; try assumption. exists (new ++ new'). split; [symmetry; apply app_assoc|].
  apply Forall_app. split; assumption.
Qed.

Lemma Undisturbed_say e w : quietEffect e = true → Undisturbed w (Client.say e w).
Proof.
  intros He. repeat split. exists [e]. split; [reflexivity|]. constructor; [exact He|constructor].
Qed.

Lemma Undisturbed_emit event data w : Undisturbed w (Client.emit event data w).
Proof.
  rewrite emit_run. repeat split. eexists. split; [reflexivity|].
  apply Forall_fmap, Forall_true. intros cb. reflexivity.
Qed.

Lemma Undisturbed_with_doc d w :
  Undisturbed w (Client.with_self (Client.with_doc d (Client.self w)) w).
Proof. repeat split. exists []. split; [symmetry; apply app_nil_r|constructor]. Qed.

Lemma Undisturbed_with_synced b w :
  Undisturbed w (Client.with_self (Client.with_synced b (Client.self w)) w).
Proof. repeat split. exists []. split; [symmetry; apply app_nil_r|constructor]. Qed.

Lemma Undisturbed_onDocUpdate update w :
  Undisturbed w (Client.onDocUpdate update Client.ThisProvider w).
Proof. apply Undisturbed_refl. Qed.

Lemma onmessage_Undisturbed data w : Undisturbed w (Client.onmessage data w).2.
Proof.
  unfold Client.onmessage.
  destruct (readVarUint (createDecoder data)) as [[messageType decoder]|e];
    [|apply Undisturbed_refl].
  destruct (messageType =? MESSAGE_SYNC).
  { destruct (readSyncMessage decoder _ _) as [r|e]; [|apply Undisturbed_refl].
    cbv zeta. cbn [snd].
    set (applied := Client.with_self (Client.with_doc (doc' r) (Client.self w)) w).
    assert (Undisturbed w applied) as H1 by apply Undisturbed_with_doc.
    set (logged := match caught r with Some _ => _ | None => applied end).
    assert (Undisturbed w logged) as H2.
    { subst logged. destruct (caught r); [|exact H1].
      eapply Undisturbed_trans; [exact H1|apply Undisturbed_say; reflexivity]. }
    set (heard := if _ || _ then logged else _).
    assert (Undisturbed w heard) as H3 by (subst heard; destruct (_ || _); exact H2).
    set (marked := if _ && _ then _ else heard).
    assert (Undisturbed w marked) as H4.
    { subst marked. destruct (_ && _); [|exact H3].
      eapply Undisturbed_trans; [exact H3|].
      eapply Undisturbed_trans; [apply Undisturbed_with_synced|apply Undisturbed_emit]. }
    destruct (1 <? _); [|exact H4].
    eapply Undisturbed_trans; [exact H4|apply Undisturbed_say; reflexivity]. }
  destruct (messageType =? MESSAGE_AWARENESS).
  { destruct (readVarString decoder) as [[awarenessData rest]|e]; [|apply Undisturbed_refl].
    destruct (JSON_parse awarenessData) as [v|]; [|apply Undisturbed_say; reflexivity].
    destruct (Client.awarenessEvent v); [apply Undisturbed_emit|apply Undisturbed_say; reflexivity]. }
  destruct (messageType =? MESSAGE_CUSTOM); [|apply Undisturbed_refl].
  destruct (readVarString decoder) as [[customData rest]|e]; [|apply Undisturbed_refl].
  destruct (JSON_parse customData) as [msg|]; [apply Undisturbed_emit|apply Undisturbed_say; reflexivity].
Qed.

Lemma Sends_refl w : Sends w w [].
Proof. exists []. split; [symmetry; apply app_nil_r|reflexivity]. Qed.

Lemma Sends_trans w1 w2 w3 l1 l2 : Sends w1 w2 l1 → Sends w2 w3 l2 → Sends w1 w3 (l1 ++ l2).
Proof.
  intros (new & Htr & Hs) (new' & Htr' & Hs'). exists (new ++ new').
  rewrite Htr', Htr, <- app_assoc. split; [reflexivity|].
  unfold Client.sent in *. rewrite omap_app, Hs, Hs'. reflexivity.
Qed.

Lemma Sends_silent w1 w2 w3 l : Sends w1 w2 [] → Sends w2 w3 l → Sends w1 w3 l.
Proof. intros H1 H2. exact (Sends_trans w1 w2 w3 [] l H1 H2). Qed.

Lemma Sends_say e w :
  Sends w (Client.say e w) (match e with Client.SocketSend msg => [msg] | _ => [] end).
Proof. exists [e]. split; [reflexivity|]. destruct e; reflexivity. Qed.

Lemma Sends_emit event data w : Sends w (Client.emit event data w) [].
Proof.
  rewrite emit_run. eexists. split; [reflexivity|].
  induction (default [] _) as [|cb l IH]; [reflexivity|exact IH].
Qed.

Lemma Sends_since w w' l : Sends w w' l → Client.sent (Client.since w w') = l.
Proof.
  intros (new & Htr & Hs). unfold Client.since. rewrite Htr, drop_app_length. exact Hs.
Qed.

Lemma onmessage_Sends data w :
  Sends w (Client.onmessage data w).2 (answerTo data (Client.doc (Client.self w))).
Proof.
  unfold Client.onmessage, answerTo, createDecoder.
  destruct (readVarUint data) as [[messageType decoder]|e]; [|apply Sends_refl].
  destruct (messageType =? MESSAGE_SYNC).
  { unfold readSyncMessage.
    destruct (readVarUint decoder) as [[syncType r2]|e]; [|apply Sends_refl].
    destruct (syncType =? messageYjsSyncStep1) eqn:Hstep1.
    { unfold readSyncStep1, writeSyncStep2, Y.encodeStateAsUpdate.
      destruct (readVarUint8Array r2) as [[stateVector rest]|e]; [|apply Sends_refl].
      destruct (Y_isStateVector stateVector); [|apply Sends_refl].
      cbv zeta. cbn [snd caught syncProtocol.messageType encoder' doc']. rewrite Hstep1.
      pose proof (diff_reply_length (Client.doc (Client.self w)) stateVector) as Hlong.
      unfold diffFrame, toUint8Array in Hlong. rewrite Hlong.
      cbn [orb]. eapply Sends_silent; [|apply (Sends_say (Client.SocketSend _))].
      destruct (_ && _); [|exists []; split; [symmetry; apply app_nil_r|reflexivity]].
      eapply Sends_silent; [|apply Sends_emit].
      exists []. split; [symmetry; apply app_nil_r|reflexivity]. }
    assert (∀ (r : SyncResult),
              syncProtocol.messageType r = syncType →
              encoder' r = writeVarUint createEncoder MESSAGE_SYNC →
              Sends w
                (let applied := Client.with_self (Client.with_doc (doc' r) (Client.self w)) w in
                 let logged :=
                   match caught r with
                   | Some _ => Client.say (Client.ConsoleError
                                             "Caught error while handling a Yjs update") applied
                   | None => applied
                   end in
                 let heard :=
                   if (syncProtocol.messageType r =? messageYjsSyncStep1)
                      || bool_decide (is_Some (caught r))
                   then logged
                   else Client.onDocUpdate
                          (Y_encodeStateAsUpdate (doc' r)
                             (Y_encodeStateVector (Client.doc (Client.self w))))
                          Client.ThisProvider logged in
                 let marked :=
                   if negb (Client.synced (Client.self heard))
                      && (syncProtocol.messageType r =? messageYjsSyncStep2)
                   then Client.emit "sync" (JBool true)
                          (Client.with_self (Client.with_synced true (Client.self heard)) heard)
                   else heard in
                 if 1 <? encoding.length (encoder' r)
                 then Client.say (Client.SocketSend (toUint8Array (encoder' r))) marked
                 else marked) []) as Hquiet.
    { intros r Htype Henc. cbv zeta. rewrite Henc, Htype, Hstep1. cbn [orb].
      change (1 <? encoding.length (writeVarUint createEncoder MESSAGE_SYNC)) with false.
      cbv iota.
      assert (Sends w (match caught r with
                       | Some _ => Client.say (Client.ConsoleError
                                                 "Caught error while handling a Yjs update")
                                     (Client.with_self (Client.with_doc (doc' r) (Client.self w)) w)
                       | None => Client.with_self (Client.with_doc (doc' r) (Client.self w)) w
                       end) []) as Hlogged.
      { destruct (caught r).
        - eapply Sends_silent; [|apply (Sends_say (Client.ConsoleError _))].
          exists []. split; [symmetry; apply app_nil_r|reflexivity].
        - exists []. split; [symmetry; apply app_nil_r|reflexivity]. }
      cbn [Client.onDocUpdate].
      destruct (bool_decide (is_Some (caught r))); cbv iota.
      all: destruct (_ && _); [|exact Hlogged].
      all: eapply Sends_silent; [|apply Sends_emit].
      all: eapply Sends_silent; [exact Hlogged|].
      all: exists []; split; [symmetry; apply app_nil_r|reflexivity]. }
    destruct (syncType =? messageYjsSyncStep2).
    { destruct (readSyncStep2 r2 _) as [doc1 c]. apply Hquiet; reflexivity. }
    destruct (syncType =? messageYjsUpdate); [|apply Sends_refl].
    destruct (readUpdate r2 _) as [doc1 c]. apply Hquiet; reflexivity. }
  destruct (messageType =? MESSAGE_AWARENESS).
  { destruct (readVarString decoder) as [[awarenessData rest]|e]; [|apply Sends_refl].
    destruct (JSON_parse awarenessData) as [v|]; [|apply (Sends_say (Client.ConsoleError _))].
    destruct (Client.awarenessEvent v);
      [apply Sends_emit|apply (Sends_say (Client.ConsoleError _))]. }
  destruct (messageType =? MESSAGE_CUSTOM); [|apply Sends_refl].
  destruct (readVarString decoder) as [[customData rest]|e]; [|apply Sends_refl].
  destruct (JSON_parse customData) as [msg|];
    [apply Sends_emit|apply (Sends_say (Client.ConsoleError _))].
Qed.

(** X14. A message event leaves the connection alone, and is answered
    only when it asks.  Whatever arrives, [onmessage] opens and closes no
    socket, arms no timer and changes neither the listeners nor the
    [destroyed] flag; what it sends is the diff of the replica against the
    requested state vector when the frame is a sync step 1, and nothing in
    every other case: an update or a sync step 2 that was applied is not
    sent back. *)
Theorem message_event_is_answered_only_when_it_asks (data : bytes) (w : Client.World) :
  let w' := (Client.onmessage data w).2 in
  Undisturbed w w'
  ∧ Client.sent (Client.since w w') = answerTo data (Client.doc (Client.self w)).
Proof.
  intros w'. subst w'. split; [apply onmessage_Undisturbed|].
  apply Sends_since, onmessage_Sends.
Qed.
End ProviderFacts.

Section ProviderLifecycle.
Context {yjs : YjsLibrary} {js : JsRuntime}.
Import Client.

Lemma reconnects_app (t t' : list Effect) :
  reconnects (t ++ t') = (reconnects t + reconnects t')%nat.
Proof. unfold reconnects. rewrite List.filter_app, length_app. reflexivity. Qed.

Lemma reconnects_quiet (new : list Effect) :
  Forall (fun e => quietEffect e = true) new → reconnects new = 0%nat.
Proof.
  induction 1 as [|e new He _ IH]; [reflexivity|].
  change (e :: new) with ([e] ++ new). rewrite reconnects_app, IH.
  destruct e; try discriminate; reflexivity.
Qed.

Lemma Undisturbed_reconnects w w' :
  Undisturbed w w' → reconnects (trace w') = reconnects (trace w).
Proof.
  intros (_ & _ & _ & _ & _ & new & -> & Hquiet).
  rewrite reconnects_app, (reconnects_quiet new Hquiet). lia.
Qed.

Lemma reconnects_say e w :
  reconnects (trace (say e w))
  = (reconnects (trace w) + match e with NewWebSocket _ => 1 | _ => 0 end)%nat.
Proof. unfold say. cbn [trace]. rewrite reconnects_app. destruct e; reflexivity. Qed.

Lemma reconnects_emit event data w :
  reconnects (trace (emit event data w)) = reconnects (trace w).
Proof. apply Undisturbed_reconnects, Undisturbed_emit. Qed.

Ltac settle :=
  cbn [say self timers trace destroyed with_self with_ws with_doc with_synced with_destroyed];
  repeat split; first [assumption | unfold reconnects in *; lia].

Lemma destroy_facts w :
  destroyed (self (destroy w)) = true ∧ timers (destroy w) = timers w
  ∧ reconnects (trace (destroy w)) = reconnects (trace w).
Proof.
  unfold destroy, closeSocket. cbn [with_self with_destroyed self ws timers trace].
  destruct (ws (self w)); rewrite !reconnects_say;
    cbn [say self timers trace destroyed with_self with_ws with_destroyed];
    repeat split; lia.
Qed.

(** A destroyed provider without a pending timer stays so, and opens no
    socket, whatever happens to it. *)
Lemma destroyed_step w st :
  destroyed (self w) = true → timers w = [] →
  destroyed (self (step w st)) = true ∧ timers (step w st) = []
  ∧ reconnects (trace (step w st)) = reconnects (trace w).
Proof.
  intros Hd Ht. destruct st; cbn [step].
  - destruct (destroy_facts w) as (Hd' & Ht' & Hr'). rewrite Hd', Ht', Hr'. repeat split; exact Ht.
  - unfold on. repeat split; assumption.
  - unfold off. destruct (JsMap.get event _); repeat split; assumption.
  - unfold sendCustomMessage. destruct (isOpen w); [|repeat split; assumption].
    rewrite reconnects_say. settle.
  - unfold sendAwarenessUpdate. destruct (isOpen _); rewrite !reconnects_say; settle.
  - unfold clearAwareness. destruct (isOpen _); rewrite !reconnects_say; settle.
  - destruct (Y_applyUpdate _ _); [|repeat split; assumption].
    unfold onDocUpdate. destruct (isOpen _); [rewrite reconnects_say|]; settle.
  - unfold onopen. rewrite reconnects_say, reconnects_emit, emit_run. settle.
  - destruct (onmessage_Undisturbed data w) as (Hws & Hurl & Hl & Hd' & Ht' & Hnew).
    rewrite Hd', Ht'. split; [exact Hd|]. split; [exact Ht|].
    apply Undisturbed_reconnects. repeat split; assumption.
  - unfold onerror. rewrite reconnects_say. settle.
  - unfold onclose. cbv zeta. rewrite emit_run.
    cbn [with_self with_synced with_ws self timers trace destroyed]. rewrite Hd.
    cbn [self timers trace destroyed]. split; [exact Hd|]. split; [exact Ht|].
    unfold with_self. cbn [trace].
    rewrite reconnects_app. rewrite (reconnects_quiet (_ <$> _)); [lia|].
    apply Forall_fmap, Forall_true. intros cb. reflexivity.
  - rewrite Ht. repeat split; assumption.
Qed.

Lemma destroyed_steps script : ∀ w,
  destroyed (self w) = true → timers w = [] →
  destroyed (self (steps w script)) = true ∧ timers (steps w script) = []
  ∧ reconnects (trace (steps w script)) = reconnects (trace w).
Proof.
  induction script as [|st script IH]; intros w Hd Ht; [repeat split; assumption|].
  cbn [steps fold_left]. destruct (destroyed_step w st Hd Ht) as (Hd' & Ht' & Hr').
  destruct (IH (step w st) Hd' Ht') as (Hd'' & Ht'' & Hr''). fold (steps (step w st) script).
  repeat split; [assumption|assumption|congruence].
Qed.

Lemma close_of_a_live_provider w :
  destroyed (self w) = false →
  destroyed (self (step w SocketCloses)) = false
  ∧ timers (step w SocketCloses) = timers w ++ [(Reconnect, 1000)]
  ∧ reconnects (trace (step w SocketCloses)) = reconnects (trace w).
Proof.
  intros Hd. cbn [step]. unfold onclose. cbv zeta. rewrite emit_run. unfold with_self.
  cbn [with_synced with_ws self timers trace destroyed]. rewrite Hd.
  cbn [self timers trace destroyed]. split; [exact Hd|]. split; [reflexivity|].
  rewrite !reconnects_app. rewrite (reconnects_quiet (_ <$> _)).
  - unfold reconnects. cbn [List.filter List.length]. lia.
  - apply Forall_fmap, Forall_true. intros cb. reflexivity.
Qed.

(** X15. A provider that is destroyed while no reconnect is pending never
    opens a socket again: whatever the page, the replica and the browser do
    to it afterwards (also the close event of the socket that [destroy]
    closes), no [new WebSocket] follows and no timer is armed. *)
Theorem destroyed_provider_stays_disconnected (w : World) (script : list Step) :
  timers w = [] →
  let w' := steps (destroy w) script in
  reconnects (trace w') = reconnects (trace w)
  ∧ timers w' = []
  ∧ destroyed (self w') = true.
Proof.
  intros Ht w'. subst w'.
  destruct (destroy_facts w) as (Hd0 & Ht0 & Hr0). rewrite Ht in Ht0.
  destruct (destroyed_steps script (destroy w) Hd0 Ht0) as (Hd' & Ht' & Hr').
  split; [congruence|]. split; assumption.
Qed.

(** X16. [destroy] does not cancel a reconnect that is already armed.  When
    the socket of a live provider closes and the provider is destroyed
    before the second is over, the timer still fires [connect]: one more
    socket is opened, for a provider that is destroyed, and nothing closes
    it. *)
Theorem destroy_does_not_cancel_a_pending_reconnect (w : World) :
  destroyed (self w) = false → timers w = [] →
  let w' := steps w [SocketCloses; CallDestroy; TimerFires] in
  reconnects (trace w') = S (reconnects (trace w))
  ∧ destroyed (self w') = true
  ∧ ws (self w') = Some Provider.CONNECTING
  ∧ timers w' = [].
Proof.
  intros Hd Ht w'. subst w'. cbn [steps fold_left].
  destruct (close_of_a_live_provider w Hd) as (Hd1 & Ht1 & Hr1). rewrite Ht in Ht1.
  set (w1 := step w SocketCloses) in *.
  destruct (destroy_facts w1) as (Hd2 & Ht2 & Hr2). rewrite Ht1 in Ht2.
  change (step w1 CallDestroy) with (destroy w1).
  set (w2 := destroy w1) in *.
  cbn [step]. rewrite Ht2. cbn [app run]. unfold connect.
  rewrite reconnects_say. cbn [say with_self with_ws self timers trace destroyed ws].
  repeat split; [lia|exact Hd2].
Qed.
End ProviderLifecycle.

(** * Page and actor together *)

Section EndToEnd.
Context {yjs : YjsLibrary} {js : JsRuntime}.
Import number encoding decoding syncProtocol.

Lemma diffFrame_is_step2Frame d stateVector :
  diffFrame d stateVector = step2Frame (Y_encodeStateAsUpdate d stateVector).
Proof. reflexivity. Qed.

Lemma stateVectorFrame_is_request d :
  stateVectorFrame d = stateVectorRequest (Y_encodeStateVector d).
Proof. reflexivity. Qed.

(** What the provider does with a frame that carries an update: [subtype]
    is sync step 2 or update. *)
Lemma onmessage_applies frame subtype payload (p : Client.World) d' :
  readVarUint frame
  = Val (MESSAGE_SYNC, writeVarUint [] subtype ++ writeVarUint8Array [] payload ++ []) →
  readVarUint (writeVarUint [] subtype ++ writeVarUint8Array [] payload ++ [])
  = Val (subtype, writeVarUint8Array [] payload ++ []) →
  subtype = messageYjsSyncStep2 ∨ subtype = messageYjsUpdate →
  Z.of_nat (List.length payload) <= MAX_SAFE_INTEGER →
  Y_applyUpdate (Client.doc (Client.self p)) payload = Some d' →
  Client.onmessage frame p
  = (Normal tt,
     let applied := Client.with_self (Client.with_doc d' (Client.self p)) p in
     if negb (Client.synced (Client.self p)) && (subtype =? messageYjsSyncStep2)
     then Client.emit "sync" (JBool true)
            (Client.with_self (Client.with_synced true (Client.self applied)) applied)
     else applied).
Proof.
  intros Htag Hsub Hkind Hlen Happly. unfold Client.onmessage, createDecoder.
  rewrite Htag. change (MESSAGE_SYNC =? MESSAGE_SYNC) with true. cbv iota.
  unfold readSyncMessage. rewrite Hsub.
  assert (readSyncStep2 (writeVarUint8Array [] payload ++ []) (Client.doc (Client.self p))
          = (d', None)) as Hread.
  { change readSyncStep2 with readUpdate. rewrite (readUpdate_payload payload [] _ Hlen), Happly.
    reflexivity. }
  destruct Hkind as [-> | ->].
  - change (messageYjsSyncStep2 =? messageYjsSyncStep1) with false.
    change (messageYjsSyncStep2 =? messageYjsSyncStep2) with true. cbv iota.
    rewrite Hread. cbv zeta. simpl.
    destruct (Client.synced (Client.self p)); reflexivity.
  - change (messageYjsUpdate =? messageYjsSyncStep1) with false.
    change (messageYjsUpdate =? messageYjsSyncStep2) with false.
    change (messageYjsUpdate =? messageYjsUpdate) with true. cbv iota.
    unfold readUpdate. rewrite Hread. cbv zeta. simpl.
    destruct (Client.synced (Client.self p)); reflexivity.
Qed.

Lemma sent_calls data (l : list nat) :
  Client.sent ((fun cb => Client.Call cb data) <$> l) = [].
Proof. induction l as [|cb l IH]; [reflexivity|exact IH]. Qed.

Lemma calls_calls data (l : list nat) :
  Client.calls ((fun cb => Client.Call cb data) <$> l) = (fun cb => (cb, data)) <$> l.
Proof.
  induction l as [|cb l IH]; [reflexivity|].
  change (Client.calls ((fun cb => Client.Call cb data) <$> cb :: l))
    with ((cb, data) :: Client.calls ((fun cb => Client.Call cb data) <$> l)).
  rewrite IH. reflexivity.
Qed.

Lemma frame_alone {A} (f : bytes → A) (frame : bytes) : f frame = f (frame ++ []).
Proof. rewrite app_nil_r. reflexivity. Qed.

(** X17. The handshake brings the document to the page.  When its socket
    opens the provider asks with the state vector of its replica; the actor
    answers that frame, to the asking connection alone, with the diff of its
    replica; the provider applies the diff, marks itself synced, tells the
    listeners of [sync] once, and sends nothing back. *)
Theorem handshake_brings_the_document
    (w : World) (c : ConnectionId) (now : Z) (ds : Doc) (p : Client.World) (dc' : Doc) :
  doc (self w) = Some ds →
  Client.synced (Client.self p) = false →
  let dc := Client.doc (Client.self p) in
  let diff := Y_encodeStateAsUpdate ds (Y_encodeStateVector dc) in
  Z.of_nat (List.length (Y_encodeStateVector dc)) <= MAX_SAFE_INTEGER →
  Z.of_nat (List.length diff) <= MAX_SAFE_INTEGER →
  Y_applyUpdate dc diff = Some dc' →
  let opened := Client.step p Client.SocketOpens in
  let request := stateVectorFrame dc in
  let served := (onMessage c (BinaryFrame request) now w).2 in
  let reply := diffFrame ds (Y_encodeStateVector dc) in
  let synced := Client.step opened (Client.SocketReceives reply) in
  Client.sent (Client.since p opened) = [request]
  ∧ since w served = [Send c reply]
  ∧ doc (self served) = Some ds
  ∧ Client.doc (Client.self synced) = dc'
  ∧ Client.synced (Client.self synced) = true
  ∧ Client.sent (Client.since opened synced) = []
  ∧ Client.calls (Client.since opened synced)
    = (fun cb => (cb, JBool true))
        <$> default [] (JsMap.get "sync" (Client.listeners (Client.self p))).
Proof.
  intros Hdoc Hunsynced dc diff Hsv Hdiff Happly opened request served reply synced.
  assert (Client.sent (Client.since p opened) = [request]) as Hasked.
  { subst opened. cbn [Client.step]. unfold Client.onopen. apply Sends_since.
    eapply Sends_silent; [|apply (Sends_say (Client.SocketSend _))].
    eapply Sends_silent; [|apply Sends_emit].
    exists []. split; [symmetry; apply app_nil_r|reflexivity]. }
  split; [exact Hasked|].
  assert ((onMessage c (BinaryFrame request) now w)
          = (Normal tt,
             {| self := stamped now (self w); host := host w;
                trace := trace w ++ [Send c reply] |})) as Hserved.
  { subst request. rewrite stateVectorFrame_is_request.
    rewrite (frame_alone (fun m => onMessage c (BinaryFrame m) now w)).
    apply (onMessage_step1_run c _ now w ds _ _ (Y_encodeStateVector dc) [] Hdoc
             (stateVectorRequest_tag _ []) (stateVectorRequest_subtag _ [])
             (readVarUint8Array_writeVarUint8Array _ [] Hsv) (Y_isStateVector_encoded dc)). }
  subst served. rewrite Hserved. unfold since. cbn [snd self trace doc stamped
    with_lastActivityAt with_lastMessageAt]. rewrite drop_app_length.
  split; [reflexivity|]. split; [exact Hdoc|].
  assert (Client.doc (Client.self opened) = dc
          ∧ Client.synced (Client.self opened) = false
          ∧ Client.listeners (Client.self opened) = Client.listeners (Client.self p))
    as (Hdc & Hsynced & Hlisteners).
  { subst opened. cbn [Client.step]. unfold Client.onopen, Client.say. rewrite emit_run.
    cbn [Client.self Client.with_self Client.with_ws Client.doc Client.synced Client.listeners].
    repeat split. exact Hunsynced. }
  assert (Client.onmessage reply opened
          = (Normal tt,
             Client.emit "sync" (JBool true)
               (Client.with_self
                  (Client.with_synced true (Client.with_doc dc' (Client.self opened)))
                  opened))) as Hreceived.
  { subst reply. rewrite diffFrame_is_step2Frame.
    rewrite (onmessage_applies _ messageYjsSyncStep2 diff opened dc').
    - rewrite Hsynced. reflexivity.
    - rewrite (frame_alone readVarUint). apply step2Frame_tag.
    - apply step2Frame_subtag.
    - left. reflexivity.
    - exact Hdiff.
    - rewrite Hdc. exact Happly. }
  subst synced. cbn [Client.step]. rewrite Hreceived. cbn [snd]. rewrite emit_run.
  unfold Client.since.
  cbn [Client.self Client.with_self Client.with_synced Client.with_doc Client.doc
       Client.synced Client.trace Client.listeners Client.timers].
  rewrite drop_app_length, Hlisteners.
  split; [reflexivity|]. split; [reflexivity|].
  split; [apply sent_calls|apply calls_calls].
Qed.

Lemma since_unchanged (p : Client.World) : Client.since p p = [].
Proof. unfold Client.since. apply drop_all. Qed.

Lemma since_said (p : Client.World) (new : list Client.Effect) s tm :
  Client.since p {| Client.self := s; Client.timers := tm; Client.trace := Client.trace p ++ new |}
  = new.
Proof. unfold Client.since. cbn [Client.trace]. apply drop_app_length. Qed.

(** X18. An update travels from one page to the others and does not come
    back.  The provider of the page that changed its replica sends the
    update, if its socket is open; the actor applies it and relays the very
    frame to everybody but the sender; a provider that receives the frame
    applies the update and sends nothing, calls no listener and keeps its
    synced flag. *)
Theorem update_travels_without_echo
    (w : World) (a : ConnectionId) (now : Z) (ds ds' : Doc) (pa pb : Client.World)
    (u : bytes) (da' db' : Doc) :
  doc (self w) = Some ds →
  Client.isOpen pa = true →
  Z.of_nat (List.length u) <= MAX_SAFE_INTEGER →
  Y_applyUpdate (Client.doc (Client.self pa)) u = Some da' →
  Y_applyUpdate ds u = Some ds' →
  Y_applyUpdate (Client.doc (Client.self pb)) u = Some db' →
  let changed := Client.step pa (Client.LocalUpdate u) in
  let frame := updateFrame u in
  let served := (onMessage a (BinaryFrame frame) now w).2 in
  let received := Client.step pb (Client.SocketReceives frame) in
  Client.doc (Client.self changed) = da'
  ∧ Client.sent (Client.since pa changed) = [frame]
  ∧ broadcasts (since w served) = [(frame, [a])]
  ∧ (∀ c, sentTo c (since w served) = [])
  ∧ doc (self served) = Some ds'
  ∧ Client.doc (Client.self received) = db'
  ∧ Client.since pb received = []
  ∧ Client.synced (Client.self received) = Client.synced (Client.self pb).
Proof.
  intros Hdoc Hopen Hlen Hlocal Hserver Hclient changed frame served received.
  assert (changed = Client.say (Client.SocketSend frame)
                      (Client.with_self (Client.with_doc da' (Client.self pa)) pa)) as ->.
  { subst changed. cbn [Client.step]. rewrite Hlocal. unfold Client.onDocUpdate.
    assert (Client.isOpen (Client.with_self (Client.with_doc da' (Client.self pa)) pa) = true)
      as -> by exact Hopen.
    reflexivity. }
  split; [reflexivity|].
  split.
  { unfold Client.say, Client.with_self. cbn [Client.self Client.timers Client.trace].
    rewrite since_said. reflexivity. }
  assert (onMessage a (BinaryFrame frame) now w = afterUpdate a frame now w (ds', None))
    as Hserved.
  { pose proof (update_message_run a now w ds ds' u [] Hdoc Hlen Hserver) as H.
    rewrite app_nil_r in H. exact H. }
  subst served. rewrite Hserved. unfold afterUpdate, since.
  destruct (storageAvailable (host w)); cbn [fst snd self host trace doc with_doc];
    rewrite drop_app_length.
  all: split; [reflexivity|]. all: split; [intros c; reflexivity|].
  all: split; [reflexivity|].
  all: subst received; cbn [Client.step].
  all: rewrite (onmessage_applies frame messageYjsUpdate u pb db'
                  (eq_trans (frame_alone readVarUint frame) (updateFrame_tag u []))
                  (updateFrame_subtag u []) (or_intror eq_refl) Hlen Hclient).
  all: change (messageYjsUpdate =? messageYjsSyncStep2) with false.
  all: rewrite andb_false_r; cbv zeta; cbn [snd].
  all: unfold Client.with_self; cbn [Client.self Client.doc Client.with_doc Client.synced].
  all: split; [reflexivity|]; split; [|reflexivity].
  all: unfold Client.since; cbn [Client.trace]; apply drop_all.
Qed.

Lemma textFrame_reads tag text :
  0 <= tag <= 2 →
  Z.of_nat (List.length (utf8_encode text)) <= MAX_SAFE_INTEGER →
  utf8_valid (utf8_encode text) = true →
  readVarUint (createDecoder (textFrame tag text)) = Val (tag, writeVarString [] text)
  ∧ readVarString (writeVarString [] text) = Val (text, []).
Proof.
  intros Htag Hlen Hvalid. split.
  - unfold createDecoder. rewrite textFrame_split. apply readVarUint_writeVarUint.
    apply small_is_safe. exact Htag.
  - rewrite (frame_alone readVarString). apply readVarString_writeVarString; assumption.
Qed.

Lemma onmessage_awareness text v data (p : Client.World) :
  Z.of_nat (List.length (utf8_encode text)) <= MAX_SAFE_INTEGER →
  JSON_parse text = Some v →
  Client.awarenessEvent v = Val data →
  Client.onmessage (textFrame MESSAGE_AWARENESS text) p
  = (Normal tt, Client.emit "awareness" data p).
Proof.
  intros Hlen Hparse Hevent. unfold Client.onmessage.
  destruct (textFrame_reads MESSAGE_AWARENESS text ltac:(unfold MESSAGE_AWARENESS; lia) Hlen
              (JSON_parse_text _ _ Hparse)) as [-> Hstr].
  change (MESSAGE_AWARENESS =? MESSAGE_SYNC) with false.
  change (MESSAGE_AWARENESS =? MESSAGE_AWARENESS) with true. cbv iota.
  rewrite Hstr, Hparse, Hevent. reflexivity.
Qed.

Lemma onmessage_custom text msg (p : Client.World) :
  Z.of_nat (List.length (utf8_encode text)) <= MAX_SAFE_INTEGER →
  JSON_parse text = Some msg →
  Client.onmessage (textFrame MESSAGE_CUSTOM text) p
  = (Normal tt, Client.emit "custom" msg p).
Proof.
  intros Hlen Hparse. unfold Client.onmessage.
  destruct (textFrame_reads MESSAGE_CUSTOM text ltac:(unfold MESSAGE_CUSTOM; lia) Hlen
              (JSON_parse_text _ _ Hparse)) as [-> Hstr].
  change (MESSAGE_CUSTOM =? MESSAGE_SYNC) with false.
  change (MESSAGE_CUSTOM =? MESSAGE_AWARENESS) with false.
  change (MESSAGE_CUSTOM =? MESSAGE_CUSTOM) with true. cbv iota.
  rewrite Hstr, Hparse. reflexivity.
Qed.

Lemma since_emit event data (p : Client.World) :
  Client.since p (Client.emit event data p)
  = (fun cb => Client.Call cb data)
      <$> default [] (JsMap.get event (Client.listeners (Client.self p))).
Proof. rewrite emit_run. apply since_said. Qed.

(** X19. A presence travels from one page to the listeners of the
    others.  [sendAwarenessUpdate] sends the state as JSON text if the
    socket is open; the actor stores it under the sender and relays it,
    wrapped with the sender's id, to everybody else; a provider that
    receives the relay calls its [awareness] listeners, in the order they
    registered, with that id and that state.  [clearAwareness] is the same
    message with the state [null]. *)
Theorem presence_travels_to_the_other_pages
    (w : World) (a : ConnectionId) (now : Z) (ds : Doc) (pa pb : Client.World)
    (state : json) :
  doc (self w) = Some ds →
  Client.isOpen pa = true →
  let text := JSON_stringify state in
  let wrapped := JObj [("clientId", JStr a); ("state", state)] in
  Z.of_nat (List.length (utf8_encode text)) <= MAX_SAFE_INTEGER →
  Z.of_nat (List.length (utf8_encode (JSON_stringify wrapped))) <= MAX_SAFE_INTEGER →
  JSON_parse text = Some state →
  JSON_parse (JSON_stringify wrapped) = Some wrapped →
  let told := Client.step pa (Client.CallSendAwarenessUpdate state) in
  let frame := textFrame MESSAGE_AWARENESS text in
  let served := (onMessage a (BinaryFrame frame) now w).2 in
  let received := Client.step pb (Client.SocketReceives (awarenessFrame a state)) in
  Client.sent (Client.since pa told) = [frame]
  ∧ (state = JNull → Client.step pa Client.CallClearAwareness = told)
  ∧ since w served = [Broadcast (awarenessFrame a state) [a]]
  ∧ JsMap.get a (customAwareness (self served)) = Some state
  ∧ Client.since pb received
    = (fun cb => Client.Call cb wrapped)
        <$> default [] (JsMap.get "awareness" (Client.listeners (Client.self pb))).
Proof.
  intros Hdoc Hopen text wrapped Hlen Hlen' Hparse Hparse' told frame served received.
  subst wrapped text.
  assert (told = Client.say (Client.SocketSend frame)
                   (Client.say (Client.AwarenessSetLocalState state) pa)) as Htold.
  { subst told. cbn [Client.step]. unfold Client.sendAwarenessUpdate. cbv zeta.
    assert (Client.isOpen (Client.say (Client.AwarenessSetLocalState state) pa) = true)
      as -> by exact Hopen.
    reflexivity. }
  split.
  { rewrite Htold. apply Sends_since.
    eapply Sends_silent; [apply (Sends_say (Client.AwarenessSetLocalState state))|].
    apply (Sends_say (Client.SocketSend frame)). }
  split.
  { intros ->. rewrite Htold. cbn [Client.step]. unfold Client.clearAwareness. cbv zeta.
    assert (Client.isOpen (Client.say (Client.AwarenessSetLocalState JNull) pa) = true)
      as -> by exact Hopen.
    reflexivity. }
  destruct (textFrame_reads MESSAGE_AWARENESS (JSON_stringify state)
              ltac:(unfold MESSAGE_AWARENESS; lia) Hlen (JSON_parse_text _ _ Hparse))
    as [Htag Hstr].
  subst served.
  rewrite (onMessage_awareness_run a frame now w ds _ _ [] state Hdoc Htag Hstr Hparse).
  unfold since. cbn [snd self trace customAwareness with_customAwareness].
  rewrite drop_app_length. split; [reflexivity|]. split; [apply get_set_eq|].
  subst received. cbn [Client.step]. rewrite awarenessFrame_is_text.
  rewrite (onmessage_awareness _ _ _ pb Hlen' Hparse' eq_refl). cbn [snd].
  apply since_emit.
Qed.

(** X20. A ping comes back to the page as a pong.  [sendCustomMessage]
    sends the message as JSON text if the socket is open; for a message of
    type [ping] the actor answers the sender alone with a pong that carries
    the time of the actor, and the provider hands that pong to its [custom]
    listeners. *)
Theorem ping_comes_back_as_pong
    (w : World) (a : ConnectionId) (now : Z) (ds : Doc) (pa : Client.World) (msg : json) :
  doc (self w) = Some ds →
  Client.isOpen pa = true →
  property msg "type" = Val (Some (JStr "ping")) →
  let pong := JObj [("type", JStr "pong"); ("timestamp", JStr (Date_toISOString now))] in
  Z.of_nat (List.length (utf8_encode (JSON_stringify msg))) <= MAX_SAFE_INTEGER →
  Z.of_nat (List.length (utf8_encode (JSON_stringify pong))) <= MAX_SAFE_INTEGER →
  JSON_parse (JSON_stringify msg) = Some msg →
  JSON_parse (JSON_stringify pong) = Some pong →
  let asked := Client.step pa (Client.CallSendCustomMessage msg) in
  let served := (onMessage a (BinaryFrame (customFrame msg)) now w).2 in
  let answered := Client.step asked (Client.SocketReceives (pongFrame now)) in
  Client.since pa asked = [Client.SocketSend (customFrame msg)]
  ∧ since w served = [Send a (pongFrame now)]
  ∧ Client.since asked answered
    = (fun cb => Client.Call cb pong)
        <$> default [] (JsMap.get "custom" (Client.listeners (Client.self pa))).
Proof.
  intros Hdoc Hopen Htype pong Hlen Hlen' Hparse Hparse' asked served answered.
  subst pong.
  assert (asked = Client.say (Client.SocketSend (customFrame msg)) pa) as Hasked.
  { subst asked. cbn [Client.step]. unfold Client.sendCustomMessage. rewrite Hopen. reflexivity. }
  split; [rewrite Hasked; apply since_said|].
  destruct (textFrame_reads MESSAGE_CUSTOM (JSON_stringify msg)
              ltac:(unfold MESSAGE_CUSTOM; lia) Hlen (JSON_parse_text _ _ Hparse))
    as [Htag Hstr].
  subst served. rewrite customFrame_is_text.
  rewrite (onMessage_custom_run a (textFrame MESSAGE_CUSTOM (JSON_stringify msg)) now w ds
             _ _ [] msg Hdoc Htag Hstr Hparse).
  unfold since. cbn [snd trace]. rewrite drop_app_length, Htype.
  split; [reflexivity|].
  subst answered. cbn [Client.step]. unfold pongFrame. rewrite customFrame_is_text.
  rewrite (onmessage_custom _ _ asked Hlen' Hparse'). cbn [snd]. rewrite since_emit, Hasked.
  reflexivity.
Qed.

(** X21. A configuration message reaches the listeners of the other
    pages.  For a message of type [config] or [mode] the actor relays the
    frame of the sender to everybody else, and a provider that receives it
    hands the message to its [custom] listeners, in the order they
    registered; the sender gets nothing. *)
Theorem config_reaches_the_other_pages
    (w : World) (a : ConnectionId) (now : Z) (ds : Doc) (pa pb : Client.World) (msg : json) :
  doc (self w) = Some ds →
  Client.isOpen pa = true →
  property msg "type" = Val (Some (JStr "config"))
  ∨ property msg "type" = Val (Some (JStr "mode")) →
  Z.of_nat (List.length (utf8_encode (JSON_stringify msg))) <= MAX_SAFE_INTEGER →
  JSON_parse (JSON_stringify msg) = Some msg →
  let asked := Client.step pa (Client.CallSendCustomMessage msg) in
  let served := (onMessage a (BinaryFrame (customFrame msg)) now w).2 in
  let received := Client.step pb (Client.SocketReceives (customFrame msg)) in
  Client.since pa asked = [Client.SocketSend (customFrame msg)]
  ∧ since w served = [Broadcast (customFrame msg) [a]]
  ∧ Client.since pb received
    = (fun cb => Client.Call cb msg)
        <$> default [] (JsMap.get "custom" (Client.listeners (Client.self pb))).
Proof.
  intros Hdoc Hopen Htype Hlen Hparse asked served received.
  split.
  { subst asked. cbn [Client.step]. unfold Client.sendCustomMessage. rewrite Hopen.
    apply since_said. }
  destruct (textFrame_reads MESSAGE_CUSTOM (JSON_stringify msg)
              ltac:(unfold MESSAGE_CUSTOM; lia) Hlen (JSON_parse_text _ _ Hparse))
    as [Htag Hstr].
  subst served received. rewrite customFrame_is_text.
  rewrite (onMessage_custom_run a (textFrame MESSAGE_CUSTOM (JSON_stringify msg)) now w ds
             _ _ [] msg Hdoc Htag Hstr Hparse).
  unfold since. cbn [snd trace Client.step]. rewrite drop_app_length.
  rewrite (onmessage_custom _ msg pb Hlen Hparse). cbn [snd]. rewrite since_emit.
  split; [|reflexivity]. destruct Htype as [-> | ->]; reflexivity.
Qed.
End EndToEnd.

Section Listeners.
Context {yjs : YjsLibrary} {js : JsRuntime}.
Import Client.

(** The functions registered for [event], in the order [emit] calls them. *)
Lemma callbacks_on event cb w :
  JsMap.get event (listeners (self (on event cb w)))
  = Some (set_add cb (default [] (JsMap.get event (listeners (self w))))).
Proof.
  unfold on, JsMap.has. cbv zeta. cbn [with_self with_listeners self listeners].
  destruct (JsMap.get event (listeners (self w))) as [l|] eqn:Hget.
  - rewrite Hget. apply get_set_eq.
  - rewrite !get_set_eq. reflexivity.
Qed.

Lemma callbacks_on_other event event' cb w :
  event ≠ event' →
  JsMap.get event' (listeners (self (on event cb w))) = JsMap.get event' (listeners (self w)).
Proof.
  intros Hne. unfold on, JsMap.has. cbv zeta. cbn [with_self with_listeners self listeners].
  rewrite get_set_ne by exact Hne.
  destruct (JsMap.get event (listeners (self w))); [reflexivity|].
  apply get_set_ne. exact Hne.
Qed.

Lemma callbacks_off event cb w :
  JsMap.get event (listeners (self (off event cb w)))
  = set_delete cb <$> JsMap.get event (listeners (self w)).
Proof.
  unfold off. destruct (JsMap.get event (listeners (self w))) as [l|] eqn:Hget.
  - cbn [with_self with_listeners self listeners]. apply get_set_eq.
  - rewrite Hget. reflexivity.
Qed.

Lemma callbacks_off_other event event' cb w :
  event ≠ event' →
  JsMap.get event' (listeners (self (off event cb w))) = JsMap.get event' (listeners (self w)).
Proof.
  intros Hne. unfold off. destruct (JsMap.get event (listeners (self w))); [|reflexivity].
  cbn [with_self with_listeners self listeners]. apply get_set_ne. exact Hne.
Qed.

Lemma existsb_eqb cb (l : list nat) : existsb (Nat.eqb cb) l = true ↔ cb ∈ l.
Proof.
  rewrite existsb_exists. split.
  - intros (x & Hx & Heq). apply Nat.eqb_eq in Heq. subst x. apply list_elem_of_In. exact Hx.
  - intros Hin. exists cb. split; [apply list_elem_of_In; exact Hin|apply Nat.eqb_refl].
Qed.

Lemma set_add_spec cb (l : list nat) :
  NoDup l → NoDup (set_add cb l) ∧ cb ∈ set_add cb l ∧ ∀ cb', cb' ∈ l → cb' ∈ set_add cb l.
Proof.
  intros Hnodup. unfold set_add. destruct (existsb (Nat.eqb cb) l) eqn:Hmem.
  - apply existsb_eqb in Hmem. repeat split; [exact Hnodup|exact Hmem|tauto].
  - assert (cb ∉ l) as Hfresh by (intros Hin; apply existsb_eqb in Hin; congruence).
    split; [|split].
    + apply NoDup_app. split; [exact Hnodup|]. split; [|apply NoDup_singleton].
      intros x Hx Hx'. apply list_elem_of_singleton in Hx'. subst x. contradiction.
    + apply elem_of_app. right. apply list_elem_of_singleton. reflexivity.
    + intros cb' Hcb'. apply elem_of_app. left. exact Hcb'.
Qed.

Lemma set_delete_spec cb (l : list nat) :
  NoDup l → NoDup (set_delete cb l) ∧ (cb ∉ set_delete cb l)
            ∧ ∀ cb', cb' ≠ cb → cb' ∈ l → cb' ∈ set_delete cb l.
Proof.
  intros Hnodup. unfold set_delete. split; [|split].
  - apply NoDup_ListNoDup, List.NoDup_filter, NoDup_ListNoDup. exact Hnodup.
  - intros Hin. apply list_elem_of_In, filter_In in Hin as [_ Hin].
    rewrite Nat.eqb_refl in Hin. discriminate.
  - intros cb' Hne Hin. apply list_elem_of_In, filter_In. split; [apply list_elem_of_In, Hin|].
    apply negb_true_iff, Nat.eqb_neq. congruence.
Qed.

Lemma step_keeps_listeners w st :
  (∀ event cb, st ≠ CallOn event cb) → (∀ event cb, st ≠ CallOff event cb) →
  listeners (self (step w st)) = listeners (self w).
Proof.
  intros Hon Hoff. destruct st; cbn [step].
  - unfold destroy, closeSocket. cbn [with_self with_destroyed self ws].
    destruct (ws (self w)); reflexivity.
  - exfalso. exact (Hon _ _ eq_refl).
  - exfalso. exact (Hoff _ _ eq_refl).
  - unfold sendCustomMessage. destruct (isOpen w); reflexivity.
  - unfold sendAwarenessUpdate. destruct (isOpen _); reflexivity.
  - unfold clearAwareness. destruct (isOpen _); reflexivity.
  - destruct (Y_applyUpdate _ _); [|reflexivity].
    unfold onDocUpdate. destruct (isOpen _); reflexivity.
  - unfold onopen. cbn [say self]. rewrite emit_run. reflexivity.
  - destruct (onmessage_Undisturbed data w) as (_ & _ & Hl & _). exact Hl.
  - reflexivity.
  - unfold onclose. cbv zeta. rewrite emit_run.
    cbn [with_self with_synced with_ws self timers trace destroyed listeners].
    destruct (destroyed (self w)); reflexivity.
  - destruct (timers w) as [|[[] delay] rest]; reflexivity.
Qed.

(** Every set of listeners holds each function once. *)
Lemma listeners_NoDup base roomName d script : ∀ event l,
  JsMap.get event (listeners (self (steps (construct base roomName d) script))) = Some l →
  NoDup l.
Proof.
  induction script as [|st done IH] using rev_ind; intros event l.
  - cbn. discriminate.
  - unfold steps in *. rewrite fold_left_app. cbn [fold_left].
    set (w := fold_left step done (construct base roomName d)) in *.
    destruct st as [|event' cb|event' cb| | | | | | | | |];
      try (rewrite step_keeps_listeners by discriminate; apply IH).
    + cbn [step]. destruct (String.eqb_spec event' event) as [->|Hne].
      * rewrite callbacks_on. intros [= <-]. apply set_add_spec.
        destruct (JsMap.get event (listeners (self w))) as [old|] eqn:Hold;
          [exact (IH event old Hold)|constructor].
      * rewrite callbacks_on_other by exact Hne. apply IH.
    + cbn [step]. destruct (String.eqb_spec event' event) as [->|Hne].
      * rewrite callbacks_off.
        destruct (JsMap.get event (listeners (self w))) as [old|] eqn:Hold; [|discriminate].
        intros [= <-]. apply set_delete_spec. exact (IH event old Hold).
      * rewrite callbacks_off_other by exact Hne. apply IH.
Qed.

(** X22. A listener is called once per event until it is removed.  For a
    provider in any state the page can bring about: after [on], also
    after a second [on] with the same function, [emit] calls every function
    registered for the event exactly once, the new one among them and the
    earlier ones still; after [off] the function is not called, the others
    are. *)
Theorem listener_is_called_once_until_removed
    (base roomName : string) (d : Doc) (script : list Step)
    (event : string) (cb : Listener) (data : json) :
  let w := steps (construct base roomName d) script in
  let old := default [] (JsMap.get event (listeners (self w))) in
  let registered := on event cb (on event cb w) in
  let removed := off event cb registered in
  (∃ l, since registered (emit event data registered) = (fun f => Call f data) <$> l
        ∧ NoDup l ∧ cb ∈ l ∧ ∀ f, f ∈ old → f ∈ l)
  ∧ (∃ l, since removed (emit event data removed) = (fun f => Call f data) <$> l
          ∧ NoDup l ∧ (cb ∉ l) ∧ ∀ f, f ≠ cb → f ∈ old → f ∈ l).
Proof.
  intros w old registered removed.
  assert (NoDup old) as Hold.
  { subst old. destruct (JsMap.get event (listeners (self w))) as [l|] eqn:Hl; [|constructor].
    exact (listeners_NoDup base roomName d script event l Hl). }
  destruct (set_add_spec cb old Hold) as (Hnodup1 & Hin1 & Hkeep1).
  destruct (set_add_spec cb (set_add cb old) Hnodup1) as (Hnodup2 & Hin2 & Hkeep2).
  destruct (set_delete_spec cb (set_add cb (set_add cb old)) Hnodup2) as (Hnodup3 & Hout & Hkeep3).
  assert (JsMap.get event (listeners (self registered)) = Some (set_add cb (set_add cb old)))
    as Hregistered.
  { subst registered old. rewrite callbacks_on, callbacks_on. reflexivity. }
  split.
  - exists (set_add cb (set_add cb old)). rewrite since_emit, Hregistered.
    repeat split; [exact Hnodup2|exact Hin2|]. intros f Hf. apply Hkeep2, Hkeep1, Hf.
  - exists (set_delete cb (set_add cb (set_add cb old))).
    rewrite since_emit. subst removed. rewrite callbacks_off, Hregistered.
    repeat split; [exact Hnodup3|exact Hout|]. intros f Hne Hf. apply Hkeep3; [exact Hne|].
    apply Hkeep2, Hkeep1, Hf.
Qed.
End Listeners.

(** * The raw Durable Object *)

Section RawObject.
Context {js : JsRuntime} {decoder : TextDecoder}.
Import Raw.

Lemma length_filter_le {A} (f : A → bool) (l : list A) :
  (List.length (List.filter f l) <= List.length l)%nat.
Proof.
  induction l as [|x l IH]; [reflexivity|]. cbn [List.filter].
  destruct (f x); cbn [List.length]; lia.
Qed.

Lemma length_filter_lt (c : string) (l : list string) :
  c ∈ l →
  (List.length (List.filter (fun socket => negb (String.eqb socket c)) l) < List.length l)%nat.
Proof.
  induction l as [|x l IH]; intros Hin; [inversion Hin|]. cbn [List.filter].
  destruct (String.eqb_spec x c) as [->|Hne]; cbn [negb List.length].
  - pose proof (length_filter_le (fun socket => negb (String.eqb socket c)) l). lia.
  - apply elem_of_cons in Hin as [->|Hin]; [congruence|]. specialize (IH Hin). lia.
Qed.

(** Within one instance the counter never falls behind the enumeration,
    and the distance between the two never shrinks. *)
Lemma gap_grows script : ∀ w,
  awake script = true →
  acceptedCount (self w) - Z.of_nat (List.length (sockets w))
  <= acceptedCount (self (steps w script))
     - Z.of_nat (List.length (sockets (steps w script))).
Proof.
  induction script as [|st script IH]; intros w Hawake; [cbn; lia|].
  cbn [awake forallb] in Hawake. apply andb_true_iff in Hawake as [Hst Hawake].
  cbn [steps fold_left]. etransitivity; [|apply (IH (step w st) Hawake)].
  destruct st as [request connectionId now|ws message now|ws|ws|]; cbn [step].
  5: discriminate.
  - unfold fetch. destruct (String.eqb (pathname request) "/status"); [cbn [snd]; lia|].
    destruct (upgradeHeader request) as [header|]; [|cbn [snd]; lia].
    destruct (String.eqb header "websocket"); [|cbn [snd]; lia].
    cbn [snd self sockets acceptedCount]. rewrite length_app. cbn [List.length]. lia.
  - unfold webSocketMessage. cbv zeta. cbn [self sockets]. lia.
  - unfold webSocketClose. cbv zeta. cbn [self sockets].
    pose proof (length_filter_le (fun socket => negb (String.eqb socket ws)) (sockets w)). lia.
  - unfold webSocketError. lia.
Qed.

Lemma steady_counts script : ∀ w,
  steady script = true →
  acceptedCount (self (steps w script)) - Z.of_nat (List.length (sockets (steps w script)))
  = acceptedCount (self w) - Z.of_nat (List.length (sockets w)).
Proof.
  induction script as [|st script IH]; intros w Hsteady; [reflexivity|].
  cbn [steady forallb] in Hsteady. apply andb_true_iff in Hsteady as [Hst Hsteady].
  cbn [steps fold_left]. etransitivity; [apply (IH (step w st) Hsteady)|].
  destruct st as [request connectionId now|ws message now|ws|ws|]; cbn [step];
    try discriminate; try reflexivity.
  unfold fetch. destruct (String.eqb (pathname request) "/status"); [reflexivity|].
  destruct (upgradeHeader request) as [header|]; [|reflexivity].
  destruct (String.eqb header "websocket"); [|reflexivity].
  cbn [snd self sockets acceptedCount]. rewrite length_app. cbn [List.length]. lia.
Qed.

Lemma reportsMismatch_status w now :
  reportsMismatch (status w now)
  = Some (JBool (negb (acceptedCount (self w) =? Z.of_nat (List.length (sockets w))))).
Proof. reflexivity. Qed.

(** X23. The counter of the instance and the enumeration of the state
    agree only until a socket closes or the object sleeps.  From the
    construction of an object without sockets, [/status] reports no
    mismatch as long as no socket has closed.  Once a live socket has
    closed, every later [/status] of the same instance reports a mismatch,
    whatever is accepted or closed afterwards; and so does the [/status] of
    the instance built after a hibernation that sockets have survived. *)
Theorem counter_and_enumeration_part_ways
    (script1 script2 : list Step) (c : string) (now : Z) :
  awake script1 = true → awake script2 = true →
  let w1 := steps (construct [] []) script1 in
  c ∈ sockets w1 →
  let closed := steps w1 (Close c :: script2) in
  let woken := step w1 Hibernate in
  (steady script1 = true → reportsMismatch (status w1 now) = Some (JBool false))
  ∧ reportsMismatch (status closed now) = Some (JBool true)
  ∧ sockets woken = sockets w1
  ∧ reportsMismatch (status woken now) = Some (JBool true).
Proof.
  intros Hawake1 Hawake2 w1 Hlive closed woken. rewrite !reportsMismatch_status.
  split; [|split; [|split]].
  - intros Hsteady. pose proof (steady_counts script1 (construct [] []) Hsteady) as H.
    fold w1 in H. cbn in H. do 2 f_equal. apply negb_false_iff, Z.eqb_eq. lia.
  - pose proof (gap_grows script1 (construct [] []) Hawake1) as H1. fold w1 in H1. cbn in H1.
    pose proof (gap_grows script2 (step w1 (Close c)) Hawake2) as H2.
    change (steps (step w1 (Close c)) script2) with closed in H2.
    cbn [step] in H2. unfold webSocketClose in H2. cbv zeta in H2. cbn [self sockets] in H2.
    pose proof (length_filter_lt c (sockets w1) Hlive) as H3.
    do 2 f_equal. apply negb_true_iff, Z.eqb_neq. lia.
  - reflexivity.
  - subst woken. cbn [step construct self sockets acceptedCount].
    destruct (sockets w1) as [|s l]; [inversion Hlive|]. reflexivity.
Qed.
End RawObject.

Section UnseenConnect.
Context {yjs : YjsLibrary} {js : JsRuntime}.

(** X24. A connect the host does not enumerate gets an identity without a
    name.  If [getConnections()] is empty while [onConnect] runs, the index
    of the newcomer is -1, outside the palette: the identity stored and
    broadcast has neither name nor colour, the roster is not restored, and
    the broadcast reports zero connections in mode solo while it lists the
    newcomer among the users. *)
Theorem connect_unseen_by_the_host_gets_no_name
    (w : World) (c : ConnectionId) (now : Z) (d : Doc) :
  doc (self w) = Some d →
  connections (host w) = [] →
  let w' := (onConnect c now w).2 in
  let unnamed := {| name := None; color := None;
                    profile_picture_url := "https://i.pravatar.cc/150?u=" +:+ c |} in
  identityOf c w' = Some unnamed
  ∧ connectedUsers (self w') = JsMap.set c unnamed (connectedUsers (self w))
  ∧ userJson (c, unnamed)
    = JObj [("id", JStr c);
            ("profile_picture_url", JStr ("https://i.pravatar.cc/150?u=" +:+ c))]
  ∧ ∃ message,
      broadcasts (since w w') = [(customFrame message, [])]
      ∧ path message ["data"; "connectionCount"] = Some (JNum 0)
      ∧ path message ["data"; "mode"] = Some (JStr "solo")
      ∧ path message ["data"; "users"]
        = Some (JArr (userJson <$> JsMap.entries (connectedUsers (self w')))).
Proof.
  intros Hdoc Hnone w' unnamed. subst w' unnamed.
  rewrite (onConnect_run c now w d Hdoc). rewrite Hnone. unfold identityOf, since.
  cbn [snd self trace connectedUsers with_connectedUsers with_lastActivityAt].
  assert (usersAfterConnect [] c (connectedUsers (self w))
          = JsMap.set c {| name := None; color := None;
                           profile_picture_url := "https://i.pravatar.cc/150?u=" +:+ c |}
              (connectedUsers (self w))) as ->.
  { unfold usersAfterConnect. cbn [List.length].
    assert ((JsMap.size (connectedUsers (self w)) <? Z.of_nat 0) = false) as ->.
    { apply Z.ltb_ge. unfold JsMap.size. lia. }
    reflexivity. }
  split; [apply get_set_eq|]. split; [reflexivity|]. split; [reflexivity|].
  eexists. rewrite drop_app_length. split.
  { unfold broadcasts, presenceReplay. rewrite !omap_app. cbn [omap].
    match goal with |- context [omap ?f (?g <$> ?l)] =>
      assert (omap f (g <$> l) = []) as ->
        by (induction l as [|? ? IHl]; [reflexivity|exact IHl])
    end.
    reflexivity. }
  repeat split.
Qed.
End UnseenConnect.

Section Reconnection.
Context {yjs : YjsLibrary} {js : JsRuntime}.
Import number encoding decoding syncProtocol.

Lemma answerTo_request stateVector d :
  Z.of_nat (List.length stateVector) <= MAX_SAFE_INTEGER →
  Y_isStateVector stateVector = true →
  answerTo (stateVectorRequest stateVector) d = [diffFrame d stateVector].
Proof.
  intros Hlen Hvector. unfold answerTo.
  rewrite (frame_alone readVarUint), stateVectorRequest_tag.
  change (MESSAGE_SYNC =? MESSAGE_SYNC) with true. cbv iota.
  rewrite stateVectorRequest_subtag.
  change (messageYjsSyncStep1 =? messageYjsSyncStep1) with true. cbv iota.
  rewrite (readVarUint8Array_writeVarUint8Array stateVector [] Hlen), Hvector. reflexivity.
Qed.

Lemma sentTo_app c t t' : sentTo c (t ++ t') = sentTo c t ++ sentTo c t'.
Proof. unfold sentTo. apply omap_app. Qed.

Lemma sentTo_own c m t : sentTo c (Send c m :: t) = m :: sentTo c t.
Proof.
  unfold sentTo. cbn [omap list_omap]. rewrite String.eqb_refl. reflexivity.
Qed.

Lemma sentTo_replay c (presence : JsMap.t json) :
  sentTo c (presenceReplay c presence)
  = (fun entry => awarenessFrame entry.1 entry.2) <$> JsMap.entries presence.
Proof.
  unfold presenceReplay. induction (JsMap.entries presence) as [|entry l IH]; [reflexivity|].
  cbn [fmap list_fmap]. rewrite sentTo_own. f_equal. exact IH.
Qed.

(** X25. What was changed while the page was disconnected reaches the
    actor in the handshake, and nobody else.  The actor greets a connection
    with the state vector of its replica; the provider answers with the diff
    of its own replica, which holds the changes made offline; the actor
    applies that diff as a sync step 2: it relays nothing to the other
    connections and writes nothing to the storage. *)
Theorem offline_changes_reach_the_actor_only
    (w : World) (c : ConnectionId) (t1 t2 : Z) (ds ds' : Doc) (p : Client.World) :
  doc (self w) = Some ds →
  let dc := Client.doc (Client.self p) in
  let diff := Y_encodeStateAsUpdate dc (Y_encodeStateVector ds) in
  Z.of_nat (List.length (Y_encodeStateVector ds)) <= MAX_SAFE_INTEGER →
  Z.of_nat (List.length diff) <= MAX_SAFE_INTEGER →
  Y_applyUpdate ds diff = Some ds' →
  let greeted := (onConnect c t1 w).2 in
  let asked := Client.step p (Client.SocketReceives (stateVectorFrame ds)) in
  let merged := (onMessage c (BinaryFrame (diffFrame dc (Y_encodeStateVector ds))) t2 greeted).2 in
  sentTo c (since w greeted)
  = stateVectorFrame ds
    :: ((fun entry => awarenessFrame entry.1 entry.2) <$> JsMap.entries (customAwareness (self w)))
  ∧ Client.sent (Client.since p asked) = [diffFrame dc (Y_encodeStateVector ds)]
  ∧ Client.doc (Client.self asked) = dc
  ∧ doc (self merged) = Some ds'
  ∧ since greeted merged = []
  ∧ storage (host merged) = storage (host w).
Proof.
  intros Hdoc dc diff Hsv Hdiff Happly greeted asked merged. subst diff dc.
  assert (greeted
          = let s' := with_connectedUsers
                        (usersAfterConnect (connections (host w)) c (connectedUsers (self w)))
                        (with_lastActivityAt t1 (self w)) in
            {| self := s'; host := host w;
               trace := trace w ++ [Send c (stateVectorFrame ds)]
                        ++ presenceReplay c (customAwareness (self w))
                        ++ [Broadcast (customFrame
                              (connectionCountMessage (connections (host w)) s' "connect" t1))
                              []] |}) as Hgreeted.
  { subst greeted. rewrite (onConnect_run c t1 w ds Hdoc). reflexivity. }
  split.
  { rewrite Hgreeted. unfold since. cbv zeta. cbn [trace]. rewrite drop_app_length.
    rewrite !sentTo_app, sentTo_replay.
    rewrite sentTo_own.
    change (sentTo c [Broadcast _ []]) with (@nil bytes). rewrite app_nil_r. reflexivity. }
  split.
  { subst asked. cbn [Client.step]. rewrite (Sends_since _ _ _ (onmessage_Sends _ p)).
    rewrite stateVectorFrame_is_request.
    apply answerTo_request; [exact Hsv|apply Y_isStateVector_encoded]. }
  split.
  { subst asked. cbn [Client.step]. unfold Client.onmessage, createDecoder.
    rewrite stateVectorFrame_is_request, (frame_alone readVarUint), stateVectorRequest_tag.
    change (MESSAGE_SYNC =? MESSAGE_SYNC) with true. cbv iota.
    unfold readSyncMessage. rewrite stateVectorRequest_subtag.
    change (messageYjsSyncStep1 =? messageYjsSyncStep1) with true. cbv iota.
    unfold readSyncStep1, writeSyncStep2, Y.encodeStateAsUpdate.
    rewrite (readVarUint8Array_writeVarUint8Array (Y_encodeStateVector ds) [] Hsv).
    rewrite Y_isStateVector_encoded.
    cbv zeta. cbn [snd caught syncProtocol.messageType encoder' doc' orb].
    change (messageYjsSyncStep1 =? messageYjsSyncStep1) with true. cbn [orb].
    change (messageYjsSyncStep1 =? messageYjsSyncStep2) with false. rewrite andb_false_r.
    destruct (1 <? _); reflexivity. }
  assert (doc (self greeted) = Some ds) as Hdoc' by (rewrite Hgreeted; exact Hdoc).
  subst merged. rewrite diffFrame_is_step2Frame.
  rewrite (frame_alone (fun m => onMessage c (BinaryFrame m) t2 greeted)).
  rewrite (onMessage_step2_run c _ t2 greeted ds _ _ Hdoc'
             (step2Frame_tag _ []) (step2Frame_subtag _ [])).
  change readSyncStep2 with readUpdate. rewrite (readUpdate_payload _ [] ds Hdiff).
  rewrite Happly. unfold since.
  cbn [fst snd self host trace doc with_doc]. rewrite app_nil_r, drop_all.
  split; [reflexivity|]. split; [reflexivity|]. rewrite Hgreeted. reflexivity.
Qed.
End Reconnection.

Section ProviderFrames.
Context {yjs : YjsLibrary} {js : JsRuntime}.
Import number encoding decoding syncProtocol.

Lemma tagged_reads tag rest :
  0 <= tag <= MAX_SAFE_INTEGER →
  readVarUint (createDecoder (writeVarUint [] tag ++ rest)) = Val (tag, rest).
Proof. intros Htag. apply readVarUint_writeVarUint. exact Htag. Qed.

(** X26. Frames the provider cannot read.  An empty frame, and a PRESENCE
    or APPLICATION frame that ends after its tag or whose text is no
    UTF-8, make the message handler throw: the text is read outside the
    [try].  So does a SYNC frame of an unknown kind.  A frame with an
    unknown tag is ignored without a word.  A text that is read and is no
    JSON, and a presence that is [null], are logged and reach no listener.
    In none of these cases the provider changes or sends anything. *)
Theorem provider_frames_that_cannot_be_read (w : Client.World) :
  Client.onmessage [] w = (Abrupt errorUnexpectedEndOfArray, w)
  ∧ (∀ tag, tag = MESSAGE_AWARENESS ∨ tag = MESSAGE_CUSTOM →
       Client.onmessage (writeVarUint [] tag) w = (Abrupt errorUnexpectedEndOfArray, w))
  ∧ (∀ tag raw, tag = MESSAGE_AWARENESS ∨ tag = MESSAGE_CUSTOM →
       Z.of_nat (List.length raw) <= MAX_SAFE_INTEGER →
       utf8_valid raw = false →
       Client.onmessage (writeVarUint [] tag ++ writeVarUint8Array [] raw) w
       = (Abrupt TypeError, w))
  ∧ (∀ kind rest, 2 < kind <= MAX_SAFE_INTEGER →
       Client.onmessage (writeVarUint [] MESSAGE_SYNC ++ writeVarUint [] kind ++ rest) w
       = (Abrupt UnknownMessageType, w))
  ∧ (∀ tag rest, 2 < tag <= MAX_SAFE_INTEGER →
       Client.onmessage (writeVarUint [] tag ++ rest) w = (Normal tt, w))
  ∧ (∀ text, Z.of_nat (List.length (utf8_encode text)) <= MAX_SAFE_INTEGER →
       utf8_valid (utf8_encode text) = true →
       JSON_parse text = None ∨ JSON_parse text = Some JNull →
       Client.onmessage (textFrame MESSAGE_AWARENESS text) w
       = (Normal tt,
          Client.say (Client.ConsoleError "[YjsPartyProvider] Failed to parse awareness:") w))
  ∧ (∀ text, Z.of_nat (List.length (utf8_encode text)) <= MAX_SAFE_INTEGER →
       utf8_valid (utf8_encode text) = true →
       JSON_parse text = None →
       Client.onmessage (textFrame MESSAGE_CUSTOM text) w
       = (Normal tt,
          Client.say (Client.ConsoleError "[YjsPartyProvider] Failed to parse custom message:")
            w)).
Proof.
  split; [reflexivity|]. split; [intros tag [-> | ->]; reflexivity|].
  split; [|split; [|split; [|split]]].
  - intros tag raw Hkind Hlen Hvalid. unfold Client.onmessage.
    rewrite tagged_reads
      by (destruct Hkind as [-> | ->];
          unfold MESSAGE_AWARENESS, MESSAGE_CUSTOM, MAX_SAFE_INTEGER; lia).
    assert (readVarString (writeVarUint8Array [] raw) = Exn TypeError) as Hstr.
    { unfold readVarString. rewrite (frame_alone readVarUint8Array).
      rewrite readVarUint8Array_writeVarUint8Array by exact Hlen.
      unfold utf8_decode. rewrite Hvalid. reflexivity. }
    destruct Hkind as [-> | ->].
    + change (MESSAGE_AWARENESS =? MESSAGE_SYNC) with false.
      change (MESSAGE_AWARENESS =? MESSAGE_AWARENESS) with true. cbv iota.
      rewrite Hstr. reflexivity.
    + change (MESSAGE_CUSTOM =? MESSAGE_SYNC) with false.
      change (MESSAGE_CUSTOM =? MESSAGE_AWARENESS) with false.
      change (MESSAGE_CUSTOM =? MESSAGE_CUSTOM) with true. cbv iota.
      rewrite Hstr. reflexivity.
  - intros kind rest Hkind. unfold Client.onmessage.
    rewrite tagged_reads by (unfold MESSAGE_SYNC, MAX_SAFE_INTEGER; lia).
    change (MESSAGE_SYNC =? MESSAGE_SYNC) with true. cbv iota.
    unfold readSyncMessage.
    pose proof (tagged_reads kind rest ltac:(lia)) as Hread. unfold createDecoder in Hread.
    rewrite Hread. unfold messageYjsSyncStep1, messageYjsSyncStep2, messageYjsUpdate.
    destruct (Z.eqb_spec kind 0); [lia|]. destruct (Z.eqb_spec kind 1); [lia|].
    destruct (Z.eqb_spec kind 2); [lia|]. reflexivity.
  - intros tag rest Htag. unfold Client.onmessage. rewrite tagged_reads by lia.
    unfold MESSAGE_SYNC, MESSAGE_AWARENESS, MESSAGE_CUSTOM.
    destruct (Z.eqb_spec tag 0); [lia|]. destruct (Z.eqb_spec tag 1); [lia|].
    destruct (Z.eqb_spec tag 2); [lia|]. reflexivity.
  - intros text Hlen Hvalid Hparse. unfold Client.onmessage.
    destruct (textFrame_reads MESSAGE_AWARENESS text ltac:(unfold MESSAGE_AWARENESS; lia) Hlen
                Hvalid) as [-> ->].
    change (MESSAGE_AWARENESS =? MESSAGE_SYNC) with false.
    change (MESSAGE_AWARENESS =? MESSAGE_AWARENESS) with true. cbv iota.
    destruct Hparse as [-> | ->]; reflexivity.
  - intros text Hlen Hvalid Hparse. unfold Client.onmessage.
    destruct (textFrame_reads MESSAGE_CUSTOM text ltac:(unfold MESSAGE_CUSTOM; lia) Hlen
                Hvalid) as [-> ->].
    change (MESSAGE_CUSTOM =? MESSAGE_SYNC) with false.
    change (MESSAGE_CUSTOM =? MESSAGE_AWARENESS) with false.
    change (MESSAGE_CUSTOM =? MESSAGE_CUSTOM) with true. cbv iota.
    rewrite Hparse. reflexivity.
Qed.
End ProviderFrames.

Section AfterTheWakeUp.
Context {yjs : YjsLibrary} {js : JsRuntime}.

Lemma wake_up_run w wake :
  ∃ d, steps w [Hibernate wake; Deliver Start wake]
       = {| self := with_doc (Some d) (newInstance wake); host := host w;
            trace := trace w |}.
Proof.
  cbn [steps fold_left step dispatch]. rewrite onStart_run. cbv zeta.
  cbn [self host trace].
  destruct (storageAvailable (host w)); [|eexists; reflexivity].
  destruct (storage (host w) !! persistenceKey) as [state|]; [|eexists; reflexivity].
  destruct (Y_applyUpdate Y_Doc_new state); eexists; reflexivity.
Qed.

(** X27. Hibernation forgets every presence.  The first connection after a
    wake-up is greeted with the state vector alone: none of the presences
    the actor held before is replayed to it, and the roster broadcast of
    its connect reports zero awareness states, whatever the other pages
    still show. *)
Theorem presence_is_forgotten_by_hibernation
    (w : World) (c : ConnectionId) (wake now : Z) :
  let woken := steps w [Hibernate wake; Deliver Start wake; Accept c] in
  let joined := step woken (Deliver (Connect c) now) in
  customAwareness (self joined) = JsMap.empty
  ∧ ∃ d message,
      doc (self joined) = Some d
      ∧ since woken joined = [Send c (stateVectorFrame d); Broadcast (customFrame message) []]
      ∧ path message ["data"; "awarenessStates"] = Some (JNum 0).
Proof.
  intros woken joined.
  destruct (wake_up_run w wake) as [d Hwoken].
  assert (woken = step {| self := with_doc (Some d) (newInstance wake); host := host w;
                          trace := trace w |} (Accept c)) as Hw.
  { subst woken. rewrite <- Hwoken. reflexivity. }
  subst joined. rewrite Hw. cbn [step dispatch]. unfold with_host.
  cbn [self host trace connections storage storageAvailable].
  match goal with
  | |- context [onConnect c now ?w0] => rewrite (onConnect_run c now w0 d eq_refl)
  end.
  unfold since. cbv zeta.
  cbn [snd self host trace doc customAwareness connectedUsers with_doc newInstance
       with_connectedUsers with_lastActivityAt connections].
  split; [reflexivity|]. exists d. eexists. split; [reflexivity|].
  rewrite drop_app_length. split; [reflexivity|]. reflexivity.
Qed.

(** X28. A disconnect right after a wake-up announces an empty roster.
    When the first thing to happen after a wake-up is that a connection
    closes, the roster broadcast of the timer counts the connections that
    are left, and lists no user at all: the roster is only restored by a
    connect. *)
Theorem disconnect_after_wake_up_announces_an_empty_roster
    (w : World) (c : ConnectionId) (wake t1 t2 : Z) :
  let woken := steps w [Hibernate wake; Deliver Start wake] in
  let left := steps woken [Deliver (Close c) t1; Drop c] in
  let announced := step left (Deliver (Timeout FinalCountAfterDisconnect) t2) in
  connections (host announced)
  = List.filter (fun c' => negb (String.eqb c' c)) (connections (host w))
  ∧ since woken left = [SetTimeout FinalCountAfterDisconnect 0]
  ∧ ∃ message,
      since left announced = [Broadcast (customFrame message) []]
      ∧ path message ["data"; "connectionCount"]
        = Some (JNum (Z.of_nat (List.length (connections (host announced)))))
      ∧ path message ["data"; "event"] = Some (JStr "disconnect")
      ∧ path message ["data"; "users"] = Some (JArr []).
Proof.
  intros woken left announced.
  destruct (wake_up_run w wake) as [d Hwoken]. fold woken in Hwoken.
  subst announced left. rewrite Hwoken.
  cbn [steps fold_left step dispatch runTask]. rewrite onClose_run.
  rewrite broadcastConnectionCount_run. unfold since, rosterBroadcast, with_host.
  cbn [snd self host trace doc customAwareness connectedUsers with_doc newInstance
       with_connectedUsers with_customAwareness connections JsMap.delete JsMap.empty
       JsMap.has JsMap.get].
  split; [reflexivity|]. rewrite !drop_app_length.
  split; [reflexivity|]. eexists. split; [reflexivity|]. repeat split.
Qed.
End AfterTheWakeUp.

(** * The roster snapshot *)

Section RosterSnapshot.
Context {yjs : YjsLibrary} {js : JsRuntime}.

End RosterSnapshot.

(** * The theorems at work in concrete rooms *)

Import Example.

(** Closed goals about concrete rooms are settled by evaluation. *)
Ltac evaluate := vm_compute; first [reflexivity | exact I | discriminate].

Ltac decide_it := refine (bool_decide_unpack _ _); vm_compute; exact I.



Lemma newcomer_asks_and_gets_the_document :
  doc (self afterU1) = Some [op1]
  ∧ Z.of_nat (List.length emptyStateVector) <= number.MAX_SAFE_INTEGER
  ∧ onMessage "B" (BinaryFrame (stateVectorRequest emptyStateVector)) 4 afterU1
    = (Normal tt,
       {| self := stamped 4 (self afterU1); host := host afterU1;
          trace := trace afterU1 ++ [Send "B" (fullStateFrame [op1])] |})
  ∧ fullStateFrame [op1] = [x00; x01; x01; op1].
Proof.
  assert (doc (self afterU1) = Some [op1]) as Hdoc by evaluate.
  assert (Z.of_nat (List.length emptyStateVector) <= number.MAX_SAFE_INTEGER) as Hlen by evaluate.
  split; [exact Hdoc|]. split; [exact Hlen|].
  pose proof (connect_greets_with_state_vector afterU1 "B" 4 [op1] emptyStateVector []
                Hdoc Hlen) as (_ & _ & _ & _ & _ & _ & Hanswer & _).
  rewrite app_nil_r in Hanswer. split; [exact (Hanswer eq_refl)|evaluate].
Defined.

(** C3 fails as stated.  A has sent the update U1; B connects.  The one
    frame [onConnect] sends to B is sync step 1 with the state vector of the
    replica; it is not the diff against the empty state vector, which is the
    frame that carries U1. *)
Lemma connect_does_not_send_the_document :
  doc (self afterU1) = Some [op1]
  ∧ sentTo "B" (since afterU1 (onConnect "B" 3 afterU1).2) = [stateVectorFrame [op1]]
  ∧ stateVectorFrame [op1] = [x00; x00; x02; x01; op1]
  ∧ fullStateFrame [op1] = [x00; x01; x01; op1]
  ∧ fullStateFrame [op1] ∉ sentTo "B" (since afterU1 (onConnect "B" 3 afterU1).2).
Proof.
  split; [evaluate|]. split; [evaluate|]. split; [evaluate|]. split; [evaluate|].
  assert (sentTo "B" (since afterU1 (onConnect "B" 3 afterU1).2) = [[x00; x00; x02; x01; op1]])
    as -> by evaluate.
  intros Hin. apply list_elem_of_singleton in Hin. vm_compute in Hin. discriminate Hin.
Qed.



(** C5 fails as stated.  B never published presence.  When B closes, the
    handler broadcasts nothing at all: no PRESENCE frame with state null
    goes out for B. *)
Lemma close_without_presence_broadcasts_nothing :
  JsMap.has "B" (customAwareness (self twoJoined)) = false
  ∧ since twoJoined (onClose "B" twoJoined).2 = [SetTimeout FinalCountAfterDisconnect 0]
  ∧ broadcasts (since twoJoined (onClose "B" twoJoined).2) = [].
Proof. split; [evaluate|]. split; evaluate. Qed.





Lemma update_with_storage_down :
  doc (self storageDown) = Some []
  ∧ Z.of_nat (List.length [op1]) <= number.MAX_SAFE_INTEGER
  ∧ Y_applyUpdate [] [op1] = Some [op1]
  ∧ storageAvailable (host storageDown) = false
  ∧ (onMessage "A" (BinaryFrame (updateFrame [op1])) 3 storageDown).1 = Abrupt StorageError.
Proof.
  assert (doc (self storageDown) = Some []) as Hdoc by evaluate.
  assert (Z.of_nat (List.length [op1]) <= number.MAX_SAFE_INTEGER) as Hlen by evaluate.
  assert (Y_applyUpdate [] [op1] = Some [op1]) as Happly by evaluate.
  assert (storageAvailable (host storageDown) = false) as Hdown by evaluate.
  split; [exact Hdoc|]. split; [exact Hlen|]. split; [exact Happly|]. split; [exact Hdown|].
  pose proof (update_is_persisted_storage_error_propagates storageDown "A" 3 [] [op1] [op1] []
                Hdoc Hlen Happly) as (_ & _ & _ & Hfails).
  cbv zeta in Hfails. rewrite app_nil_r in Hfails. exact (proj1 (Hfails Hdown)).
Defined.

(** C8 fails as stated.  The storage is down when the update of A arrives.
    The rebroadcast is made and the write is attempted; then the storage
    error leaves [onMessage] as an exception, and no line is logged. *)
Lemma storage_error_escapes_onMessage :
  storageAvailable (host storageDown) = false
  ∧ (onMessage "A" (BinaryFrame (updateFrame [op1])) 3 storageDown).1 = Abrupt StorageError
  ∧ since storageDown (onMessage "A" (BinaryFrame (updateFrame [op1])) 3 storageDown).2
    = [Broadcast (updateFrame [op1]) ["A"]; StoragePut persistenceKey [op1]]
  ∧ List.filter isLog
      (since storageDown (onMessage "A" (BinaryFrame (updateFrame [op1])) 3 storageDown).2)
    = [].
Proof. split; [evaluate|]. split; [evaluate|]. split; evaluate. Qed.

(** C9 fails as stated.  The caller destroys a connected provider; the
    browser then reports the close of the socket, and the timer the close
    handler armed fires: the provider opens a new socket.  The same happens
    when the close comes first and [destroy] second. *)
Lemma destroyed_provider_reconnects :
  Provider.trace
    (Provider.steps (Provider.connected "wss://host/parties/yjs-party/r1")
       [Provider.CallDestroy; Provider.SocketCloses; Provider.TimerFires])
  = [Provider.SocketClose; Provider.AwarenessDestroy;
     Provider.Emit "status" (JObj [("status", JStr "disconnected")]);
     Provider.SetTimeout Provider.Reconnect 1000;
     Provider.NewWebSocket "wss://host/parties/yjs-party/r1"]
  ∧ Provider.reconnects
      (Provider.trace
         (Provider.steps (Provider.connected "wss://host/parties/yjs-party/r1")
            [Provider.SocketCloses; Provider.CallDestroy; Provider.TimerFires]))
    = 1%nat.
Proof. split; evaluate. Qed.

Lemma step2_from_A_reaches_nobody :
  doc (self twoJoined) = Some []
  ∧ Z.of_nat (List.length [op1]) <= number.MAX_SAFE_INTEGER
  ∧ doc (self (onMessage "A" (BinaryFrame (step2Frame [op1])) 3 twoJoined).2) = Some [op1]
  ∧ broadcasts (since twoJoined (onMessage "A" (BinaryFrame (step2Frame [op1])) 3 twoJoined).2)
    = [].
Proof.
  assert (doc (self twoJoined) = Some []) as Hdoc by evaluate.
  assert (Z.of_nat (List.length [op1]) <= number.MAX_SAFE_INTEGER) as Hlen by evaluate.
  split; [exact Hdoc|]. split; [exact Hlen|].
  pose proof (sync_step2_is_applied_and_not_relayed twoJoined "A" 3 [] [op1] [] Hdoc Hlen)
    as (_ & Happlied & _ & Hquiet & _).
  rewrite app_nil_r in Happlied, Hquiet. split; [exact Happlied|exact Hquiet].
Defined.

Lemma cursor_of_A_reaches_the_others :
  doc (self twoJoined) = Some []
  ∧ JSON_parse (stringify cursor) = Some cursor
  ∧ since twoJoined
      (onMessage "A" (BinaryFrame (textFrame MESSAGE_AWARENESS (stringify cursor))) 3
         twoJoined).2
    = [Broadcast (awarenessFrame "A" cursor) ["A"]].
Proof.
  assert (doc (self twoJoined) = Some []) as Hdoc by evaluate.
  assert (decoding.readVarUint (textFrame MESSAGE_AWARENESS (stringify cursor))
          = Val (MESSAGE_AWARENESS, encoding.writeVarString [] (stringify cursor)))
    as Htag by evaluate.
  assert (decoding.readVarString (encoding.writeVarString [] (stringify cursor))
          = Val (stringify cursor, [])) as Hstr by evaluate.
  assert (JSON_parse (stringify cursor) = Some cursor) as Hparse by evaluate.
  split; [exact Hdoc|]. split; [exact Hparse|].
  pose proof (presence_is_stored_and_relayed twoJoined "A" 3 [] _ _ _ _ cursor
                Hdoc Htag Hstr Hparse) as (_ & _ & Htrace & _).
  unfold since. rewrite Htrace, drop_app_length. reflexivity.
Defined.

(** X3. One connection, then two, then one again: the three roster
    broadcasts of the room say solo with count 1, multi with count 2, and
    solo with count 1. *)
Theorem solo_multi_solo :
  ∃ first second third,
    broadcasts (trace (steps emptyRoom comeAndGo))
    = [(customFrame first, []); (customFrame second, []); (customFrame third, [])]
    ∧ path first ["data"; "mode"] = Some (JStr "solo")
    ∧ path first ["data"; "connectionCount"] = Some (JNum 1)
    ∧ path second ["data"; "mode"] = Some (JStr "multi")
    ∧ path second ["data"; "connectionCount"] = Some (JNum 2)
    ∧ path third ["data"; "mode"] = Some (JStr "solo")
    ∧ path third ["data"; "connectionCount"] = Some (JNum 1).
Proof.
  exists (connectionCountMessage ["A"] (self (steps emptyRoom (take 3 comeAndGo))) "connect" 1).
  exists (connectionCountMessage ["A"; "B"] (self (steps emptyRoom (take 5 comeAndGo))) "connect" 2).
  exists (connectionCountMessage ["A"] (self (steps emptyRoom comeAndGo)) "disconnect" 4).
  split; [evaluate|]. repeat split.
Qed.

(** * More rooms *)

Lemma update_of_A_survives_a_wake_up :
  doc (self (steps twoJoined
               [Deliver (Message "A" (BinaryFrame (updateFrame [op1]))) 3;
                Hibernate 4; Deliver Start 4])) = Some [op1].
Proof.
  assert (doc (self twoJoined) = Some []) as Hdoc by evaluate.
  assert (Z.of_nat (List.length [op1]) <= number.MAX_SAFE_INTEGER) as Hlen by evaluate.
  assert (Y_applyUpdate [] [op1] = Some [op1]) as Happly by evaluate.
  assert (storageAvailable (host twoJoined) = true) as Hup by evaluate.
  assert (Y_applyUpdate Y_Doc_new (Y_encodeStateAsUpdate [op1] emptyStateVector) = Some [op1])
    as Hback by evaluate.
  pose proof (document_survives_hibernation twoJoined "A" 3 4 [] [op1] [op1] []
                Hdoc Hlen Happly Hup Hback) as (H & _).
  rewrite app_nil_r in H. exact H.
Defined.

Lemma second_update_stores_the_first :
  storage (host (steps (step storageDown
                                (Deliver (Message "A" (BinaryFrame (updateFrame [op1]))) 3))
                   [Storage true;
                    Deliver (Message "B" (BinaryFrame (updateFrame [x08]))) 4]))
    !! persistenceKey
  = Some (Y_encodeStateAsUpdate [op1; x08] emptyStateVector).
Proof.
  assert (doc (self storageDown) = Some []) as Hdoc by evaluate.
  assert (Z.of_nat (List.length [op1]) <= number.MAX_SAFE_INTEGER) as Hlen1 by evaluate.
  assert (Z.of_nat (List.length [x08]) <= number.MAX_SAFE_INTEGER) as Hlen2 by evaluate.
  assert (Y_applyUpdate [] [op1] = Some [op1]) as Happly1 by evaluate.
  assert (Y_applyUpdate [op1] [x08] = Some [op1; x08]) as Happly2 by evaluate.
  assert (storageAvailable (host storageDown) = false) as Hdown by evaluate.
  pose proof (failed_write_is_made_up_by_the_next storageDown "A" "B" 3 4 [] [op1] [op1; x08]
                [op1] [x08] Hdoc Hlen1 Hlen2 Happly1 Happly2 Hdown) as (_ & _ & _ & H).
  exact H.
Defined.

Import Scenario.

Lemma alone_is_reachable : Reachable alone.
Proof. apply reach_join; [apply reach_start|]. cbn. apply not_elem_of_nil. Qed.

Lemma aloneThenWoken_is_reachable : Reachable aloneThenWoken.
Proof. apply reach_wake, alone_is_reachable. Qed.

Lemma pair_is_reachable : Reachable pair.
Proof. apply reach_join; [apply alone_is_reachable|]. decide_it. Qed.

Lemma roster_is_empty_after_the_wake_up :
  JsMap.keys (connectedUsers (self aloneThenWoken)) = [].
Proof.
  pose proof (roster_lists_the_live_connections_or_nothing _ aloneThenWoken_is_reachable)
    as (_ & _ & [H|H] & _); [exact H|].
  exfalso. revert H. evaluate.
Defined.

Lemma connect_of_B_after_the_wake_up_lists_A_and_B :
  JsMap.keys (connectedUsers
                (self (steps aloneThenWoken [Accept "B"; Deliver (Connect "B") 6])))
  = ["A"; "B"].
Proof.
  assert ("B" ∉ connections (host aloneThenWoken)) as Hfresh by decide_it.
  pose proof (connect_makes_the_roster_exact _ "B" 6 aloneThenWoken_is_reachable Hfresh)
    as (Hconns & Hkeys & _).
  cbv zeta in Hkeys, Hconns. rewrite Hkeys, Hconns. evaluate.
Defined.

Lemma D_is_called_like_C :
  identityOf "D" fourVisitors ≫= name = identityOf "C" fourVisitors ≫= name.
Proof.
  assert ("C" ∉ connections (host pair)) as Hc by decide_it.
  assert ("A" ∈ connections (host pair)) as Hx by decide_it.
  assert ("D" ∉ connections (host pair)) as Hd by decide_it.
  assert ("D" ≠ "C") as Hne by discriminate.
  destruct (newcomer_repeats_the_name_of_the_newest pair "C" "A" "D" 3 4 5
              pair_is_reachable Hc Hx Hd Hne) as (u & u' & Hu & Hu' & Hname & _).
  unfold fourVisitors. rewrite Hu, Hu'. exact Hname.
Defined.

Lemma status_with_a_cursor_stored_reports_no_state :
  JsMap.size (customAwareness
                (self (actor (delivers (deliver Start 0 pairWithCursor)
                                [(Message "A" (BinaryFrame
                                     (textFrame MESSAGE_AWARENESS (stringify cursor))), 1)]))))
  = 1
  ∧ ∃ body,
      (onRequest "/parties/yjs-party/room/status" 9
         (delivers (deliver Start 0 pairWithCursor)
            [(Message "A" (BinaryFrame (textFrame MESSAGE_AWARENESS (stringify cursor))), 1)])).1
      = Normal (JsonResponse body)
      ∧ path body ["awarenessStates"] = Some (JNum 0).
Proof.
  split; [evaluate|].
  assert (includes "/parties/yjs-party/room/status" "/status" = true) as Hstatus by evaluate.
  destruct (status_never_reports_the_presence_store pairWithCursor 0 9
              [(Message "A" (BinaryFrame (textFrame MESSAGE_AWARENESS (stringify cursor))), 1)]
              "/parties/yjs-party/room/status" Hstatus) as (_ & body & Hbody & Hstates & _).
  exists body. split; [exact Hbody|exact Hstates].
Defined.

Lemma clear_after_the_update_of_A_deletes_the_snapshot :
  storage (host (actor pairWithUpdate)) !! persistenceKey = Some [op1]
  ∧ storage (host (actor (onRequest "/parties/yjs-party/room/clear" 9 pairWithUpdate).2))
    !! persistenceKey = None.
Proof.
  split; [evaluate|].
  assert (includes "/parties/yjs-party/room/clear" "/status" = false) as Hstatus by evaluate.
  assert (includes "/parties/yjs-party/room/clear" "/clear" = true) as Hclear by evaluate.
  assert (doc (self (actor pairWithUpdate)) = Some [op1]) as Hdoc by evaluate.
  assert (storageAvailable (host (actor pairWithUpdate)) = true) as Hup by evaluate.
  destruct (clear_resets_document_and_snapshot pairWithUpdate "/parties/yjs-party/room/clear"
              9 10 [op1] Hstatus Hclear Hdoc Hup) as (_ & _ & Hgone & _).
  exact Hgone.
Defined.

Lemma clear_with_storage_down_brings_the_update_back :
  doc (self (actor (deliver Start 10
                      (reinstantiate 10
                         (withStorage true
                            (onRequest "/parties/yjs-party/room/clear" 9
                               (withStorage false pairWithUpdate)).2)))))
  = Some [op1].
Proof.
  assert (includes "/parties/yjs-party/room/clear" "/status" = false) as Hstatus by evaluate.
  assert (includes "/parties/yjs-party/room/clear" "/clear" = true) as Hclear by evaluate.
  assert (doc (self (actor (withStorage false pairWithUpdate))) = Some [op1]) as Hdoc by evaluate.
  assert (storageAvailable (host (actor (withStorage false pairWithUpdate))) = false)
    as Hdown by evaluate.
  assert (storage (host (actor (withStorage false pairWithUpdate))) !! persistenceKey
          = Some [op1]) as Hsnapshot by evaluate.
  assert (Y_applyUpdate Y_Doc_new [op1] = Some [op1]) as Hread by evaluate.
  destruct (failed_clear_is_undone_by_the_wake_up (withStorage false pairWithUpdate)
              "/parties/yjs-party/room/clear" 9 10 [op1] [op1] [op1]
              Hstatus Hclear Hdoc Hdown Hsnapshot Hread) as (_ & _ & _ & _ & Hback).
  exact Hback.
Defined.

Lemma destroyed_page_ignores_the_close_of_its_socket :
  Client.reconnects
    (Client.trace (Client.steps (Client.destroy page)
                     [Client.SocketCloses; Client.TimerFires; Client.SocketCloses]))
  = 1%nat.
Proof.
  assert (Client.timers page = []) as Ht by evaluate.
  destruct (destroyed_provider_stays_disconnected page
              [Client.SocketCloses; Client.TimerFires; Client.SocketCloses] Ht) as (H & _).
  rewrite H. evaluate.
Defined.

Lemma page_destroyed_within_the_second_opens_a_second_socket :
  Client.reconnects
    (Client.trace (Client.steps page
                     [Client.SocketCloses; Client.CallDestroy; Client.TimerFires]))
  = 2%nat.
Proof.
  assert (Client.destroyed (Client.self page) = false) as Hd by evaluate.
  assert (Client.timers page = []) as Ht by evaluate.
  destruct (destroy_does_not_cancel_a_pending_reconnect page Hd Ht) as (H & _).
  rewrite H. evaluate.
Defined.

Lemma page_gets_the_update_of_A_in_the_handshake :
  Client.doc (Client.self
                (Client.step (Client.step (listening "sync") Client.SocketOpens)
                   (Client.SocketReceives (diffFrame [op1] (Y_encodeStateVector [])))))
  = [op1]
  ∧ Client.calls
      (Client.since (Client.step (listening "sync") Client.SocketOpens)
         (Client.step (Client.step (listening "sync") Client.SocketOpens)
            (Client.SocketReceives (diffFrame [op1] (Y_encodeStateVector [])))))
    = [(7%nat, JBool true)].
Proof.
  assert (doc (self (actor pairWithUpdate)) = Some [op1]) as Hdoc by evaluate.
  assert (Client.synced (Client.self (listening "sync")) = false) as Hunsynced by evaluate.
  assert (Z.of_nat (List.length (Y_encodeStateVector (Client.doc (Client.self (listening "sync")))))
          <= number.MAX_SAFE_INTEGER) as Hsv by evaluate.
  assert (Z.of_nat (List.length
                      (Y_encodeStateAsUpdate [op1]
                         (Y_encodeStateVector (Client.doc (Client.self (listening "sync"))))))
          <= number.MAX_SAFE_INTEGER) as Hdiff by evaluate.
  assert (Y_applyUpdate (Client.doc (Client.self (listening "sync")))
            (Y_encodeStateAsUpdate [op1]
               (Y_encodeStateVector (Client.doc (Client.self (listening "sync")))))
          = Some [op1]) as Happly by evaluate.
  destruct (handshake_brings_the_document (actor pairWithUpdate) "B" 4 [op1]
              (listening "sync") [op1] Hdoc Hunsynced Hsv Hdiff Happly)
    as (_ & _ & _ & Hgot & _ & _ & Hcalls).
  split; [exact Hgot|]. etransitivity; [exact Hcalls|evaluate].
Defined.

Lemma update_of_A_reaches_the_page_of_B :
  broadcasts (since pair (onMessage "A" (BinaryFrame (updateFrame [op1])) 3 pair).2)
  = [(updateFrame [op1], ["A"])]
  ∧ Client.doc (Client.self (Client.step page (Client.SocketReceives (updateFrame [op1]))))
    = [op1].
Proof.
  assert (doc (self pair) = Some []) as Hdoc by evaluate.
  assert (Client.isOpen page = true) as Hopen by evaluate.
  assert (Z.of_nat (List.length [op1]) <= number.MAX_SAFE_INTEGER) as Hlen by evaluate.
  assert (Y_applyUpdate [] [op1] = Some [op1]) as Hserver by evaluate.
  assert (Y_applyUpdate (Client.doc (Client.self page)) [op1] = Some [op1]) as Hclient
    by evaluate.
  destruct (update_travels_without_echo pair "A" 3 [] [op1] page page [op1] [op1] [op1]
              Hdoc Hopen Hlen Hclient Hserver Hclient) as (_ & _ & Hrelay & _ & _ & Hgot & _).
  split; [exact Hrelay|exact Hgot].
Defined.

Lemma cursor_of_A_reaches_the_listener_of_B :
  Client.since (attentive "awareness")
    (Client.step (attentive "awareness") (Client.SocketReceives (awarenessFrame "A" cursor)))
  = [Client.Call 7 (cursorOf "A")].
Proof.
  assert (doc (self pair) = Some []) as Hdoc by evaluate.
  assert (Client.isOpen page = true) as Hopen by evaluate.
  assert (Z.of_nat (List.length (utf8_encode (JSON_stringify cursor)))
          <= number.MAX_SAFE_INTEGER) as Hlen by evaluate.
  assert (Z.of_nat (List.length (utf8_encode (JSON_stringify (cursorOf "A"))))
          <= number.MAX_SAFE_INTEGER) as Hlen' by evaluate.
  assert (JSON_parse (JSON_stringify cursor) = Some cursor) as Hparse by evaluate.
  assert (JSON_parse (JSON_stringify (cursorOf "A")) = Some (cursorOf "A")) as Hparse'
    by evaluate.
  destruct (presence_travels_to_the_other_pages pair "A" 3 [] page (attentive "awareness")
              cursor Hdoc Hopen Hlen Hlen' Hparse Hparse') as (_ & _ & _ & _ & Hcalls).
  rewrite Hcalls. evaluate.
Defined.

Lemma ping_of_the_page_is_answered_with_the_pong_of_3 :
  since pair (onMessage "A" (BinaryFrame (customFrame ping)) 3 pair).2
  = [Send "A" (pongFrame 3)]
  ∧ Client.since (Client.step (attentive "custom") (Client.CallSendCustomMessage ping))
      (Client.step
         (Client.step (attentive "custom") (Client.CallSendCustomMessage ping))
         (Client.SocketReceives (pongFrame 3)))
    = [Client.Call 7 (pongAt 3)].
Proof.
  assert (doc (self pair) = Some []) as Hdoc by evaluate.
  assert (Client.isOpen (attentive "custom") = true) as Hopen by evaluate.
  assert (property ping "type" = Val (Some (JStr "ping"))) as Htype by evaluate.
  assert (Z.of_nat (List.length (utf8_encode (JSON_stringify ping)))
          <= number.MAX_SAFE_INTEGER) as Hlen by evaluate.
  assert (Z.of_nat (List.length (utf8_encode (JSON_stringify (pongAt 3))))
          <= number.MAX_SAFE_INTEGER) as Hlen' by evaluate.
  assert (JSON_parse (JSON_stringify ping) = Some ping) as Hparse by evaluate.
  assert (JSON_parse (JSON_stringify (pongAt 3)) = Some (pongAt 3)) as Hparse' by evaluate.
  destruct (ping_comes_back_as_pong pair "A" 3 [] (attentive "custom") ping
              Hdoc Hopen Htype Hlen Hlen' Hparse Hparse') as (_ & Hpong & Hcalls).
  split; [exact Hpong|]. rewrite Hcalls. evaluate.
Defined.

Lemma config_of_A_reaches_the_listener_of_B :
  since pair (onMessage "A" (BinaryFrame (customFrame config)) 3 pair).2
  = [Broadcast (customFrame config) ["A"]]
  ∧ Client.since (attentive "custom")
      (Client.step (attentive "custom") (Client.SocketReceives (customFrame config)))
    = [Client.Call 7 config].
Proof.
  assert (doc (self pair) = Some []) as Hdoc by evaluate.
  assert (Client.isOpen page = true) as Hopen by evaluate.
  assert (property config "type" = Val (Some (JStr "config"))
          ∨ property config "type" = Val (Some (JStr "mode"))) as Htype by (left; evaluate).
  assert (Z.of_nat (List.length (utf8_encode (JSON_stringify config)))
          <= number.MAX_SAFE_INTEGER) as Hlen by evaluate.
  assert (JSON_parse (JSON_stringify config) = Some config) as Hparse by evaluate.
  destruct (config_reaches_the_other_pages pair "A" 3 [] page (attentive "custom") config
              Hdoc Hopen Htype Hlen Hparse) as (_ & Hrelay & Hcalls).
  split; [exact Hrelay|]. rewrite Hcalls. evaluate.
Defined.

Lemma status_after_s1_closed_and_s3_came_reports_a_mismatch :
  Raw.reportsMismatch (Raw.status (Raw.steps (Raw.construct [] []) twoSockets) 9)
  = Some (JBool false)
  ∧ Raw.reportsMismatch
      (Raw.status (Raw.steps (Raw.steps (Raw.construct [] []) twoSockets)
                     [Raw.Close "s1"; Raw.Fetch upgrade "s3" 3]) 9)
    = Some (JBool true).
Proof.
  assert (Raw.awake twoSockets = true) as Hawake1 by evaluate.
  assert (Raw.awake [Raw.Fetch upgrade "s3" 3] = true) as Hawake2 by evaluate.
  assert ("s1" ∈ Raw.sockets (Raw.steps (Raw.construct [] []) twoSockets)) as Hlive
    by decide_it.
  assert (Raw.steady twoSockets = true) as Hsteady by evaluate.
  destruct (counter_and_enumeration_part_ways twoSockets [Raw.Fetch upgrade "s3" 3] "s1" 9
              Hawake1 Hawake2 Hlive) as (Hmatch & Hmismatch & _).
  split; [exact (Hmatch Hsteady)|exact Hmismatch].
Defined.

Lemma A_unseen_by_the_host_has_no_name :
  identityOf "A" (onConnect "A" 1 started).2
  = Some {| name := None; color := None;
            profile_picture_url := "https://i.pravatar.cc/150?u=" +:+ "A" |}.
Proof.
  assert (doc (self started) = Some []) as Hdoc by evaluate.
  assert (connections (host started) = []) as Hnone by evaluate.
  destruct (connect_unseen_by_the_host_gets_no_name started "A" 1 [] Hdoc Hnone) as (H & _).
  exact H.
Defined.

Lemma offline_update_of_C_reaches_the_actor_but_not_the_storage :
  doc (self (onMessage "C" (BinaryFrame (diffFrame (Client.doc (Client.self returning))
                                           (Y_encodeStateVector [])))
               7 (onConnect "C" 6 pairAndC).2).2)
  = Some [op1]
  ∧ storage (host (onMessage "C" (BinaryFrame (diffFrame (Client.doc (Client.self returning))
                                                 (Y_encodeStateVector [])))
                     7 (onConnect "C" 6 pairAndC).2).2) !! persistenceKey
    = None.
Proof.
  assert (doc (self pairAndC) = Some []) as Hdoc by evaluate.
  assert (Z.of_nat (List.length (Y_encodeStateVector [])) <= number.MAX_SAFE_INTEGER)
    as Hsv by evaluate.
  assert (Z.of_nat (List.length (Y_encodeStateAsUpdate (Client.doc (Client.self returning))
                                   (Y_encodeStateVector [])))
          <= number.MAX_SAFE_INTEGER) as Hdiff by evaluate.
  assert (Y_applyUpdate [] (Y_encodeStateAsUpdate (Client.doc (Client.self returning))
                              (Y_encodeStateVector []))
          = Some [op1]) as Happly by evaluate.
  destruct (offline_changes_reach_the_actor_only pairAndC "C" 6 7 [] [op1] returning
              Hdoc Hsv Hdiff Happly) as (_ & _ & _ & Hmerged & _ & Hstorage).
  split; [exact Hmerged|]. cbv zeta in Hstorage. rewrite Hstorage. evaluate.
Defined.


